(** * filetool: file entities, file collections and size formatting

    A shallow embedding of [filetool/files.py] and [filetool/meth.py].

    Python strings are [string]; Python integers are [Z]; an object whose
    slot may be unset carries an [option]; code that can raise returns a
    [Result]; code that reads or rebinds class attributes of [WinFile]
    threads a [ClassState]; the file system is seen through the record
    [Disk] of the answers the [os] and [os.path] calls give. *)

From Stdlib Require Import String Ascii ZArith List Lia Bool Arith.
From Stdlib Require Import DecimalString.
Import ListNotations.

Open Scope string_scope.
Open Scope Z_scope.

(* ================================================================= *)
(** ** Python strings *)

Module PyStr.

(** [s[:n]] and [s[n:]] for [0 <= n]. *)
Fixpoint take (n : nat) (s : string) : string :=
  match n, s with
  | O, _ => ""
  | S _, "" => ""
  | S k, String a r => String a (take k r)
  end.

Fixpoint drop (n : nat) (s : string) : string :=
  match n, s with
  | O, _ => s
  | S _, "" => ""
  | S k, String _ r => drop k r
  end.

(** [s[i:j]] for non-negative [i], [j]. *)
Definition slice (i j : Z) (s : string) : string :=
  take (Z.to_nat j - Z.to_nat i) (drop (Z.to_nat i) s).

(** [s.rfind(c)] for a one-character [c]: the last index, [None] when
    Python answers [-1]. *)
Fixpoint rfind_opt (c : ascii) (s : string) : option nat :=
  match s with
  | "" => None
  | String a r =>
      match rfind_opt c r with
      | Some i => Some (S i)
      | None => if Ascii.eqb a c then Some O else None
      end
  end.

Definition rfind (c : ascii) (s : string) : Z :=
  match rfind_opt c s with
  | Some i => Z.of_nat i
  | None => -1
  end.

Definition startswith (s pre : string) : bool := String.prefix pre s.

Fixpoint endswith_char (s : string) (c : ascii) : bool :=
  match s with
  | "" => false
  | String a "" => Ascii.eqb a c
  | String _ r => endswith_char r c
  end.

Fixpoint all_char (c : ascii) (s : string) : bool :=
  match s with
  | "" => true
  | String a r => Ascii.eqb a c && all_char c r
  end.

Fixpoint has_char (c : ascii) (s : string) : bool :=
  match s with
  | "" => false
  | String a r => Ascii.eqb a c || has_char c r
  end.

(** [s.rstrip(c)]. *)
Fixpoint rstrip (c : ascii) (s : string) : string :=
  match s with
  | "" => ""
  | String a r =>
      match rstrip c r with
      | "" => if Ascii.eqb a c then "" else String a ""
      | r' => String a r'
      end
  end.

(** [s.split(c)]: the pieces between the occurrences of [c]; never the
    empty list. *)
Fixpoint split (c : ascii) (s : string) : list string :=
  match s with
  | "" => [""]
  | String a r =>
      if Ascii.eqb a c then "" :: split c r
      else match split c r with
           | [] => [String a ""]
           | p :: ps => String a p :: ps
           end
  end.

(** [s.lower()] on the ASCII letters. *)
Definition lower_char (a : ascii) : ascii :=
  let n := nat_of_ascii a in
  if ((65 <=? n)%nat && (n <=? 90)%nat)%bool then ascii_of_nat (n + 32) else a.

Fixpoint lower (s : string) : string :=
  match s with
  | "" => ""
  | String a r => String (lower_char a) (lower r)
  end.

(** A decimal digit. *)
Definition is_digit (a : ascii) : bool :=
  let n := nat_of_ascii a in ((48 <=? n)%nat && (n <=? 57)%nat)%bool.

(** [str(n)] for an integer. *)
Definition of_Z (n : Z) : string := NilZero.string_of_int (Z.to_int n).

(** [s in l] for a list of strings. *)
Definition mem (s : string) (l : list string) : bool :=
  existsb (String.eqb s) l.

(** [needle in s] for two strings. *)
Fixpoint in_str (needle s : string) : bool :=
  match s with
  | "" => String.prefix needle ""
  | String _ r => String.prefix needle s || in_str needle r
  end.

End PyStr.

(* ================================================================= *)
(** ** [os.path] on a POSIX system *)

Module PosixPath.
Import PyStr.

Definition sep : ascii := "/"%char.
Definition extsep : ascii := "."%char.

Definition isabs (p : string) : bool := startswith p "/".

(** [posixpath.split]: everything up to the last separator, and the rest;
    trailing separators of the head are stripped unless it is only
    separators. *)
Definition split (p : string) : string * string :=
  let i := rfind sep p + 1 in
  let head := slice 0 i p in
  let tail := drop (Z.to_nat i) p in
  let head := if negb (head =? "")%string && negb (all_char sep head)
              then rstrip sep head else head in
  (head, tail).

(** [posixpath.splitext]: the extension starts at the last dot, unless
    that dot is before the last separator or has only dots between it and
    the start of the last component. *)
Definition splitext (p : string) : string * string :=
  let sepIndex := rfind sep p in
  let dotIndex := rfind extsep p in
  if (dotIndex >? sepIndex)
     && negb (all_char extsep (slice (sepIndex + 1) dotIndex p))
  then (slice 0 dotIndex p, drop (Z.to_nat dotIndex) p)
  else (p, "").

(** [posixpath.join(a, b)]. *)
Definition join (a b : string) : string :=
  if startswith b "/" then b
  else if (a =? "")%string || endswith_char a sep then a ++ b
  else a ++ "/" ++ b.

(** The loop of [posixpath.normpath] over the components. *)
Definition norm_step (initial_slashes : nat) (new_comps : list string)
           (comp : string) : list string :=
  if (comp =? "")%string || (comp =? ".")%string then new_comps
  else if negb (comp =? "..")%string
          || (Nat.eqb initial_slashes 0 && match new_comps with [] => true | _ => false end)
          || match rev new_comps with
             | last :: _ => (last =? "..")%string
             | [] => false
             end
       then (new_comps ++ [comp])%list
       else removelast new_comps.

Definition normpath (path : string) : string :=
  if (path =? "")%string then "."
  else
    let initial_slashes :=
      if startswith path "/" then
        if startswith path "//" && negb (startswith path "///") then 2%nat
        else 1%nat
      else 0%nat in
    let comps := fold_left (norm_step initial_slashes) (PyStr.split sep path) [] in
    let path := String.concat "/" comps in
    let path := (match initial_slashes with
                 | 0%nat => ""
                 | 1%nat => "/"
                 | _ => "//"
                 end) ++ path in
    if (path =? "")%string then "." else path.

(** A component of a normalized path: not empty, no separator. *)
Definition comp_ok (c : string) : Prop :=
  c <> "" /\ has_char sep c = false.

(** [posixpath.abspath], with the answer of [os.getcwd()] as argument. *)
Definition abspath (cwd path : string) : string :=
  normpath (if isabs path then path else join cwd path).

End PosixPath.

(* ================================================================= *)
(** ** Exceptions *)

Inductive Exn : Type :=
| EnvironmentError | ValueError | TypeError | IndexError
| AttributeError | KeyError | OSError.

Inductive Result (A : Type) : Type :=
| Ok (a : A)
| Raise (e : Exn).

Arguments Ok {A} a.
Arguments Raise {A} e.

Definition bind {A B : Type} (r : Result A) (k : A -> Result B) : Result B :=
  match r with
  | Ok a => k a
  | Raise e => Raise e
  end.

Notation "x <- c ;; k" := (bind c (fun x => k))
  (at level 61, c at next level, right associativity).

(* ================================================================= *)
(** ** [filetool/meth.py] *)

Module Meth.

(** Rounding of the rational [num / den], [den > 0], to the nearest
    integer, ties to even. *)
Definition round_half_even (num den : Z) : Z :=
  let q := num / den in
  let r := num mod den in
  if 2 * r <? den then q
  else if 2 * r >? den then q + 1
  else if Z.even q then q else q + 1.

Fixpoint zfill (width : nat) (s : string) : string :=
  match (width - String.length s)%nat with
  | O => s
  | S _ => match width with
           | O => s
           | S w => "0" ++ zfill w s
           end
  end.

(** The digits of the non-negative float [x = num / den] in fixed
    notation with [prec] decimals.  The floats this is applied to below
    are [q + m/1024.0] with [0 <= q, m < 1024]: dyadic rationals of at
    most 20 significant bits, which binary64 holds exactly, so that the
    division and the sum are exact and the conversion to decimal rounds
    the exact value (Python rounds it correctly, ties to even). *)
Definition to_fixed (prec : nat) (num den : Z) : string :=
  let scale := 10 ^ Z.of_nat prec in
  let r := round_half_even (num * scale) den in
  match prec with
  | O => PyStr.of_Z r
  | _ => PyStr.of_Z (r / scale) ++ "." ++ zfill prec (PyStr.of_Z (r mod scale))
  end.

(** C's [INT_MAX], the largest precision [str.format] takes. *)
Definition INT_MAX : Z := 2 ^ 31 - 1.

(** [("{0:.%sf}" % prec).format(x)] for an integer [prec] and the float
    [x = num / den]: a negative precision leaves the format without one
    ("Format specifier missing precision"), one above [INT_MAX] is "too
    big"; both are a [ValueError].  The memory a large precision takes
    is not modelled. *)
Definition format_f (prec : Z) (num den : Z) : Result string :=
  if (0 <=? prec) && (prec <=? INT_MAX)
  then Ok (to_fixed (Z.to_nat prec) num den)
  else Raise ValueError.

Definition magnitude_of_data : list string :=
  ["B"; "KB"; "MB"; "GB"; "TB"; "PB"; "EB"; "ZB"; "YB"].

(** The [while 1] loop: [(index, size_in_bytes, mod)] at the [break].
    The fuel bounds the number of rounds; [loop_exit] below shows that
    with the fuel [repr_data_size] gives, the loop leaves through its
    [break]. *)
Fixpoint loop (fuel : nat) (index size_in_bytes : Z) : Z * Z * Z :=
  let index := index + 1 in
  let size_in_bytes' := size_in_bytes / 1024 in
  let mod_ := size_in_bytes mod 1024 in
  match fuel with
  | O => (index, size_in_bytes', mod_)
  | S fuel' =>
      if size_in_bytes' <? 1024 then (index, size_in_bytes', mod_)
      else loop fuel' index size_in_bytes'
  end.

Definition loop_fuel (size_in_bytes : Z) : nat :=
  Z.to_nat (Z.log2 size_in_bytes).

(** [repr_data_size]; [precision] is an integer.  The arguments of
    [template.format] are evaluated before it is called, so the lookup
    in [magnitude_of_data] fails before the precision is looked at. *)
Definition repr_data_size (size_in_bytes : Z) (precision : Z) : Result string :=
  if size_in_bytes <? 1024 then Ok (PyStr.of_Z size_in_bytes ++ " B")
  else
    let '(index, size_in_bytes', mod_) :=
      loop (loop_fuel size_in_bytes) 0 size_in_bytes in
    match nth_error magnitude_of_data (Z.to_nat index) with
    | None => Raise IndexError
    | Some unit =>
        s <- format_f precision (size_in_bytes' * 1024 + mod_) 1024 ;;
        Ok (s ++ " " ++ unit)
    end.

End Meth.

(* ================================================================= *)
(** ** The file system *)

(** What the [os] and [os.path] calls of the program answer at one point in
    time.  [walk dir] lists what [os.walk(dir)] yields: each visited folder
    with the names of its files.  [md5file p] is what [meth.md5file]
    computes from the content of [p].  The stat calls and the hash are
    total: the program only applies them to paths it has constructed a
    [WinFile] for. *)
Record Disk : Type := mkDisk {
  getcwd : string;
  isfile : string -> bool;
  isdir : string -> bool;
  walk : string -> list (string * list string);
  getsize : string -> Z;
  getatime : string -> Z;
  getctime : string -> Z;
  getmtime : string -> Z;
  md5file : string -> string
}.

(** Modelled from the spec: [filetool/printer.py] is not among the sources;
    [prt(message, enable_verbose)] reports the message when
    [enable_verbose] holds.  The reports are collected in a log. *)
Definition prt (message : string) (enable_verbose : bool) (out : list string)
  : list string :=
  if enable_verbose then (out ++ [message])%list else out.

(* ================================================================= *)
(** ** [collections.OrderedDict] with string keys *)

Module OD.
Section Dict.
Context {V : Type}.

Definition t := list (string * V).

Definition keys (d : t) : list string := map fst d.
Definition values (d : t) : list V := map snd d.

Fixpoint get (d : t) (k : string) : option V :=
  match d with
  | [] => None
  | (k', v) :: r => if (k' =? k)%string then Some v else get r k
  end.

Definition contains (d : t) (k : string) : bool :=
  match get d k with Some _ => true | None => false end.

(** [d[k] = v]: an existing key keeps its place. *)
Fixpoint set (d : t) (k : string) (v : V) : t :=
  match d with
  | [] => [(k, v)]
  | (k', v') :: r =>
      if (k' =? k)%string then (k', v) :: r else (k', v') :: set r k v
  end.

Definition setdefault (d : t) (k : string) (v : V) : t :=
  if contains d k then d else (d ++ [(k, v)])%list.

Fixpoint remove (d : t) (k : string) : t :=
  match d with
  | [] => []
  | (k', v) :: r => if (k' =? k)%string then r else (k', v) :: remove r k
  end.

(** [del d[k]]; [None] stands for [KeyError]. *)
Definition del (d : t) (k : string) : option t :=
  if contains d k then Some (remove d k) else None.
End Dict.
Arguments t : clear implicits.
End OD.

(* ================================================================= *)
(** ** [class WinFile] *)

Module WinFile.

(** The slots.  The five path slots are set by every initializer; the
    others stay unset ([None]) under the cheaper ones.  Times are the
    time stamps the [datetime] objects are built from. *)
Record t : Type := mk {
  abspath : string;
  dirname : string;
  basename : string;
  fname : string;
  ext : string;
  atime : option Z;
  ctime : option Z;
  mtime : option Z;
  size_on_disk : option Z;
  md5 : option string
}.

(** What [WinFile.initialize] is bound to. *)
Inductive Initializer : Type :=
| initialize_def   (* the method [initialize] of the class body *)
| level1
| level2
| level3.

(** The class attributes the static methods rebind. *)
Record ClassState : Type := mkClass {
  initialize : Initializer;
  init_mode : Z
}.

Definition class_body : ClassState :=
  {| initialize := initialize_def; init_mode := 2 |}.

Definition use_fast_init (cs : ClassState) : ClassState :=
  {| initialize := level1; init_mode := 1 |}.

Definition use_regular_init (cs : ClassState) : ClassState :=
  {| initialize := level2; init_mode := 2 |}.

Definition use_slow_init (cs : ClassState) : ClassState :=
  {| initialize := level3; init_mode := 3 |}.

Definition set_initialize_mode (cs : ClassState) (complexity : Z)
  : ClassState * Result unit :=
  if complexity =? 3 then ({| initialize := level3; init_mode := 3 |}, Ok tt)
  else if complexity =? 2 then ({| initialize := level2; init_mode := 2 |}, Ok tt)
  else if complexity =? 1 then ({| initialize := level1; init_mode := 1 |}, Ok tt)
  else (cs, Raise ValueError).

Definition level1_initialize (self : t) : t :=
  let '(dirname, basename) := PosixPath.split (abspath self) in
  let '(fname, ext) := PosixPath.splitext basename in
  let ext := PyStr.lower ext in
  {| abspath := abspath self; dirname := dirname; basename := basename;
     fname := fname; ext := ext;
     atime := atime self; ctime := ctime self; mtime := mtime self;
     size_on_disk := size_on_disk self; md5 := md5 self |}.

Definition level2_initialize (d : Disk) (self : t) : t :=
  let '(dirname, basename) := PosixPath.split (abspath self) in
  let '(fname, ext) := PosixPath.splitext basename in
  let ext := PyStr.lower ext in
  {| abspath := abspath self; dirname := dirname; basename := basename;
     fname := fname; ext := ext;
     atime := Some (getatime d (abspath self));
     ctime := Some (getctime d (abspath self));
     mtime := Some (getmtime d (abspath self));
     size_on_disk := Some (getsize d (abspath self));
     md5 := md5 self |}.

Definition level3_initialize (d : Disk) (self : t) : t :=
  let '(dirname, basename) := PosixPath.split (abspath self) in
  let '(fname, ext) := PosixPath.splitext basename in
  let ext := PyStr.lower ext in
  {| abspath := abspath self; dirname := dirname; basename := basename;
     fname := fname; ext := ext;
     atime := Some (getatime d (abspath self));
     ctime := Some (getctime d (abspath self));
     mtime := Some (getmtime d (abspath self));
     size_on_disk := Some (getsize d (abspath self));
     md5 := Some (md5file d (abspath self)) |}.

(** [self.initialize()] under the current binding. *)
Definition run_initialize (cs : ClassState) (d : Disk) (self : t) : t :=
  match initialize cs with
  | initialize_def => level2_initialize d self
  | level1 => level1_initialize self
  | level2 => level2_initialize d self
  | level3 => level3_initialize d self
  end.

(** The object [__init__] starts from: only [abspath] is set.  The other
    path slots are assigned by the initializer before anything reads
    them. *)
Definition fresh (abspath : string) : t :=
  {| abspath := abspath; dirname := ""; basename := ""; fname := ""; ext := "";
     atime := None; ctime := None; mtime := None;
     size_on_disk := None; md5 := None |}.

Definition __init__ (cs : ClassState) (d : Disk) (abspath : string) : Result t :=
  if isfile d abspath
  then Ok (run_initialize cs d (fresh (PosixPath.abspath (getcwd d) abspath)))
  else Raise EnvironmentError.

Definition __str__ (self : t) : string := abspath self.

(** Truth value of an optional string argument: [None] and [""] are false. *)
Definition truthy (o : option string) : bool :=
  match o with
  | None => false
  | Some s => negb (s =? "")%string
  end.

Definition or_else (o : option string) (dflt : string) : string :=
  match o with
  | Some s => if (s =? "")%string then dflt else s
  | None => dflt
  end.

Definition update (self : t) (new_dirname new_fname new_ext : option string) : t :=
  let dirname := or_else new_dirname (dirname self) in
  let fname := or_else new_fname (fname self) in
  let ext := or_else new_ext (ext self) in
  let basename := fname ++ ext in
  {| abspath := PosixPath.join dirname basename;
     dirname := dirname; basename := basename; fname := fname; ext := ext;
     atime := atime self; ctime := ctime self; mtime := mtime self;
     size_on_disk := size_on_disk self; md5 := md5 self |}.

(** [rename]: the disk and the object after the call, and how the call
    ended.  [os_rename d src dst] is what [os.rename] does to the disk,
    or the exception it raises, the disk left as it was. *)
Definition rename (os_rename : Disk -> string -> string -> Result Disk)
           (d : Disk) (self : t) (new_dirname new_fname new_ext : option string)
  : Disk * t * Result unit :=
  let new_dirname' :=
    match new_dirname with
    | Some s => if (s =? "")%string then dirname self
                else PosixPath.abspath (getcwd d) s
    | None => dirname self
    end in
  let new_fname' := or_else new_fname (fname self) in
  let checked_ext : Result string :=
    match new_ext with
    | Some s => if (s =? "")%string then Ok (ext self)
                else if PyStr.startswith s "." then Ok s
                     else Raise ValueError
    | None => Ok (ext self)
    end in
  match checked_ext with
  | Raise e => (d, self, Raise e)
  | Ok new_ext' =>
      let new_basename := new_fname' ++ new_ext' in
      let new_abspath := PosixPath.join new_dirname' new_basename in
      match os_rename d (abspath self) new_abspath with
      | Raise e => (d, self, Raise e)
      | Ok d' =>
          (d',
           {| abspath := new_abspath; dirname := new_dirname';
              basename := new_basename; fname := new_fname'; ext := new_ext';
              atime := atime self; ctime := ctime self; mtime := mtime self;
              size_on_disk := size_on_disk self; md5 := md5 self |},
           Ok tt)
      end
  end.

(** Values an attribute can hold; [VObj] stands for the ones Python does
    not order (bound methods and the like). *)
Inductive Value : Type :=
| VStr (s : string)
| VInt (n : Z)
| VObj.

Definition slot {A : Type} (inj : A -> Value) (o : option A) : Result Value :=
  match o with
  | Some a => Ok (inj a)
  | None => Raise AttributeError
  end.

(** [getattr(self, name)].  [class_attr] is what the lookup finds on the
    class for a name that is not a slot. *)
Definition getattr (class_attr : string -> option Value) (self : t)
           (name : string) : Result Value :=
  if (name =? "abspath")%string then Ok (VStr (abspath self))
  else if (name =? "dirname")%string then Ok (VStr (dirname self))
  else if (name =? "basename")%string then Ok (VStr (basename self))
  else if (name =? "fname")%string then Ok (VStr (fname self))
  else if (name =? "ext")%string then Ok (VStr (ext self))
  else if (name =? "atime")%string then slot VInt (atime self)
  else if (name =? "ctime")%string then slot VInt (ctime self)
  else if (name =? "mtime")%string then slot VInt (mtime self)
  else if (name =? "size_on_disk")%string then slot VInt (size_on_disk self)
  else if (name =? "md5")%string then slot VStr (md5 self)
  else slot (fun v => v) (class_attr name).

End WinFile.

(* ================================================================= *)
(** ** [os.path.relpath] *)

Module OsPath.
Import PosixPath.

(** [posixpath.join(a, *p)]. *)
Definition join_all (a : string) (p : list string) : string :=
  fold_left join p a.

(** [[x for x in p.split(sep) if x]]. *)
Definition comps (p : string) : list string :=
  filter (fun x => negb (x =? "")%string) (PyStr.split sep p).

(** [len(commonprefix([l1, l2]))] on two lists of components: the length
    of their longest common prefix. *)
Fixpoint common_len (l1 l2 : list string) : nat :=
  match l1, l2 with
  | x :: r1, y :: r2 => if (x =? y)%string then S (common_len r1 r2) else O
  | _, _ => O
  end.

(** [posixpath.relpath(path, start)], with the answer of [os.getcwd()]. *)
Definition relpath (cwd path start : string) : Result string :=
  if (path =? "")%string then Raise ValueError
  else
    let start_list := comps (abspath cwd start) in
    let path_list := comps (abspath cwd path) in
    let i := common_len start_list path_list in
    let rel_list :=
      (repeat ".." (List.length start_list - i) ++ skipn i path_list)%list in
    match rel_list with
    | [] => Ok "."
    | a :: p => Ok (join_all a p)
    end.

End OsPath.

(* ================================================================= *)
(** ** [class FileCollection] *)

Module FileCollection.

(** [self.files] and [self.order]; the attribute [order] does not exist
    ([None]) until [sort_by] has assigned it. *)
Record t : Type := mk {
  files : OD.t WinFile.t;
  order : option (list string)
}.

(** A path, or a list or set of paths, as the factories take them. *)
Inductive PathArg : Type :=
| One (path : string)
| Many (paths : list string).

(** [_preprocess]: a list or set goes through [set(...)]; [set_iter l] is
    the order in which Python iterates over [set(l)]. *)
Definition _preprocess (set_iter : list string -> list string) (arg : PathArg)
  : list string :=
  match arg with
  | One path => [path]
  | Many paths => set_iter paths
  end.

(** The loop of [__init__]. *)
Fixpoint init_loop (cs : WinFile.ClassState) (d : Disk) (paths : list string)
         (fs : OD.t WinFile.t) : Result (OD.t WinFile.t) :=
  match paths with
  | [] => Ok fs
  | abspath :: rest =>
      winfile <- WinFile.__init__ cs d abspath ;;
      init_loop cs d rest (OD.set fs (WinFile.abspath winfile) winfile)
  end.

Definition __init__ (set_iter : list string -> list string)
           (cs : WinFile.ClassState) (d : Disk) (arg : PathArg) : Result t :=
  fs <- init_loop cs d (_preprocess set_iter arg) [] ;;
  Ok {| files := fs; order := None |}.

(** [FileCollection()]. *)
Definition empty : t := {| files := []; order := None |}.

(** How [files] is kept by the methods: the keys of a dictionary are
    distinct, and every entity is filed under its own [abspath]. *)
Definition wf_files (fs : OD.t WinFile.t) : Prop :=
  NoDup (OD.keys fs) /\
  forall k w, In (k, w) fs -> WinFile.abspath w = k.

Definition __len__ (self : t) : Z := Z.of_nat (List.length (files self)).

(** An argument of [add], [remove] and [__contains__]. *)
Inductive Item : Type :=
| ItemPath (path : string)
| ItemWinFile (winfile : WinFile.t)
| ItemOther.

Definition __contains__ (d : Disk) (self : t) (item : Item) : Result bool :=
  match item with
  | ItemPath path =>
      Ok (OD.contains (files self) (PosixPath.abspath (getcwd d) path))
  | ItemWinFile winfile => Ok (OD.contains (files self) (WinFile.abspath winfile))
  | ItemOther => Raise TypeError
  end.

(** The [isinstance] dispatch at the head of [add] and [remove]: a path is
    made into a [WinFile]. *)
Definition resolve (cs : WinFile.ClassState) (d : Disk) (item : Item)
  : Result WinFile.t :=
  match item with
  | ItemPath path => WinFile.__init__ cs d path
  | ItemWinFile winfile => Ok winfile
  | ItemOther => Raise TypeError
  end.

(** [add] and [remove]: the collection and the log after the call, and
    how the call ended. *)
Definition add (cs : WinFile.ClassState) (d : Disk) (self : t) (out : list string)
           (abspath_or_winfile : Item) (enable_verbose : bool)
  : t * list string * Result unit :=
  match resolve cs d abspath_or_winfile with
  | Raise e => (self, out, Raise e)
  | Ok winfile =>
      if OD.contains (files self) (WinFile.abspath winfile)
      then (self,
            prt ("'" ++ WinFile.__str__ winfile ++ "' already in this collections")
                enable_verbose out,
            Ok tt)
      else ({| files := OD.setdefault (files self) (WinFile.abspath winfile) winfile;
               order := order self |}, out, Ok tt)
  end.

Definition remove (cs : WinFile.ClassState) (d : Disk) (self : t) (out : list string)
           (abspath_or_winfile : Item) (enable_verbose : bool)
  : t * list string * Result unit :=
  match resolve cs d abspath_or_winfile with
  | Raise e => (self, out, Raise e)
  | Ok winfile =>
      match OD.del (files self) (WinFile.abspath winfile) with
      | Some fs => ({| files := fs; order := order self |}, out, Ok tt)
      | None =>
          (self,
           if enable_verbose
           then prt ("'" ++ WinFile.__str__ winfile
                         ++ "' are not in this file collections")
                    enable_verbose out
           else out,
           Ok tt)
      end
  end.

(** The [try] block of [iterfiles]: the entities yielded along [order];
    at the first path that is not a key the [KeyError] is caught and the
    [except] block yields every value of [files]. *)
Fixpoint iterfiles_try (fs : OD.t WinFile.t) (order : list string)
  : list WinFile.t :=
  match order with
  | [] => []
  | path :: rest =>
      match OD.get fs path with
      | Some winfile => winfile :: iterfiles_try fs rest
      | None => OD.values fs
      end
  end.

(** What the generator [iterfiles] yields; without [order] the
    [AttributeError] is caught at once. *)
Definition iterfiles (self : t) : list WinFile.t :=
  match order self with
  | Some o => iterfiles_try (files self) o
  | None => OD.values (files self)
  end.

Definition iterpaths (self : t) : list string :=
  match order self with
  | Some o => o
  | None => OD.keys (files self)
  end.

Definition __iter__ (self : t) : list string := iterpaths self.

(** [yield_all_file_path]. *)
Definition yield_all_file_path (d : Disk) (dir_abspath : string)
  : Result (list string) :=
  if isdir d dir_abspath then
    let dir_abspath := PosixPath.abspath (getcwd d) dir_abspath in
    Ok (flat_map (fun '(current_folder, fnamelist) =>
                    map (PosixPath.join current_folder) fnamelist)
                 (walk d dir_abspath))
  else Raise EnvironmentError.

(** One round of [for winfile in yield_all_winfile(dir_path)] with the
    body [if criterion(winfile): fc.files.setdefault(...)]; the
    generator constructs the entity just before the body runs. *)
Fixpoint select_loop (cs : WinFile.ClassState) (d : Disk)
         (criterion : WinFile.t -> Result bool)
         (paths : list string) (fs : OD.t WinFile.t) : Result (OD.t WinFile.t) :=
  match paths with
  | [] => Ok fs
  | abspath :: rest =>
      winfile <- WinFile.__init__ cs d abspath ;;
      keep <- criterion winfile ;;
      select_loop cs d criterion rest
        (if keep : bool then OD.setdefault fs (WinFile.abspath winfile) winfile
         else fs)
  end.

Fixpoint dirs_loop (cs : WinFile.ClassState) (d : Disk)
         (criterion : WinFile.t -> Result bool)
         (dirs : list string) (fs : OD.t WinFile.t) : Result (OD.t WinFile.t) :=
  match dirs with
  | [] => Ok fs
  | dir_path :: rest =>
      paths <- yield_all_file_path d dir_path ;;
      fs' <- select_loop cs d criterion paths fs ;;
      dirs_loop cs d criterion rest fs'
  end.

(** [from_path_by_criterion(..., keepboth=False)]. *)
Definition from_path_by_criterion (set_iter : list string -> list string)
           (cs : WinFile.ClassState) (d : Disk) (path_or_path_list : PathArg)
           (criterion : WinFile.t -> Result bool) : Result t :=
  let path_or_path_list := _preprocess set_iter path_or_path_list in
  fs <- dirs_loop cs d criterion path_or_path_list [] ;;
  Ok {| files := fs; order := None |}.

Definition from_path (set_iter : list string -> list string)
           (cs : WinFile.ClassState) (d : Disk) (path_or_path_list : PathArg)
  : Result t :=
  let path_or_path_list := _preprocess set_iter path_or_path_list in
  fs <- dirs_loop cs d (fun _ => Ok true) path_or_path_list [] ;;
  Ok {| files := fs; order := None |}.

Definition default_min_size : Z := 0.
Definition default_max_size : Z := Z.shiftl 1 40.

Definition size_filter (min_size max_size : Z) (winfile : WinFile.t)
  : Result bool :=
  match WinFile.size_on_disk winfile with
  | None => Raise AttributeError
  | Some size => Ok ((size >=? min_size) && (size <=? max_size))
  end.

(** [from_path_by_size]; an argument left out is [None]. *)
Definition from_path_by_size (set_iter : list string -> list string)
           (cs : WinFile.ClassState) (d : Disk) (path_or_path_list : PathArg)
           (min_size max_size : option Z) : Result t :=
  let min_size := match min_size with Some n => n | None => default_min_size end in
  let max_size := match max_size with Some n => n | None => default_max_size end in
  let path_or_path_list := _preprocess set_iter path_or_path_list in
  from_path_by_criterion set_iter cs d (Many path_or_path_list)
                         (size_filter min_size max_size).

Definition md5_filter (md5_value : string) (winfile : WinFile.t) : Result bool :=
  match WinFile.md5 winfile with
  | None => Raise AttributeError
  | Some h => Ok (h =? md5_value)%string
  end.

(** [from_path_by_md5]: the class state after the call, and the result. *)
Definition from_path_by_md5 (set_iter : list string -> list string)
           (cs : WinFile.ClassState) (d : Disk) (path_or_path_list : PathArg)
           (md5_value : string) : WinFile.ClassState * Result t :=
  let path_or_path_list := _preprocess set_iter path_or_path_list in
  let init_mode := WinFile.init_mode cs in
  let cs := WinFile.use_slow_init cs in
  match from_path_by_criterion set_iter cs d (Many path_or_path_list)
                               (md5_filter md5_value) with
  | Raise e => (cs, Raise e)
  | Ok fc =>
      match WinFile.set_initialize_mode cs init_mode with
      | (cs, Raise e) => (cs, Raise e)
      | (cs, Ok _) => (cs, Ok fc)
      end
  end.

(** The loop of [sort_by] filling [d]. *)
Fixpoint attr_loop (class_attr : string -> option WinFile.Value)
         (attr_name : string) (fs : OD.t WinFile.t)
         (d : OD.t WinFile.Value) : Result (OD.t WinFile.Value) :=
  match fs with
  | [] => Ok d
  | (abspath, winfile) :: rest =>
      v <- WinFile.getattr class_attr winfile attr_name ;;
      attr_loop class_attr attr_name rest (OD.set d abspath v)
  end.

(** [a < b] on attribute values; [None] where Python 3 raises
    [TypeError]. *)
Definition value_lt (a b : WinFile.Value) : option bool :=
  match a, b with
  | WinFile.VStr x, WinFile.VStr y => Some (String.ltb x y)
  | WinFile.VInt x, WinFile.VInt y => Some (x <? y)
  | _, _ => None
  end.

Definition lt_or_false (a b : WinFile.Value) : bool :=
  match value_lt a b with Some c => c | None => false end.

(** Insertion that keeps equal keys in their first order, ascending or,
    with [reverse], descending. *)
Fixpoint insert_item (reverse : bool) (x : string * WinFile.Value)
         (l : list (string * WinFile.Value)) : list (string * WinFile.Value) :=
  match l with
  | [] => [x]
  | y :: r =>
      if (if reverse then lt_or_false (snd x) (snd y)
          else lt_or_false (snd y) (snd x))
      then y :: insert_item reverse x r
      else x :: y :: r
  end.

Definition all_str (l : list (string * WinFile.Value)) : bool :=
  forallb (fun it => match snd it with WinFile.VStr _ => true | _ => false end) l.

Definition all_int (l : list (string * WinFile.Value)) : bool :=
  forallb (fun it => match snd it with WinFile.VInt _ => true | _ => false end) l.

(** [sorted(items, key=lambda t: t[1], reverse=reverse)]: a stable sort
    when the keys are all strings or all integers; with fewer than two
    items nothing is compared; otherwise a comparison raises. *)
Definition sorted (items : list (string * WinFile.Value)) (reverse : bool)
  : Result (list (string * WinFile.Value)) :=
  if all_str items || all_int items
  then Ok (fold_right (insert_item reverse) [] items)
  else if (List.length items <=? 1)%nat then Ok items
  else Raise TypeError.

(** [sort_by]: the collection after the call, and how the call ended. *)
Definition sort_by (class_attr : string -> option WinFile.Value)
           (self : t) (attr_name : string) (reverse : bool) : t * Result unit :=
  match attr_loop class_attr attr_name (files self) [] with
  | Raise AttributeError => (self, Raise ValueError)
  | Raise e => (self, Raise e)
  | Ok d =>
      match sorted d reverse with
      | Raise e => (self, Raise e)
      | Ok l => ({| files := files self; order := Some (map fst l) |}, Ok tt)
      end
  end.

(** The loop of [__add__] and of [sum]. *)
Definition setdefault_all (fs : OD.t WinFile.t) (ws : list WinFile.t)
  : OD.t WinFile.t :=
  fold_left (fun acc winfile => OD.setdefault acc (WinFile.abspath winfile) winfile)
            ws fs.

(** [copy.deepcopy(self)] gives a collection with the same contents. *)
Definition __add__ (self other_fc : t) : t :=
  let fc := self in
  {| files := setdefault_all (files fc) (iterfiles other_fc);
     order := order fc |}.

Definition sum (list_of_fc : list t) : t :=
  {| files := fold_left (fun acc fc => setdefault_all acc (iterfiles fc))
                        list_of_fc [];
     order := None |}.

(** The loop of [__sub__]: [del] with every exception passed over. *)
Definition del_all (fs : OD.t WinFile.t) (paths : list string) : OD.t WinFile.t :=
  fold_left (fun acc abspath =>
               match OD.del acc abspath with
               | Some acc' => acc'
               | None => acc
               end) paths fs.

Definition __sub__ (self other_fc : t) : t :=
  let fc := self in
  {| files := del_all (files fc) (iterpaths other_fc); order := order fc |}.

(** [howmany]. *)
Definition howmany (self : t) : Z := Z.of_nat (List.length (files self)).

(** [l[index]] on a Python list; [None] stands for [IndexError]. *)
Definition list_item {A : Type} (l : list A) (index : Z) : option A :=
  let n := Z.of_nat (List.length l) in
  if (0 <=? index) && (index <? n) then nth_error l (Z.to_nat index)
  else if (- n <=? index) && (index <? 0) then nth_error l (Z.to_nat (n + index))
  else None.

(** The [except] block of [__getitem__]: the counting loop over
    [iterfiles()]; falling off its end returns Python's [None]. *)
Fixpoint getitem_loop (ws : list WinFile.t) (index : Z) : option WinFile.t :=
  match ws with
  | [] => None
  | winfile :: rest =>
      let index := index - 1 in
      if index =? 0 then Some winfile else getitem_loop rest index
  end.

(** [__getitem__]: the entity, or Python's [None]; every exception of the
    [try] block is caught. *)
Definition __getitem__ (self : t) (index : Z) : option WinFile.t :=
  let attempt :=
    match order self with
    | None => None
    | Some o =>
        match list_item o index with
        | None => None
        | Some path => OD.get (files self) path
        end
    end in
  match attempt with
  | Some winfile => Some winfile
  | None => getitem_loop (iterfiles self) (index + 1)
  end.

(** [yield_all_top_file_path]: the loop over [os.walk] leaves after its
    first round. *)
Definition yield_all_top_file_path (d : Disk) (dir_abspath : string)
  : Result (list string) :=
  if isdir d dir_abspath then
    let dir_abspath := PosixPath.abspath (getcwd d) dir_abspath in
    Ok (match walk d dir_abspath with
        | [] => []
        | (current_folder, fnamelist) :: _ =>
            map (PosixPath.join current_folder) fnamelist
        end)
  else Raise EnvironmentError.

(** The two-collection loop of [from_path_by_criterion(..., keepboth=True)]. *)
Fixpoint select_loop_both (cs : WinFile.ClassState) (d : Disk)
         (criterion : WinFile.t -> Result bool)
         (paths : list string) (fs_yes fs_no : OD.t WinFile.t)
  : Result (OD.t WinFile.t * OD.t WinFile.t) :=
  match paths with
  | [] => Ok (fs_yes, fs_no)
  | abspath :: rest =>
      winfile <- WinFile.__init__ cs d abspath ;;
      keep <- criterion winfile ;;
      if keep : bool
      then select_loop_both cs d criterion rest
             (OD.setdefault fs_yes (WinFile.abspath winfile) winfile) fs_no
      else select_loop_both cs d criterion rest
             fs_yes (OD.setdefault fs_no (WinFile.abspath winfile) winfile)
  end.

Fixpoint dirs_loop_both (cs : WinFile.ClassState) (d : Disk)
         (criterion : WinFile.t -> Result bool)
         (dirs : list string) (fs_yes fs_no : OD.t WinFile.t)
  : Result (OD.t WinFile.t * OD.t WinFile.t) :=
  match dirs with
  | [] => Ok (fs_yes, fs_no)
  | dir_path :: rest =>
      paths <- yield_all_file_path d dir_path ;;
      both <- select_loop_both cs d criterion paths fs_yes fs_no ;;
      dirs_loop_both cs d criterion rest (fst both) (snd both)
  end.

(** [from_path_by_criterion(..., keepboth=True)]. *)
Definition from_path_by_criterion_keepboth
           (set_iter : list string -> list string)
           (cs : WinFile.ClassState) (d : Disk) (path_or_path_list : PathArg)
           (criterion : WinFile.t -> Result bool) : Result (t * t) :=
  let path_or_path_list := _preprocess set_iter path_or_path_list in
  both <- dirs_loop_both cs d criterion path_or_path_list [] [] ;;
  Ok ({| files := fst both; order := None |},
      {| files := snd both; order := None |}).

(** The loop over the directories when the filter is a closure over
    [dir_path], as in [from_path_except] and [from_path_by_pattern]. *)
Fixpoint dirs_loop_rel (cs : WinFile.ClassState) (d : Disk)
         (filter : string -> WinFile.t -> Result bool)
         (dirs : list string) (fs : OD.t WinFile.t) : Result (OD.t WinFile.t) :=
  match dirs with
  | [] => Ok fs
  | dir_path :: rest =>
      paths <- yield_all_file_path d dir_path ;;
      fs' <- select_loop cs d (filter dir_path) paths fs ;;
      dirs_loop_rel cs d filter rest fs'
  end.

(** An argument that is [None], one string, or a list of strings. *)
Inductive StrArg : Type :=
| ArgNone
| ArgStr (s : string)
| ArgList (l : list string).

Definition arg_list (a : StrArg) : list string :=
  match a with
  | ArgNone => []
  | ArgStr s => [s]
  | ArgList l => l
  end.

(** The [filter] closure of [from_path_except]; the three lists are
    already lower-cased. *)
Definition except_filter (d : Disk) (ignore ignore_ext ignore_pattern : list string)
           (dir_path : string) (winfile : WinFile.t) : Result bool :=
  rel <- OsPath.relpath (getcwd d) (WinFile.abspath winfile) dir_path ;;
  let relpath := PyStr.lower rel in
  if existsb (fun path => PyStr.startswith relpath path) ignore then Ok false
  else if PyStr.mem (WinFile.ext winfile) ignore_ext then Ok false
  else if existsb (fun pattern => PyStr.in_str pattern relpath) ignore_pattern
       then Ok false
       else Ok true.

Definition from_path_except (set_iter : list string -> list string)
           (cs : WinFile.ClassState) (d : Disk) (path_or_path_list : PathArg)
           (ignore ignore_ext ignore_pattern : StrArg) : Result t :=
  let ignore := arg_list ignore in
  let ignore_ext := arg_list ignore_ext in
  let ignore_pattern := arg_list ignore_pattern in
  let path_or_path_list := _preprocess set_iter path_or_path_list in
  let ignore := map PyStr.lower ignore in
  let ignore_ext := map PyStr.lower ignore_ext in
  let ignore_pattern := map PyStr.lower ignore_pattern in
  fs <- dirs_loop_rel cs d (except_filter d ignore ignore_ext ignore_pattern)
          path_or_path_list [] ;;
  Ok {| files := fs; order := None |}.

(** The [filter] closure of [from_path_by_pattern]. *)
Definition pattern_filter (d : Disk) (pattern : list string)
           (dir_path : string) (winfile : WinFile.t) : Result bool :=
  rel <- OsPath.relpath (getcwd d) (WinFile.abspath winfile) dir_path ;;
  let relpath := PyStr.lower rel in
  Ok (existsb (fun p => PyStr.in_str p relpath) pattern).

Definition from_path_by_pattern (set_iter : list string -> list string)
           (cs : WinFile.ClassState) (d : Disk) (path_or_path_list : PathArg)
           (pattern : StrArg) : Result t :=
  let pattern := arg_list pattern in
  let path_or_path_list := _preprocess set_iter path_or_path_list in
  let pattern := map PyStr.lower pattern in
  fs <- dirs_loop_rel cs d (pattern_filter d pattern) path_or_path_list [] ;;
  Ok {| files := fs; order := None |}.

(** The argument [ext] of [from_path_by_ext]: a collection of extensions,
    or one. *)
Inductive ExtArg : Type :=
| ExtMany (exts : list string)
| ExtOne (ext : string).

Definition ext_filter (ext : ExtArg) (winfile : WinFile.t) : Result bool :=
  match ext with
  | ExtMany exts => Ok (PyStr.mem (WinFile.ext winfile) exts)
  | ExtOne e => Ok (WinFile.ext winfile =? e)%string
  end.

Definition from_path_by_ext (set_iter : list string -> list string)
           (cs : WinFile.ClassState) (d : Disk) (path_or_path_list : PathArg)
           (ext : ExtArg) : Result t :=
  let path_or_path_list := _preprocess set_iter path_or_path_list in
  from_path_by_criterion set_iter cs d (Many path_or_path_list) (ext_filter ext).

(** The wrappers of [sort_by]. *)
Definition sort_by_abspath class_attr (self : t) (reverse : bool) :=
  sort_by class_attr self "abspath" reverse.
Definition sort_by_dirname class_attr (self : t) (reverse : bool) :=
  sort_by class_attr self "dirname" reverse.
Definition sort_by_fname class_attr (self : t) (reverse : bool) :=
  sort_by class_attr self "fname" reverse.
Definition sort_by_ext class_attr (self : t) (reverse : bool) :=
  sort_by class_attr self "ext" reverse.
Definition sort_by_atime class_attr (self : t) (reverse : bool) :=
  sort_by class_attr self "atime" reverse.
Definition sort_by_ctime class_attr (self : t) (reverse : bool) :=
  sort_by class_attr self "ctime" reverse.
Definition sort_by_mtime class_attr (self : t) (reverse : bool) :=
  sort_by class_attr self "mtime" reverse.
Definition sort_by_size class_attr (self : t) (reverse : bool) :=
  sort_by class_attr self "size_on_disk" reverse.

(** The loops of [select]: over [self.files.values()], filing each entity
    under its [abspath]. *)
Fixpoint select_values (criterion : WinFile.t -> Result bool)
         (ws : list WinFile.t) (fs : OD.t WinFile.t) : Result (OD.t WinFile.t) :=
  match ws with
  | [] => Ok fs
  | winfile :: rest =>
      keep <- criterion winfile ;;
      select_values criterion rest
        (if keep : bool then OD.set fs (WinFile.abspath winfile) winfile else fs)
  end.

Fixpoint select_values_both (criterion : WinFile.t -> Result bool)
         (ws : list WinFile.t) (fs_yes fs_no : OD.t WinFile.t)
  : Result (OD.t WinFile.t * OD.t WinFile.t) :=
  match ws with
  | [] => Ok (fs_yes, fs_no)
  | winfile :: rest =>
      keep <- criterion winfile ;;
      if keep : bool
      then select_values_both criterion rest
             (OD.set fs_yes (WinFile.abspath winfile) winfile) fs_no
      else select_values_both criterion rest
             fs_yes (OD.set fs_no (WinFile.abspath winfile) winfile)
  end.

(** [select(criterion, keepboth=False)]. *)
Definition select (self : t) (criterion : WinFile.t -> Result bool) : Result t :=
  fs <- select_values criterion (OD.values (files self)) [] ;;
  Ok {| files := fs; order := None |}.

(** [select(criterion, keepboth=True)]. *)
Definition select_keepboth (self : t) (criterion : WinFile.t -> Result bool)
  : Result (t * t) :=
  both <- select_values_both criterion (OD.values (files self)) [] [] ;;
  Ok ({| files := fst both; order := None |},
      {| files := snd both; order := None |}).

(** How the factories keep [files]: as the methods do, each entity being
    the one the current initializer builds for its path. *)
Definition built_files (cs : WinFile.ClassState) (d : Disk)
           (fs : OD.t WinFile.t) : Prop :=
  wf_files fs /\
  forall p w, In (p, w) fs ->
              w = WinFile.run_initialize cs d (WinFile.fresh p).

(** A criterion turned round, as the second collection of [keepboth]
    sees it. *)
Definition negate (criterion : WinFile.t -> Result bool) (winfile : WinFile.t)
  : Result bool :=
  keep <- criterion winfile ;; Ok (negb keep).


(** How [sorted] leaves two integer keys, the earlier one first: not
    descending, or with [reverse] not ascending. *)
Definition key_le (reverse : bool) (a b : WinFile.Value) : Prop :=
  match a, b with
  | WinFile.VInt x, WinFile.VInt y => if reverse then y <= x else x <= y
  | _, _ => False
  end.
End FileCollection.

(* ================================================================= *)
(** ** [class FileFilter] *)

Module FileFilter.

Definition image (winfile : WinFile.t) : bool :=
  PyStr.mem (WinFile.ext winfile)
    [".jpg"; ".jpeg"; ".png"; ".gif"; ".tiff";
     ".bmp"; ".ppm"; ".pgm"; ".pbm"; ".pnm"; ".svg"].

Definition audio (winfile : WinFile.t) : bool :=
  PyStr.mem (WinFile.ext winfile)
    [".mp3"; ".mp4"; ".aac"; ".m4a"; ".wma";
     ".wav"; ".ape"; ".tak"; ".tta";
     ".3gp"; ".webm"; ".ogg"].

Definition video_exts : list string :=
  [".avi"; ".wmv"; ".mkv"; ".mp4"; ".flv";
   ".vob"; ".mov"; ".rm"; ".rmvb"; "3gp"; ".3g2"; ".nsv"; ".webm";
   ".mpg"; ".mpeg"; ".m4v"; ".iso"].

Definition video (winfile : WinFile.t) : bool :=
  PyStr.mem (WinFile.ext winfile) video_exts.

Definition pdf (winfile : WinFile.t) : bool :=
  (WinFile.ext winfile =? ".pdf")%string.

Definition word (winfile : WinFile.t) : bool :=
  PyStr.mem (WinFile.ext winfile)
    [".doc"; ".docx"; ".docm"; ".dotx"; ".dotm"; ".docb"].

Definition excel (winfile : WinFile.t) : bool :=
  PyStr.mem (WinFile.ext winfile)
    [".xls"; ".xlsx"; ".xlsm"; ".xltx"; ".xltm"].

Definition ppt (winfile : WinFile.t) : bool :=
  (WinFile.ext winfile =? ".ppt")%string.

Definition archive_exts : list string :=
  [".zip"; ".rar"; ".gz"; ".tar.gz"; ".tgz"; ".7z"].

Definition archive (winfile : WinFile.t) : bool :=
  PyStr.mem (WinFile.ext winfile) archive_exts.

End FileFilter.

(* ================================================================= *)
(** ** [class WinDir] *)

Module WinDir.

(** The slots. *)
Record t : Type := mk {
  abspath : string;
  dirname : string;
  basename : string;
  size_total : Z;
  num_folder_total : Z;
  num_file_total : Z;
  size_current : Z;
  num_folder_current : Z;
  num_file_current : Z
}.

(** What [os.walk(dir)] yields: each visited folder with the names of its
    folders and of its files. *)
Definition Walk : Type := string -> list (string * list string * list string).

(** How a call ends that does not return: with one of the exceptions
    above, or with the [StopIteration] of [next] on a walk that yields
    nothing. *)
Inductive Raised : Type :=
| Exception (e : Exn)
| StopIteration.

Definition len {A : Type} (l : list A) : Z := Z.of_nat (List.length l).

(** The sum of [os.path.getsize(os.path.join(current_dir, fname))] over
    the files of one folder. *)
Definition folder_size (d : Disk) (current_dir : string) (fnamelist : list string)
  : Z :=
  fold_left (fun acc fname => acc + getsize d (PosixPath.join current_dir fname))
            fnamelist 0.

(** The first loop of [get_detail]: [(size_total, num_folder_total,
    num_file_total)]. *)
Definition totals (d : Disk) (triples : list (string * list string * list string))
  : Z * Z * Z :=
  fold_left (fun '(size, folders, files) '(current_dir, folderlist, fnamelist) =>
               (size + folder_size d current_dir fnamelist,
                folders + len folderlist,
                files + len fnamelist))
            triples (0, 0, 0).

(** [get_detail] on an object whose path slots are set. *)
Definition get_detail (oswalk : Walk) (d : Disk) (abspath dirname basename : string)
  : t + Raised :=
  let '(size_total, num_folder_total, num_file_total) :=
    totals d (oswalk abspath) in
  match oswalk abspath with
  | [] => inr StopIteration
  | (current_dir, folderlist, fnamelist) :: _ =>
      inl {| abspath := abspath; dirname := dirname; basename := basename;
             size_total := size_total;
             num_folder_total := num_folder_total;
             num_file_total := num_file_total;
             size_current := folder_size d current_dir fnamelist;
             num_folder_current := len folderlist;
             num_file_current := len fnamelist |}
  end.

Definition __init__ (oswalk : Walk) (d : Disk) (abspath : string) : t + Raised :=
  if isdir d abspath then
    let abspath := PosixPath.abspath (getcwd d) abspath in
    let '(dirname, basename) := PosixPath.split abspath in
    get_detail oswalk d abspath dirname basename
  else inr (Exception ValueError).

(** [rename]: the disk and the object after the call, and how the call
    ended; [os_rename] as for [WinFile.rename]. *)
Definition rename (os_rename : Disk -> string -> string -> Result Disk)
           (d : Disk) (self : t) (new_dirname new_basename : option string)
  : Disk * t * Result unit :=
  let new_basename' := WinFile.or_else new_basename (basename self) in
  let new_dirname' :=
    match new_dirname with
    | Some s => if (s =? "")%string then dirname self
                else PosixPath.abspath (getcwd d) s
    | None => dirname self
    end in
  let new_abspath := PosixPath.join new_dirname' new_basename' in
  match os_rename d (abspath self) new_abspath with
  | Raise e => (d, self, Raise e)
  | Ok d' =>
      (d',
       {| abspath := new_abspath; dirname := new_dirname';
          basename := new_basename';
          size_total := size_total self;
          num_folder_total := num_folder_total self;
          num_file_total := num_file_total self;
          size_current := size_current self;
          num_folder_current := num_folder_current self;
          num_file_current := num_file_current self |},
       Ok tt)
  end.

End WinDir.

(* ================================================================= *)
(** ** A small disk to run the program on *)

Module Demo.

Definition file_paths : list string :=
  ["/data/A.TXT"; "/data/x.tar.gz"; "/data/x.3gp"; "/data/sub/b.py"].

(** Four files under [/data]; [x.tar.gz] has 2^40 bytes. *)
Definition disk : Disk :=
  {| getcwd := "/home/u";
     isfile := fun p => PyStr.mem p file_paths;
     isdir := fun p => PyStr.mem p ["/"; "/data"; "/data/sub"; "/home"; "/home/u"];
     walk := fun p =>
               if (p =? "/data")%string
               then [("/data", ["A.TXT"; "x.tar.gz"; "x.3gp"]);
                     ("/data/sub", ["b.py"])]
               else if (p =? "/data/sub")%string then [("/data/sub", ["b.py"])]
               else [];
     getsize := fun p =>
                  if (p =? "/data/A.TXT")%string then 5
                  else if (p =? "/data/x.tar.gz")%string then 2 ^ 40
                  else if (p =? "/data/x.3gp")%string then 2 ^ 40 + 1
                  else 100;
     getatime := fun _ => 1700000300;
     getctime := fun _ => 1700000100;
     getmtime := fun _ => 1700000200;
     md5file := fun p =>
                  if (p =? "/data/A.TXT")%string
                  then "0cc175b9c0f1b6a831c399e269772661"
                  else "d41d8cd98f00b204e9800998ecf8427e" |}.

(** An iteration order for [set(l)]: first occurrences. *)
Definition set_iter (l : list string) : list string := nodup string_dec l.

(** An [os.rename] that moves an existing file and fails otherwise. *)
Definition os_rename (d : Disk) (src dst : string) : Result Disk :=
  if isfile d src
  then Ok {| getcwd := getcwd d;
             isfile := fun p => if (p =? dst)%string then true
                                else if (p =? src)%string then false
                                     else isfile d p;
             isdir := isdir d; walk := walk d;
             getsize := fun p => if (p =? dst)%string then getsize d src
                                 else getsize d p;
             getatime := getatime d; getctime := getctime d;
             getmtime := getmtime d; md5file := md5file d |}
  else Raise OSError.

(** Attribute lookup on the class, for the names of the class body (those
    inherited from [object] are left out): the tier of the class body and
    the methods. *)
Definition class_attr (name : string) : option WinFile.Value :=
  if (name =? "init_mode")%string then Some (WinFile.VInt 2)
  else if PyStr.mem name
            ["initialize"; "use_fast_init"; "use_regular_init"; "use_slow_init";
             "set_initialize_mode"; "level3_initialize"; "level2_initialize";
             "level1_initialize"; "to_dict"; "update"; "copy"; "copy_to";
             "delete"; "rename"; "isfile"; "exists"]
       then Some WinFile.VObj
       else None.

(** The entity of [/data/A.TXT] under the regular tier. *)
Definition winfile_A : WinFile.t :=
  {| WinFile.abspath := "/data/A.TXT"; WinFile.dirname := "/data";
     WinFile.basename := "A.TXT"; WinFile.fname := "A"; WinFile.ext := ".txt";
     WinFile.atime := Some 1700000300; WinFile.ctime := Some 1700000100;
     WinFile.mtime := Some 1700000200; WinFile.size_on_disk := Some 5;
     WinFile.md5 := None |}.

(** [fc = FileCollection.from_path("/data/sub")], [fc.sort_by("size_on_disk")],
    then [fc.add("/data/A.TXT")]. *)
Definition sorted_then_added : Result FileCollection.t :=
  fc <- FileCollection.from_path set_iter WinFile.class_body disk
          (FileCollection.One "/data/sub") ;;
  match FileCollection.sort_by class_attr fc "size_on_disk" false with
  | (fc, Raise e) => Raise e
  | (fc, Ok _) =>
      match FileCollection.add WinFile.class_body disk fc []
              (FileCollection.ItemPath "/data/A.TXT") true with
      | (fc, _, Raise e) => Raise e
      | (fc, _, Ok _) => Ok fc
      end
  end.

(** [fc = FileCollection.from_path("/data")], [fc.sort_by("abspath")],
    then [fc.remove("/data/sub/b.py")]. *)
Definition sorted_then_removed : Result FileCollection.t :=
  fc <- FileCollection.from_path set_iter WinFile.class_body disk
          (FileCollection.One "/data") ;;
  match FileCollection.sort_by class_attr fc "abspath" false with
  | (fc, Raise e) => Raise e
  | (fc, Ok _) =>
      match FileCollection.remove WinFile.class_body disk fc []
              (FileCollection.ItemPath "/data/sub/b.py") true with
      | (fc, _, Raise e) => Raise e
      | (fc, _, Ok _) => Ok fc
      end
  end.

(** The collection that holds [winfile_A] only. *)
Definition fc_A : FileCollection.t :=
  {| FileCollection.files := [("/data/A.TXT", winfile_A)];
     FileCollection.order := None |}.

(** [FileCollection(["/data/A.TXT"])]. *)
Definition only_A : Result FileCollection.t :=
  FileCollection.__init__ set_iter WinFile.class_body disk
    (FileCollection.Many ["/data/A.TXT"]).

(** [fc = FileCollection(["/data/A.TXT"])], [fc.sort_by("abspath")], then
    [fc.remove("/data/A.TXT")]: no file, and the order of the sort. *)
Definition sorted_then_emptied : Result FileCollection.t :=
  fc <- only_A ;;
  match FileCollection.sort_by class_attr fc "abspath" false with
  | (fc, Raise e) => Raise e
  | (fc, Ok _) =>
      match FileCollection.remove WinFile.class_body disk fc []
              (FileCollection.ItemPath "/data/A.TXT") true with
      | (fc, _, Raise e) => Raise e
      | (fc, _, Ok _) => Ok fc
      end
  end.

(** [FileCollection.from_path("/data")]: the four files. *)
Definition fc_data : FileCollection.t :=
  match FileCollection.from_path set_iter WinFile.class_body disk
                                 (FileCollection.One "/data") with
  | Ok fc => fc
  | Raise _ => FileCollection.empty
  end.

(** What [os.walk] yields on [disk], with the folders. *)
Definition oswalk : WinDir.Walk :=
  fun p =>
    if (p =? "/data")%string
    then [("/data", ["sub"], ["A.TXT"; "x.tar.gz"; "x.3gp"]);
          ("/data/sub", [], ["b.py"])]
    else if (p =? "/data/sub")%string then [("/data/sub", [], ["b.py"])]
    else [].

End Demo.

(* ================================================================= *)
(** * Properties *)

(** ** Strings *)

Module PyStrFacts.
Import PyStr.

Lemma append_nil_r (s : string) : s ++ "" = s.
Proof. induction s as [|a s IH]; simpl; [reflexivity | now rewrite IH]. Qed.

Lemma append_assoc (a b c : string) : (a ++ b) ++ c = a ++ (b ++ c).
Proof. induction a as [|x a IH]; simpl; [reflexivity | now rewrite IH]. Qed.

Lemma length_append (a b : string) :
  String.length (a ++ b) = (String.length a + String.length b)%nat.
Proof. induction a as [|x a IH]; simpl; [reflexivity | now rewrite IH]. Qed.

Lemma take_drop (n : nat) (s : string) : take n s ++ drop n s = s.
Proof.
  revert s; induction n as [|n IH]; intros [|a s]; simpl; try reflexivity.
  now rewrite IH.
Qed.

Lemma take_length_app (a b : string) : take (String.length a) (a ++ b) = a.
Proof. induction a as [|x a IH]; simpl; [now destruct b | now rewrite IH]. Qed.

Lemma drop_length_app (a b : string) : drop (String.length a) (a ++ b) = b.
Proof. induction a as [|x a IH]; simpl; [reflexivity | exact IH]. Qed.

Lemma slice_0 (j : Z) (s : string) : slice 0 j s = take (Z.to_nat j) s.
Proof. unfold slice. simpl. now rewrite Nat.sub_0_r. Qed.

Lemma has_char_app (c : ascii) (a b : string) :
  has_char c (a ++ b) = has_char c a || has_char c b.
Proof.
  induction a as [|x a IH]; simpl; [reflexivity |].
  now rewrite IH, orb_assoc.
Qed.

(** Where [rfind] points: the character is there and does not occur
    after it. *)
Lemma rfind_opt_some (c : ascii) (s : string) (i : nat) :
  rfind_opt c s = Some i ->
  exists r, drop i s = String c r /\ has_char c r = false.
Proof.
  revert i; induction s as [|a s IH]; simpl; intros i H; [discriminate |].
  destruct (rfind_opt c s) as [j|] eqn:E.
  - injection H as <-. simpl. now apply IH.
  - destruct (Ascii.eqb a c) eqn:Ea; [|discriminate].
    injection H as <-. apply Ascii.eqb_eq in Ea. subst a. simpl.
    exists s. split; [reflexivity |].
    clear IH. induction s as [|b s IHs]; simpl in *; [reflexivity |].
    destruct (rfind_opt c s); [discriminate |].
    destruct (Ascii.eqb b c); [discriminate |]. simpl. now apply IHs.
Qed.

Lemma rfind_opt_none (c : ascii) (s : string) :
  rfind_opt c s = None <-> has_char c s = false.
Proof.
  induction s as [|a s IH]; simpl; [tauto |].
  destruct (rfind_opt c s); destruct (Ascii.eqb a c); simpl; split; intro H;
    try discriminate; try tauto.
  apply IH in H. discriminate.
Qed.

(** The last occurrence of [c] in [h ++ t] when [t] is free of [c] and
    [h] ends in [c]. *)
Lemma rfind_opt_app (c : ascii) (h t : string) :
  has_char c t = false -> endswith_char h c = true ->
  rfind_opt c (h ++ t) = Some (String.length h - 1)%nat.
Proof.
  intros Ht. induction h as [|a h IH]; simpl; [discriminate |].
  destruct h as [|b h].
  - intros Ha. simpl. apply rfind_opt_none in Ht. now rewrite Ht, Ha.
  - intros Hh. rewrite (IH Hh). simpl. now rewrite Nat.sub_0_r.
Qed.

Lemma lower_char_idem (a : ascii) : lower_char (lower_char a) = lower_char a.
Proof.
  destruct a as [[] [] [] [] [] [] [] []]; reflexivity.
Qed.

Lemma lower_idem (s : string) : lower (lower s) = lower s.
Proof.
  induction s as [|a s IH]; simpl; [reflexivity |].
  now rewrite lower_char_idem, IH.
Qed.

Lemma lower_char_dot (a : ascii) :
  Ascii.eqb (lower_char a) "."%char = Ascii.eqb a "."%char.
Proof.
  destruct a as [[] [] [] [] [] [] [] []]; reflexivity.
Qed.

Lemma has_dot_lower (s : string) :
  has_char "."%char (lower s) = has_char "."%char s.
Proof.
  induction s as [|a s IH]; simpl; [reflexivity |].
  now rewrite lower_char_dot, IH.
Qed.

Lemma mem_In (s : string) (l : list string) : mem s l = true <-> In s l.
Proof.
  unfold mem. rewrite existsb_exists. split.
  - intros [x [Hx E]]. apply String.eqb_eq in E. now subst.
  - intros H. exists s. split; [exact H | apply String.eqb_refl].
Qed.

End PyStrFacts.

(** ** Paths *)

Module PosixPathFacts.
Import PyStr PyStrFacts PosixPath.

Example split_examples :
  split "/usr/lib/A.TXT" = ("/usr/lib", "A.TXT") /\
  split "/A.TXT" = ("/", "A.TXT") /\
  split "//a//b" = ("//a", "b") /\
  split "name" = ("", "name").
Proof. repeat split. Qed.

Example splitext_examples :
  splitext "x.tar.gz" = ("x.tar", ".gz") /\
  splitext ".bashrc" = (".bashrc", "") /\
  splitext "..x.A" = ("..x", ".A") /\
  splitext "..." = ("...", "") /\
  splitext "x." = ("x", ".").
Proof. repeat split. Qed.

Example normpath_examples :
  normpath "/a/./b/../c//d/" = "/a/c/d" /\
  normpath "//a/../../b" = "//b" /\
  normpath "a/../../b" = "../b" /\
  normpath "///a" = "/a" /\
  normpath "" = "." /\
  abspath "/home/u" "d/../x.PY" = "/home/u/x.PY".
Proof. repeat split. Qed.

(** [splitext] cuts its argument in two. *)
Lemma splitext_app (p f e : string) : splitext p = (f, e) -> f ++ e = p.
Proof.
  unfold splitext.
  destruct ((rfind extsep p >? rfind sep p)
            && negb (all_char extsep (slice (rfind sep p + 1) (rfind extsep p) p))).
  - intros H. injection H as <- <-. rewrite slice_0. apply take_drop.
  - intros H. injection H as <- <-. apply append_nil_r.
Qed.

(** The extension is empty, or a dot followed by characters other than
    dots. *)
Lemma splitext_ext (p f e : string) :
  splitext p = (f, e) ->
  e = "" \/ exists r, e = String "."%char r /\ has_char "."%char r = false.
Proof.
  unfold splitext, rfind.
  destruct (rfind_opt extsep p) as [i|] eqn:Ei.
  - destruct (_ && _).
    + intros H. injection H as <- <-. right.
      rewrite Nat2Z.id. now apply rfind_opt_some.
    + intros H. injection H as <- <-. now left.
  - destruct (_ && _) eqn:E.
    + apply andb_prop in E. destruct E as [E _].
      destruct (rfind_opt sep p); simpl in E; try discriminate.
      destruct n; discriminate.
    + intros H. injection H as <- <-. now left.
Qed.

Lemma endswith_char_app (c : ascii) (a b : string) :
  b <> "" -> endswith_char (a ++ b) c = endswith_char b c.
Proof.
  intros Hb. induction a as [|x a IH]; simpl; [reflexivity |].
  destruct (a ++ b) eqn:E; [| exact IH].
  destruct a; simpl in E; [contradiction | discriminate].
Qed.

Lemma no_char_endswith (c : ascii) (s : string) :
  has_char c s = false -> endswith_char s c = false.
Proof.
  induction s as [|a s IH]; simpl; [reflexivity |].
  intros H. apply orb_false_elim in H. destruct H as [Ha Hs].
  destruct s; [exact Ha | now apply IH].
Qed.

Lemma rstrip_snoc (c : ascii) (x : string) :
  x <> "" -> endswith_char x c = false ->
  rstrip c (x ++ String c "") = x.
Proof.
  induction x as [|a x IH]; [contradiction |].
  intros _ H. destruct x as [|b x].
  - simpl in *. now rewrite Ascii.eqb_refl, H.
  - change ((String a (String b x)) ++ String c "")
      with (String a (String b x ++ String c "")).
    cbn [rstrip]. rewrite IH; [reflexivity | discriminate | exact H].
Qed.

Lemma all_char_snoc (c : ascii) (x : string) :
  x <> "" -> endswith_char x c = false ->
  all_char c (x ++ String c "") = false.
Proof.
  induction x as [|a x IH]; [contradiction |].
  intros _ H. destruct x as [|b x].
  - simpl in *. now rewrite H.
  - change ((String a (String b x)) ++ String c "")
      with (String a (String b x ++ String c "")).
    cbn [all_char]. rewrite IH; [apply andb_false_r | discriminate | exact H].
Qed.

(** [split] on a path whose last component is [t]. *)
Lemma split_app (h t : string) :
  has_char sep t = false ->
  h = "" \/ endswith_char h sep = true ->
  split (h ++ t)
  = (if negb (h =? "")%string && negb (all_char sep h) then rstrip sep h else h, t).
Proof.
  intros Ht Hh. unfold split.
  assert (Hi : rfind sep (h ++ t) + 1 = Z.of_nat (String.length h)).
  { unfold rfind. destruct Hh as [-> | Hh].
    - simpl. apply rfind_opt_none in Ht. now rewrite Ht.
    - rewrite (rfind_opt_app _ _ _ Ht Hh).
      destruct h; [discriminate | simpl; lia]. }
  rewrite Hi, slice_0, Nat2Z.id, take_length_app, drop_length_app.
  reflexivity.
Qed.

Lemma concat_snoc (cs : list string) (c : string) :
  cs <> [] ->
  String.concat "/" (cs ++ [c]) = String.concat "/" cs ++ "/" ++ c.
Proof.
  induction cs as [|x cs IH]; [contradiction |]. intros _.
  destruct cs as [|y cs]; [reflexivity |].
  change (String.concat "/" ((x :: y :: cs) ++ [c]))
    with (x ++ "/" ++ String.concat "/" ((y :: cs) ++ [c])).
  rewrite IH by discriminate.
  change (String.concat "/" (x :: y :: cs))
    with (x ++ "/" ++ String.concat "/" (y :: cs)).
  now rewrite !append_assoc.
Qed.

Lemma concat_comps_end (cs : list string) :
  cs <> [] -> Forall comp_ok cs ->
  String.concat "/" cs <> "" /\ endswith_char (String.concat "/" cs) sep = false.
Proof.
  induction cs as [|x cs IH]; [contradiction |]. intros _ H.
  inversion H as [|? ? [Hx Hs] Hcs]; subst.
  destruct cs as [|y cs].
  - simpl. split; [exact Hx | now apply no_char_endswith].
  - destruct (IH ltac:(discriminate) Hcs) as [Hne Hend].
    change (String.concat "/" (x :: y :: cs))
      with (x ++ "/" ++ String.concat "/" (y :: cs)).
    split.
    + destruct x; [contradiction | discriminate].
    + rewrite <- append_assoc, endswith_char_app by exact Hne. exact Hend.
Qed.

Lemma comp_not_abs (c : string) : comp_ok c -> startswith c "/" = false.
Proof.
  intros [Hc Hs]. destruct c as [|a c]; [contradiction |].
  simpl in Hs. apply orb_false_elim in Hs. destruct Hs as [Ha _].
  unfold startswith. cbn [String.prefix].
  destruct (ascii_dec "/"%char a) as [E|E]; [| reflexivity].
  subst a. discriminate.
Qed.

(** [join] undoes [split] on a normalized path: up to two leading
    separators, then components joined by single separators. *)
Lemma join_split_comps (pre : string) (comps : list string) :
  pre = "" \/ pre = "/" \/ pre = "//" ->
  Forall comp_ok comps ->
  join (fst (split (pre ++ String.concat "/" comps)))
       (snd (split (pre ++ String.concat "/" comps)))
  = pre ++ String.concat "/" comps.
Proof.
  intros Hpre Hc.
  destruct comps as [|c0 cs0] using rev_ind.
  { destruct Hpre as [-> | [-> | ->]]; reflexivity. }
  clear IHcs0. apply Forall_app in Hc. destruct Hc as [Hcs Hc].
  inversion Hc as [|? ? Hc0 _]; subst.
  pose proof (comp_not_abs _ Hc0) as Hna. destruct Hc0 as [Hne Hns].
  destruct cs0 as [|x cs].
  - (* a single component *)
    simpl String.concat.
    rewrite split_app; [| exact Hns
                        | destruct Hpre as [-> | [-> | ->]]; auto].
    unfold join. simpl fst. simpl snd. rewrite Hna.
    destruct Hpre as [-> | [-> | ->]]; reflexivity.
  - rewrite concat_snoc by discriminate.
    destruct (concat_comps_end (x :: cs) ltac:(discriminate) Hcs) as [Hn He].
    set (body := String.concat "/" (x :: cs)) in *.
    assert (Hx : pre ++ body <> "").
    { destruct pre; simpl; [exact Hn | discriminate]. }
    assert (Hxe : endswith_char (pre ++ body) sep = false).
    { now rewrite endswith_char_app. }
    replace (pre ++ body ++ "/" ++ c0) with (((pre ++ body) ++ "/") ++ c0)
      by now rewrite !append_assoc.
    rewrite split_app; [| exact Hns | right].
    2:{ rewrite endswith_char_app by discriminate. reflexivity. }
    change "/" with (String sep "").
    rewrite (all_char_snoc _ _ Hx Hxe), (rstrip_snoc _ _ Hx Hxe).
    replace (((pre ++ body) ++ String sep "" =? "")%string) with false.
    2:{ symmetry. apply String.eqb_neq. intros E.
        apply (f_equal String.length) in E. rewrite length_append in E.
        simpl in E. lia. }
    simpl negb. simpl andb. cbv iota. unfold join. simpl fst. simpl snd.
    rewrite Hna, Hxe.
    replace ((pre ++ body =? "")%string) with false
      by (symmetry; now apply String.eqb_neq).
    simpl orb. cbv iota. now rewrite !append_assoc.
Qed.

Lemma split_no_sep (s : string) :
  Forall (fun c => has_char sep c = false) (PyStr.split sep s).
Proof.
  induction s as [|a s IH]; simpl; [repeat constructor |].
  destruct (Ascii.eqb a sep) eqn:E; [constructor; [reflexivity | exact IH] |].
  destruct (PyStr.split sep s) as [|p ps]; [repeat constructor; simpl; now rewrite E |].
  inversion IH; subst. constructor; [simpl; now rewrite E | assumption].
Qed.

Lemma Forall_removelast {A : Type} (P : A -> Prop) (l : list A) :
  Forall P l -> Forall P (removelast l).
Proof.
  induction 1 as [|x l Hx Hl IH]; simpl; [constructor |].
  destruct l; [constructor | now constructor].
Qed.

Lemma norm_step_ok (n : nat) (acc : list string) (c : string) :
  Forall comp_ok acc -> has_char sep c = false ->
  Forall comp_ok (norm_step n acc c).
Proof.
  intros Hacc Hc. unfold norm_step.
  destruct ((c =? "")%string || (c =? ".")%string) eqn:E; [exact Hacc |].
  apply orb_false_elim in E. destruct E as [E _]. apply String.eqb_neq in E.
  destruct (_ || _).
  - apply Forall_app. split; [exact Hacc | now repeat constructor].
  - now apply Forall_removelast.
Qed.

Lemma norm_loop_ok (n : nat) (l acc : list string) :
  Forall comp_ok acc -> Forall (fun c => has_char sep c = false) l ->
  Forall comp_ok (fold_left (norm_step n) l acc).
Proof.
  revert acc; induction l as [|c l IH]; intros acc Hacc Hl; simpl; [exact Hacc |].
  inversion Hl; subst. apply IH; [now apply norm_step_ok | assumption].
Qed.

(** The shape of what [normpath] returns. *)
Lemma normpath_shape (path : string) :
  exists pre comps,
    (pre = "" \/ pre = "/" \/ pre = "//") /\ Forall comp_ok comps /\
    normpath path = pre ++ String.concat "/" comps.
Proof.
  unfold normpath.
  destruct (path =? "")%string.
  { exists "", ["."]. repeat split; auto. repeat constructor. discriminate. }
  set (n := if startswith path "/" then _ else _).
  pose proof (norm_loop_ok n (PyStr.split sep path) [] (Forall_nil _)
                (split_no_sep path)) as Hc.
  set (comps := fold_left _ _ _) in *.
  set (pre := match n with 0%nat => "" | 1%nat => "/" | _ => "//" end).
  destruct ((pre ++ String.concat "/" comps =? "")%string).
  - exists "", ["."]. repeat split; auto. repeat constructor. discriminate.
  - exists pre, comps. repeat split; auto.
    subst pre. destruct n as [|[|?]]; auto.
Qed.

(** [abspath] returns a path that [split] and [join] take apart and put
    together again. *)
Lemma join_split_abspath (cwd path : string) :
  join (fst (split (abspath cwd path))) (snd (split (abspath cwd path)))
  = abspath cwd path.
Proof.
  unfold abspath.
  destruct (normpath_shape (if isabs path then path else join cwd path))
    as (pre & comps & Hpre & Hc & ->).
  now apply join_split_comps.
Qed.

End PosixPathFacts.

(** ** File entities *)

Module WinFileFacts.
Import PyStr PyStrFacts PosixPath PosixPathFacts.

(** The three initializers fill the path slots the same way. *)
Lemma run_initialize_paths (cs : WinFile.ClassState) (d : Disk) (self : WinFile.t) :
  let w := WinFile.run_initialize cs d self in
  let p := WinFile.abspath self in
  WinFile.abspath w = p /\
  WinFile.dirname w = fst (split p) /\
  WinFile.basename w = snd (split p) /\
  WinFile.fname w = fst (splitext (snd (split p))) /\
  WinFile.ext w = lower (snd (splitext (snd (split p)))).
Proof.
  unfold WinFile.run_initialize, WinFile.level1_initialize,
    WinFile.level2_initialize, WinFile.level3_initialize.
  destruct (split (WinFile.abspath self)) as [dn bn]. cbn [fst snd].
  destruct (splitext bn) as [fn e].
  destruct (WinFile.initialize cs); simpl; auto.
Qed.

Lemma init_inv (cs : WinFile.ClassState) (d : Disk) (path : string) (w : WinFile.t) :
  WinFile.__init__ cs d path = Ok w ->
  isfile d path = true /\
  w = WinFile.run_initialize cs d (WinFile.fresh (abspath (getcwd d) path)).
Proof.
  unfold WinFile.__init__. destruct (isfile d path); [| discriminate].
  intros H. injection H as <-. split; reflexivity.
Qed.

Lemma init_total (cs : WinFile.ClassState) (d : Disk) (path : string) :
  isfile d path = true ->
  WinFile.__init__ cs d path
  = Ok (WinFile.run_initialize cs d (WinFile.fresh (abspath (getcwd d) path))).
Proof. unfold WinFile.__init__. now intros ->. Qed.

Lemma init_abspath (cs : WinFile.ClassState) (d : Disk) (path : string) (w : WinFile.t) :
  WinFile.__init__ cs d path = Ok w ->
  WinFile.abspath w = abspath (getcwd d) path.
Proof.
  intros H. apply init_inv in H. destruct H as [_ ->].
  apply (run_initialize_paths cs d (WinFile.fresh _)).
Qed.

(** Under the regular and the slow tier the size slot is set. *)
Lemma init_size (cs : WinFile.ClassState) (d : Disk) (path : string) (w : WinFile.t) :
  WinFile.initialize cs <> WinFile.level1 ->
  WinFile.__init__ cs d path = Ok w ->
  WinFile.size_on_disk w = Some (getsize d (WinFile.abspath w)).
Proof.
  intros Hcs H. apply init_inv in H. destruct H as [_ ->].
  unfold WinFile.run_initialize, WinFile.level1_initialize,
    WinFile.level2_initialize, WinFile.level3_initialize.
  destruct (split _) as [dn bn]. destruct (splitext bn) as [fn e].
  destruct (WinFile.initialize cs); simpl; try reflexivity. contradiction.
Qed.

(** C1 (as amended).  Constructing a [WinFile] for an existing regular
    file succeeds under every initialization tier, and the entity
    satisfies: [basename] is [fname] followed by the extension as it is
    written on disk, [ext] is that extension in lower case; [abspath] is
    [dirname] joined with [basename]; [ext] is lower-cased. *)
Theorem init_fields (cs : WinFile.ClassState) (d : Disk) (path : string) :
  isfile d path = true ->
  exists w,
    WinFile.__init__ cs d path = Ok w /\
    (exists e, WinFile.basename w = WinFile.fname w ++ e /\
               WinFile.ext w = lower e) /\
    WinFile.abspath w = join (WinFile.dirname w) (WinFile.basename w) /\
    lower (WinFile.ext w) = WinFile.ext w.
Proof.
  intros Hf. rewrite (init_total cs d path Hf). eexists. split; [reflexivity |].
  destruct (run_initialize_paths cs d (WinFile.fresh (abspath (getcwd d) path)))
    as (Ha & Hd & Hb & Hn & He).
  cbn [WinFile.abspath WinFile.fresh] in Ha, Hd, Hb, Hn, He.
  set (w := WinFile.run_initialize _ _ _) in *.
  repeat split.
  - exists (snd (splitext (snd (split (abspath (getcwd d) path))))).
    split; [| exact He].
    rewrite Hb, Hn. symmetry. apply splitext_app. apply surjective_pairing.
  - rewrite Ha, Hd, Hb. symmetry. apply join_split_abspath.
  - rewrite He. apply lower_idem.
Qed.

(** C10 (as amended).  The extension of a freshly constructed entity is
    the lower-cased last suffix of the file name: empty, or a dot
    followed by characters other than dots.  On such an entity the entry
    "3gp" of [FileFilter.video] and the entry ".tar.gz" of
    [FileFilter.archive] match nothing; a file named x.tar.gz gets the
    extension ".gz" and a file named x.3gp the extension ".3gp". *)
Theorem init_ext_suffix (cs : WinFile.ClassState) (d : Disk) (path : string)
        (w : WinFile.t) :
  WinFile.__init__ cs d path = Ok w ->
  (exists e, WinFile.basename w = WinFile.fname w ++ e /\
             WinFile.ext w = lower e /\
             (e = "" \/ exists r, e = String "."%char r /\ has_char "."%char r = false)) /\
  (WinFile.ext w = "" \/
   exists r, WinFile.ext w = String "."%char r /\ has_char "."%char r = false) /\
  WinFile.ext w <> "3gp" /\ WinFile.ext w <> ".tar.gz" /\
  FileFilter.video w
  = mem (WinFile.ext w)
        [".avi"; ".wmv"; ".mkv"; ".mp4"; ".flv"; ".vob"; ".mov"; ".rm"; ".rmvb";
         ".3g2"; ".nsv"; ".webm"; ".mpg"; ".mpeg"; ".m4v"; ".iso"] /\
  FileFilter.archive w
  = mem (WinFile.ext w) [".zip"; ".rar"; ".gz"; ".tgz"; ".7z"] /\
  (WinFile.basename w = "x.tar.gz" -> WinFile.ext w = ".gz") /\
  (WinFile.basename w = "x.3gp" -> WinFile.ext w = ".3gp").
Proof.
  intros H. apply init_inv in H. destruct H as [_ ->].
  destruct (run_initialize_paths cs d (WinFile.fresh (abspath (getcwd d) path)))
    as (_ & _ & Hb & Hn & He).
  cbn [WinFile.abspath WinFile.fresh] in Hb, Hn, He.
  set (w := WinFile.run_initialize _ _ _) in *.
  set (bn := snd (split (abspath (getcwd d) path))) in *.
  pose proof (splitext_app bn _ _ (surjective_pairing _)) as Happ.
  pose proof (splitext_ext bn _ _ (surjective_pairing _)) as Hshape.
  remember (snd (splitext bn)) as e eqn:Ee.
  assert (Hext : WinFile.ext w = "" \/
                 exists r, WinFile.ext w = String "."%char r
                           /\ has_char "."%char r = false).
  { rewrite He. destruct Hshape as [E | (r & E & Hr)]; rewrite E; [now left | right].
    exists (lower r). split; [reflexivity | now rewrite has_dot_lower]. }
  assert (H3 : WinFile.ext w <> "3gp").
  { destruct Hext as [E | (r & E & _)]; rewrite E; discriminate. }
  assert (Ht : WinFile.ext w <> ".tar.gz").
  { destruct Hext as [E | (r & E & Hr)]; rewrite E; [discriminate |].
    intros Eq. injection Eq as Er. subst r. discriminate. }
  split; [| split; [exact Hext | split; [exact H3 | split; [exact Ht |]]]].
  { exists e. split; [rewrite Hb, Hn; now symmetry | split; [exact He | exact Hshape]]. }
  split; [| split; [| split]].
  - unfold FileFilter.video, FileFilter.video_exts, mem. cbn [existsb].
    apply String.eqb_neq in H3. rewrite H3. reflexivity.
  - unfold FileFilter.archive, FileFilter.archive_exts, mem. cbn [existsb].
    apply String.eqb_neq in Ht. rewrite Ht. reflexivity.
  - intros E. rewrite He, Ee. rewrite Hb in E. rewrite E. reflexivity.
  - intros E. rewrite He, Ee. rewrite Hb in E. rewrite E. reflexivity.
Qed.

Lemma init_fields_witness :
  exists w,
    WinFile.__init__ (WinFile.use_slow_init WinFile.class_body) Demo.disk
                     "/data/A.TXT" = Ok w /\
    (exists e, WinFile.basename w = WinFile.fname w ++ e /\
               WinFile.ext w = lower e) /\
    WinFile.abspath w = join (WinFile.dirname w) (WinFile.basename w) /\
    lower (WinFile.ext w) = WinFile.ext w.
Proof.
  apply (init_fields (WinFile.use_slow_init WinFile.class_body) Demo.disk
                     "/data/A.TXT").
  reflexivity.
Defined.

(** C1 fails as stated: the regular file [/data/A.TXT] gives an entity
    whose [basename] is "A.TXT" while [fname + ext] is "A.txt". *)
Lemma init_fields_counterexample :
  isfile Demo.disk "/data/A.TXT" = true /\
  WinFile.__init__ WinFile.class_body Demo.disk "/data/A.TXT" = Ok Demo.winfile_A /\
  WinFile.basename Demo.winfile_A = "A.TXT" /\
  WinFile.fname Demo.winfile_A ++ WinFile.ext Demo.winfile_A = "A.txt" /\
  WinFile.basename Demo.winfile_A
  <> WinFile.fname Demo.winfile_A ++ WinFile.ext Demo.winfile_A.
Proof. repeat split. discriminate. Qed.

Lemma init_ext_suffix_witness :
  (exists e, WinFile.basename Demo.winfile_A = WinFile.fname Demo.winfile_A ++ e /\
             WinFile.ext Demo.winfile_A = lower e /\
             (e = "" \/ exists r, e = String "."%char r /\ has_char "."%char r = false)) /\
  (WinFile.ext Demo.winfile_A = "" \/
   exists r, WinFile.ext Demo.winfile_A = String "."%char r
             /\ has_char "."%char r = false) /\
  WinFile.ext Demo.winfile_A <> "3gp" /\ WinFile.ext Demo.winfile_A <> ".tar.gz" /\
  FileFilter.video Demo.winfile_A
  = mem (WinFile.ext Demo.winfile_A)
        [".avi"; ".wmv"; ".mkv"; ".mp4"; ".flv"; ".vob"; ".mov"; ".rm"; ".rmvb";
         ".3g2"; ".nsv"; ".webm"; ".mpg"; ".mpeg"; ".m4v"; ".iso"] /\
  FileFilter.archive Demo.winfile_A
  = mem (WinFile.ext Demo.winfile_A) [".zip"; ".rar"; ".gz"; ".tgz"; ".7z"] /\
  (WinFile.basename Demo.winfile_A = "x.tar.gz" -> WinFile.ext Demo.winfile_A = ".gz") /\
  (WinFile.basename Demo.winfile_A = "x.3gp" -> WinFile.ext Demo.winfile_A = ".3gp").
Proof.
  apply (init_ext_suffix WinFile.class_body Demo.disk "/data/A.TXT" Demo.winfile_A).
  reflexivity.
Defined.

(** C10 fails as stated: [update] and [rename] assign the extension they
    are given.  After [update(new_ext="3gp")] the extension has no
    leading dot and the entry "3gp" of [FileFilter.video] matches; after
    [rename(new_ext=".tar.gz")] the extension is a double suffix and
    [FileFilter.archive] matches through its entry ".tar.gz". *)
Lemma ext_counterexample :
  WinFile.__init__ WinFile.class_body Demo.disk "/data/A.TXT" = Ok Demo.winfile_A /\
  WinFile.ext (WinFile.update Demo.winfile_A None None (Some "3gp")) = "3gp" /\
  FileFilter.video (WinFile.update Demo.winfile_A None None (Some "3gp")) = true /\
  (exists d' w',
      WinFile.rename Demo.os_rename Demo.disk Demo.winfile_A
                     None None (Some ".tar.gz") = (d', w', Ok tt) /\
      WinFile.ext w' = ".tar.gz" /\
      FileFilter.archive w' = true /\
      mem (WinFile.ext w') [".zip"; ".rar"; ".gz"; ".tgz"; ".7z"] = false).
Proof.
  repeat split. do 2 eexists. repeat split.
Qed.

(** C7.  [rename] with a non-empty new extension that does not begin with
    the separator raises [ValueError] and changes neither the disk nor
    the object.  Otherwise [os.rename] runs first, on the current path
    and the new one: when it raises, the exception is passed on and every
    slot keeps its value; when it succeeds, the path slots are updated to
    the new path, consistently with one another.  So after any failure
    the object is as it was. *)
Theorem rename_atomic
        (os_rename : Disk -> string -> string -> Result Disk)
        (d : Disk) (self : WinFile.t) (new_dirname new_fname new_ext : option string)
        (d' : Disk) (self' : WinFile.t) (r : Result unit) :
  WinFile.rename os_rename d self new_dirname new_fname new_ext = (d', self', r) ->
  let bad_ext :=
    exists s, new_ext = Some s /\ s <> "" /\ startswith s "." = false in
  let dst :=
    join (match new_dirname with
          | Some s => if (s =? "")%string then WinFile.dirname self
                      else abspath (getcwd d) s
          | None => WinFile.dirname self
          end)
         (WinFile.or_else new_fname (WinFile.fname self)
          ++ WinFile.or_else new_ext (WinFile.ext self)) in
  (bad_ext -> r = Raise ValueError /\ d' = d /\ self' = self) /\
  (~ bad_ext ->
   match os_rename d (WinFile.abspath self) dst with
   | Raise e => r = Raise e /\ d' = d /\ self' = self
   | Ok d2 =>
       r = Ok tt /\ d' = d2 /\
       WinFile.abspath self' = dst /\
       WinFile.fname self' = WinFile.or_else new_fname (WinFile.fname self) /\
       WinFile.ext self' = WinFile.or_else new_ext (WinFile.ext self) /\
       WinFile.basename self' = WinFile.fname self' ++ WinFile.ext self' /\
       WinFile.abspath self' = join (WinFile.dirname self') (WinFile.basename self')
   end) /\
  (forall e, r = Raise e -> d' = d /\ self' = self) /\
  (r = Ok tt ->
   os_rename d (WinFile.abspath self) (WinFile.abspath self') = Ok d').
Proof.
  intros H. unfold WinFile.rename in H. cbv zeta in *.
  destruct new_ext as [s|]; cbn [WinFile.or_else] in *;
    [destruct (s =? "")%string eqn:Es;
     [| destruct (startswith s ".") eqn:Ep] |];
    try (destruct (os_rename _ _ _) as [d2|e] eqn:Er);
    injection H as <- <- <-;
    repeat split; intros;
    try discriminate; try reflexivity; try exact Er;
    try (exfalso;
         match goal with
         | Hb : exists _, _ |- _ =>
             destruct Hb as (s' & Hs & Hn & Hp);
             try discriminate; injection Hs as <-;
             try (apply String.eqb_eq in Es; contradiction);
             congruence
         | Hb : ~ _ |- _ =>
             apply Hb; exists s; repeat split;
             [now apply String.eqb_neq | exact Ep]
         end).
Qed.

Lemma rename_atomic_witness :
  let r : Result unit := Raise ValueError in
  let bad_ext :=
    exists s, Some "gz" = Some s /\ s <> "" /\ startswith s "." = false in
  let dst := join "/data" ("A" ++ "gz") in
  (bad_ext -> r = Raise ValueError /\ Demo.disk = Demo.disk
              /\ Demo.winfile_A = Demo.winfile_A) /\
  (~ bad_ext ->
   match Demo.os_rename Demo.disk "/data/A.TXT" dst with
   | Raise e => r = Raise e /\ Demo.disk = Demo.disk
                /\ Demo.winfile_A = Demo.winfile_A
   | Ok d2 =>
       r = Ok tt /\ Demo.disk = d2 /\
       WinFile.abspath Demo.winfile_A = dst /\
       WinFile.fname Demo.winfile_A = "A" /\
       WinFile.ext Demo.winfile_A = "gz" /\
       WinFile.basename Demo.winfile_A
       = WinFile.fname Demo.winfile_A ++ WinFile.ext Demo.winfile_A /\
       WinFile.abspath Demo.winfile_A
       = join (WinFile.dirname Demo.winfile_A) (WinFile.basename Demo.winfile_A)
   end) /\
  (forall e, r = Raise e ->
             Demo.disk = Demo.disk /\ Demo.winfile_A = Demo.winfile_A) /\
  (r = Ok tt ->
   Demo.os_rename Demo.disk "/data/A.TXT" (WinFile.abspath Demo.winfile_A)
   = Ok Demo.disk).
Proof.
  exact (rename_atomic Demo.os_rename Demo.disk Demo.winfile_A
                       None None (Some "gz")
                       Demo.disk Demo.winfile_A (Raise ValueError) eq_refl).
Defined.

End WinFileFacts.

(** ** Size formatting *)

Module MethFacts.
Import PyStr Meth.

(** The test of [meth.py]. *)
Example test_repr_data_size :
  map (fun i => repr_data_size (100 * 1000 ^ i) 2) [0; 1; 2; 3; 4; 5; 6; 7; 8]
  = map Ok ["100 B"; "97.66 KB"; "95.37 MB"; "93.13 GB"; "90.95 TB"; "88.82 PB";
            "86.74 EB"; "84.70 ZB"; "82.72 YB"].
Proof. vm_compute. reflexivity. Qed.

(** Ties go to the even digit; what is left under the unit before the
    last is dropped, so that a size of 1.0059 MB, which rounds to 1.01,
    is printed as 1.00; past the last unit the lookup fails. *)
Example repr_data_size_edges :
  repr_data_size (1024 + 128) 2 = Ok "1.12 KB" /\
  repr_data_size (1024 + 384) 2 = Ok "1.38 KB" /\
  repr_data_size (1024 * 1024 - 1) 2 = Ok "1024.00 KB" /\
  repr_data_size (1024 * 1024 + 5 * 1024 + 1023) 2 = Ok "1.00 MB" /\
  repr_data_size (1024 ^ 9) 2 = Raise IndexError.
Proof. repeat split; vm_compute; reflexivity. Qed.

(** The loop, given enough fuel, stops at the first power of 1024 that
    brings the size under 1024, with the quotient at that power and the
    last remainder. *)
Lemma loop_spec (fuel : nat) (index s : Z) :
  1024 <= s -> s < 2 ^ (Z.of_nat fuel + 1) ->
  exists k, 1 <= k /\ 1024 ^ k <= s < 1024 ^ (k + 1) /\
            loop fuel index s
            = (index + k, s / 1024 ^ k, (s / 1024 ^ (k - 1)) mod 1024).
Proof.
  revert index s. induction fuel as [|fuel IH]; intros index s Hs Hf.
  - simpl in Hf. lia.
  - cbn [loop]. destruct (s / 1024 <? 1024) eqn:E.
    + apply Z.ltb_lt in E. exists 1. split; [lia |]. split.
      * split; [lia |]. change (1024 ^ (1 + 1)) with (1024 * 1024).
        pose proof (Z.div_mod s 1024 ltac:(lia)).
        pose proof (Z.mod_pos_bound s 1024 ltac:(lia)). lia.
      * change (1024 ^ 1) with 1024. change (1024 ^ (1 - 1)) with 1.
        now rewrite Z.div_1_r.
    + apply Z.ltb_ge in E.
      assert (Hf' : s / 1024 < 2 ^ (Z.of_nat fuel + 1)).
      { apply Z.div_lt_upper_bound; [lia |].
        replace (Z.of_nat (S fuel) + 1) with (Z.of_nat fuel + 1 + 1) in Hf by lia.
        rewrite Z.pow_add_r in Hf by lia.
        assert (0 < 2 ^ (Z.of_nat fuel + 1)) by (apply Z.pow_pos_nonneg; lia).
        lia. }
      destruct (IH (index + 1) (s / 1024) E Hf') as (k & Hk & [Hlo Hhi] & Hl).
      exists (k + 1). split; [lia |]. split.
      * rewrite !Z.pow_add_r by lia. change (1024 ^ 1) with 1024.
        pose proof (Z.div_mod s 1024 ltac:(lia)) as Hdm.
        pose proof (Z.mod_pos_bound s 1024 ltac:(lia)) as Hmb.
        rewrite Z.pow_add_r in Hhi by lia. change (1024 ^ 1) with 1024 in Hhi.
        assert (0 < 1024 ^ k) by (apply Z.pow_pos_nonneg; lia).
        split; nia.
      * rewrite Hl. f_equal; [f_equal; [lia |] |].
        -- rewrite Z.pow_add_r by lia. change (1024 ^ 1) with 1024.
           rewrite Z.div_div by (try apply Z.pow_pos_nonneg; lia).
           f_equal. lia.
        -- replace (k + 1 - 1) with (1 + (k - 1)) by lia.
           rewrite Z.pow_add_r by lia. change (1024 ^ 1) with 1024.
           rewrite Z.div_div by (try apply Z.pow_pos_nonneg; lia).
           reflexivity.
Qed.

Lemma loop_fuel_enough (s : Z) : 1024 <= s -> s < 2 ^ (Z.of_nat (loop_fuel s) + 1).
Proof.
  intros Hs. unfold loop_fuel.
  pose proof (Z.log2_nonneg s). rewrite Z2Nat.id by assumption.
  replace (Z.log2 s + 1) with (Z.succ (Z.log2 s)) by lia.
  apply Z.log2_spec. lia.
Qed.

(** The loop leaves through its [break]: the size it ends with is under
    1024. *)
Lemma loop_exit (s : Z) :
  1024 <= s ->
  let '(index, q, m) := loop (loop_fuel s) 0 s in
  1 <= index /\ 1 <= q < 1024 /\ 0 <= m < 1024.
Proof.
  intros Hs.
  destruct (loop_spec (loop_fuel s) 0 s Hs (loop_fuel_enough s Hs))
    as (k & Hk & [Hlo Hhi] & ->).
  assert (0 < 1024 ^ k) by (apply Z.pow_pos_nonneg; lia).
  split; [lia |]. split.
  - split.
    + apply Z.div_le_lower_bound; lia.
    + apply Z.div_lt_upper_bound; [lia |].
      rewrite Z.pow_add_r in Hhi by lia. change (1024 ^ 1) with 1024 in Hhi. lia.
  - apply Z.mod_pos_bound. lia.
Qed.

Lemma two_digits_upto_100 :
  forallb (fun n => match zfill 2 (of_Z (Z.of_nat n)) with
                    | String d1 (String d2 "") => is_digit d1 && is_digit d2
                    | _ => false
                    end) (seq 0 100) = true.
Proof. vm_compute. reflexivity. Qed.

Lemma two_digits (x : Z) :
  0 <= x < 100 ->
  exists d1 d2, zfill 2 (of_Z x) = String d1 (String d2 "")
                /\ is_digit d1 = true /\ is_digit d2 = true.
Proof.
  intros Hx. rewrite <- (Z2Nat.id x) by lia.
  assert (Hin : In (Z.to_nat x) (seq 0 100)) by (apply in_seq; lia).
  pose proof (proj1 (forallb_forall _ _) two_digits_upto_100 _ Hin) as H.
  cbv beta in H.
  destruct (zfill 2 (of_Z (Z.of_nat (Z.to_nat x)))) as [|d1 [|d2 [|? ?]]];
    try discriminate.
  apply andb_prop in H. destruct H as [H1 H2]. now exists d1, d2.
Qed.

(** With two decimals the rendering is an integer part, a point, two
    digits. *)
Lemma to_fixed_2 (num : Z) :
  exists d1 d2,
    to_fixed 2 num 1024
    = of_Z (round_half_even (num * 100) 1024 / 100)
      ++ "." ++ String d1 (String d2 "")
    /\ is_digit d1 = true /\ is_digit d2 = true.
Proof.
  unfold to_fixed. change (10 ^ Z.of_nat 2) with 100.
  destruct (two_digits (round_half_even (num * 100) 1024 mod 100))
    as (d1 & d2 & E & H1 & H2).
  { apply Z.mod_pos_bound. lia. }
  exists d1, d2. now rewrite E.
Qed.

(** A precision from 0 to [INT_MAX] is taken. *)
Lemma format_f_ok (prec num den : Z) :
  0 <= prec <= INT_MAX ->
  format_f prec num den = Ok (to_fixed (Z.to_nat prec) num den).
Proof.
  intros [Hlo Hhi]. unfold format_f.
  apply Z.leb_le in Hlo. apply Z.leb_le in Hhi. now rewrite Hlo, Hhi.
Qed.

(** C3.  [repr_data_size] at precision 2: the four examples; a size
    under 1024 is the integer count and the unit B; a size from 1024 on
    and under 1024^9, where the units end, is divided down to the first
    unit [k] that leaves a value under 1024, and that value, the whole
    number of units of [k - 1] over 1024, is printed rounded to two
    decimals, ties to even, with the unit; from 1024^9 on the call
    raises [IndexError]. *)
Theorem repr_data_size_spec :
  repr_data_size 100 2 = Ok "100 B" /\
  repr_data_size 100000 2 = Ok "97.66 KB" /\
  repr_data_size 100000000 2 = Ok "95.37 MB" /\
  repr_data_size 100000000000 2 = Ok "93.13 GB" /\
  (forall n, n < 1024 -> repr_data_size n 2 = Ok (of_Z n ++ " B")) /\
  (forall n, 1024 <= n < 1024 ^ 9 ->
     exists k unit d1 d2,
       1 <= k <= 8 /\
       1024 ^ k <= n < 1024 ^ (k + 1) /\
       nth_error magnitude_of_data (Z.to_nat k) = Some unit /\
       repr_data_size n 2
       = Ok (to_fixed 2 (n / 1024 ^ (k - 1)) 1024 ++ " " ++ unit) /\
       to_fixed 2 (n / 1024 ^ (k - 1)) 1024
       = of_Z (round_half_even (n / 1024 ^ (k - 1) * 100) 1024 / 100)
         ++ "." ++ String d1 (String d2 "") /\
       is_digit d1 = true /\ is_digit d2 = true) /\
  (forall n, 1024 ^ 9 <= n -> repr_data_size n 2 = Raise IndexError).
Proof.
  do 4 (split; [vm_compute; reflexivity |]). split; [| split].
  - intros n Hn. unfold repr_data_size.
    apply Z.ltb_lt in Hn. now rewrite Hn.
  - intros n [Hlo Hhi]. unfold repr_data_size.
    assert (E : (n <? 1024) = false) by now apply Z.ltb_ge. rewrite E.
    destruct (loop_spec (loop_fuel n) 0 n Hlo (loop_fuel_enough n Hlo))
      as (k & Hk & [Hklo Hkhi] & ->).
    assert (Hk8 : k <= 8).
    { destruct (Z_le_gt_dec k 8) as [|Hgt]; [assumption | exfalso].
      assert (1024 ^ 9 <= 1024 ^ k) by (apply Z.pow_le_mono_r; lia). lia. }
    assert (Hnum : n / 1024 ^ k * 1024 + (n / 1024 ^ (k - 1)) mod 1024
                   = n / 1024 ^ (k - 1)).
    { replace k with (k - 1 + 1) at 1 by lia.
      rewrite Z.pow_add_r by lia. change (1024 ^ 1) with 1024.
      rewrite <- Z.div_div by (try apply Z.pow_pos_nonneg; lia).
      pose proof (Z.div_mod (n / 1024 ^ (k - 1)) 1024 ltac:(lia)). lia. }
    rewrite Hnum, format_f_ok by (unfold INT_MAX; lia).
    unfold bind. change (Z.to_nat 2) with 2%nat.
    destruct (to_fixed_2 (n / 1024 ^ (k - 1))) as (d1 & d2 & Ef & H1 & H2).
    assert (Hcase : k = 1 \/ k = 2 \/ k = 3 \/ k = 4 \/ k = 5 \/ k = 6
                    \/ k = 7 \/ k = 8) by lia.
    change (0 + k) with k.
    assert (Hunit : exists unit,
               nth_error magnitude_of_data (Z.to_nat k) = Some unit).
    { destruct Hcase as [-> | [-> | [-> | [-> | [-> | [-> | [-> | ->]]]]]]];
        eexists; reflexivity. }
    destruct Hunit as (unit & Hu). rewrite Hu.
    exists k, unit, d1, d2.
    split; [lia |]. split; [split; assumption |].
    split; [exact Hu |]. split; [reflexivity |].
    split; [exact Ef |]. split; assumption.
  - intros n Hn. unfold repr_data_size.
    assert (H9 : 1024 < 1024 ^ 9) by reflexivity.
    assert (Hlo : 1024 <= n) by lia.
    assert (E : (n <? 1024) = false) by now apply Z.ltb_ge. rewrite E.
    destruct (loop_spec (loop_fuel n) 0 n Hlo (loop_fuel_enough n Hlo))
      as (k & Hk & [Hklo Hkhi] & ->).
    assert (Hk9 : 9 <= k).
    { destruct (Z_le_gt_dec 9 k) as [|Hgt]; [assumption | exfalso].
      assert (1024 ^ (k + 1) <= 1024 ^ 9) by (apply Z.pow_le_mono_r; lia). lia. }
    change (0 + k) with k.
    assert (En : nth_error magnitude_of_data (Z.to_nat k) = None).
    { apply nth_error_None. simpl. lia. }
    now rewrite En.
Qed.

Lemma repr_data_size_spec_witness :
  repr_data_size 1023 2 = Ok "1023 B" /\
  repr_data_size (1024 ^ 9 + 1) 2 = Raise IndexError /\
  exists k unit d1 d2,
    1 <= k <= 8 /\
    1024 ^ k <= 1536 < 1024 ^ (k + 1) /\
    nth_error magnitude_of_data (Z.to_nat k) = Some unit /\
    repr_data_size 1536 2
    = Ok (to_fixed 2 (1536 / 1024 ^ (k - 1)) 1024 ++ " " ++ unit) /\
    to_fixed 2 (1536 / 1024 ^ (k - 1)) 1024
    = of_Z (round_half_even (1536 / 1024 ^ (k - 1) * 100) 1024 / 100)
      ++ "." ++ String d1 (String d2 "") /\
    is_digit d1 = true /\ is_digit d2 = true.
Proof.
  split; [| split].
  - apply (proj1 (proj2 (proj2 (proj2 (proj2 repr_data_size_spec))))). lia.
  - apply (proj2 (proj2 (proj2 (proj2 (proj2 (proj2 repr_data_size_spec)))))).
    lia.
  - apply (proj1 (proj2 (proj2 (proj2 (proj2 (proj2 repr_data_size_spec)))))).
    split; [lia | reflexivity].
Defined.

(** C3, where the claim as stated fails.  A size of 1024^9 bytes is at or
    above 1024, and it is not rendered: after nine divisions the index
    is past the last unit, and the lookup raises [IndexError]. *)
Lemma repr_data_size_counterexample :
  1024 <= 1024 ^ 9 /\
  repr_data_size (1024 ^ 9) 2 = Raise IndexError.
Proof. split; [discriminate | vm_compute; reflexivity]. Qed.

End MethFacts.

(** ** Ordered dictionaries *)

Module ODFacts.
Section Dict.
Context {V : Type}.
Implicit Types (d : OD.t V) (k p : string) (v : V).

Lemma get_In d k v : OD.get d k = Some v -> In (k, v) d.
Proof.
  induction d as [|[k' v'] d IH]; simpl; [discriminate |].
  destruct (k' =? k)%string eqn:E.
  - apply String.eqb_eq in E. subst. intros H. injection H as <-. now left.
  - intros H. right. now apply IH.
Qed.

Lemma get_none d k : OD.get d k = None <-> ~ In k (OD.keys d).
Proof.
  induction d as [|[k' v'] d IH]; simpl; [tauto |].
  destruct (k' =? k)%string eqn:E.
  - apply String.eqb_eq in E. subst. split; [discriminate | tauto].
  - apply String.eqb_neq in E. rewrite IH. tauto.
Qed.

Lemma contains_In d k : OD.contains d k = true <-> In k (OD.keys d).
Proof.
  unfold OD.contains. destruct (OD.get d k) eqn:E.
  - split; [intros _ | reflexivity].
    apply get_In in E. apply (in_map fst) in E. exact E.
  - apply get_none in E. split; [discriminate | contradiction].
Qed.

Lemma contains_false d k : OD.contains d k = false <-> ~ In k (OD.keys d).
Proof.
  rewrite <- contains_In. destruct (OD.contains d k); split; congruence.
Qed.

Lemma In_get d k v : NoDup (OD.keys d) -> In (k, v) d -> OD.get d k = Some v.
Proof.
  induction d as [|[k' v'] d IH]; simpl; [tauto |].
  intros Hnd [H | H].
  - injection H as -> ->. now rewrite String.eqb_refl.
  - inversion Hnd as [|? ? Hni Hnd']; subst.
    destruct (k' =? k)%string eqn:E.
    + apply String.eqb_eq in E. subst. exfalso. apply Hni.
      apply (in_map fst) in H. exact H.
    + now apply IH.
Qed.

Lemma keys_setdefault d k v :
  OD.keys (OD.setdefault d k v)
  = if OD.contains d k then OD.keys d else (OD.keys d ++ [k])%list.
Proof.
  unfold OD.setdefault, OD.keys. destruct (OD.contains d k); [reflexivity |].
  now rewrite map_app.
Qed.

Lemma In_keys_setdefault d k v p :
  In p (OD.keys (OD.setdefault d k v)) <-> In p (OD.keys d) \/ p = k.
Proof.
  rewrite keys_setdefault. destruct (OD.contains d k) eqn:E.
  - apply contains_In in E. split; [tauto | intros [H | ->]; assumption].
  - rewrite in_app_iff. simpl. split; intros [H | H]; auto.
    destruct H as [-> | []]. now right.
Qed.

Lemma NoDup_setdefault d k v :
  NoDup (OD.keys d) -> NoDup (OD.keys (OD.setdefault d k v)).
Proof.
  intros H. rewrite keys_setdefault. destruct (OD.contains d k) eqn:E; [exact H |].
  apply contains_false in E.
  apply NoDup_app; [exact H | repeat constructor; intros [] |].
  intros x Hx [<- | []]. contradiction.
Qed.

Lemma In_setdefault d k v p w :
  In (p, w) (OD.setdefault d k v) -> In (p, w) d \/ (p, w) = (k, v).
Proof.
  unfold OD.setdefault. destruct (OD.contains d k); [now left |].
  rewrite in_app_iff. simpl. intros [H | [H | []]]; auto.
Qed.

Lemma In_setdefault_old d k v p w :
  In (p, w) d -> In (p, w) (OD.setdefault d k v).
Proof.
  unfold OD.setdefault. destruct (OD.contains d k); [tauto |].
  rewrite in_app_iff. now left.
Qed.

Lemma length_setdefault d k v :
  (List.length (OD.setdefault d k v) <= S (List.length d))%nat.
Proof.
  unfold OD.setdefault. destruct (OD.contains d k); [lia |].
  rewrite length_app. simpl. lia.
Qed.

Lemma In_keys_remove d k p :
  NoDup (OD.keys d) ->
  (In p (OD.keys (OD.remove d k)) <-> In p (OD.keys d) /\ p <> k).
Proof.
  induction d as [|[k' v'] d IH]; simpl; [tauto |].
  intros Hnd. inversion Hnd as [|? ? Hni Hnd']; subst.
  destruct (k' =? k)%string eqn:E.
  - apply String.eqb_eq in E. subst k'. split.
    + intros H. split; [now right | intros ->; contradiction].
    + intros [[H | H] Hne]; [congruence | exact H].
  - apply String.eqb_neq in E. simpl. rewrite (IH Hnd'). split.
    + intros [-> | [H1 H2]]; [split; [now left | exact E] | tauto].
    + intros [[H | H] Hne]; [now left | tauto].
Qed.

Lemma In_remove d k p w : In (p, w) (OD.remove d k) -> In (p, w) d.
Proof.
  induction d as [|[k' v'] d IH]; simpl; [tauto |].
  destruct (k' =? k)%string; simpl; [tauto |].
  intros [H | H]; [now left | right; now apply IH].
Qed.

Lemma NoDup_remove d k : NoDup (OD.keys d) -> NoDup (OD.keys (OD.remove d k)).
Proof.
  induction d as [|[k' v'] d IH]; simpl; [tauto |].
  intros Hnd. inversion Hnd as [|? ? Hni Hnd']; subst.
  destruct (k' =? k)%string; [exact Hnd' |]. simpl.
  constructor; [| now apply IH].
  intros H. apply (In_keys_remove _ _ _ Hnd') in H. tauto.
Qed.

Lemma remove_not_in d k : ~ In k (OD.keys d) -> OD.remove d k = d.
Proof.
  induction d as [|[k' v'] d IH]; simpl; [reflexivity |].
  intros H. destruct (k' =? k)%string eqn:E.
  - apply String.eqb_eq in E. tauto.
  - f_equal. apply IH. tauto.
Qed.

End Dict.
End ODFacts.

(** ** File collections *)

Module FileCollectionFacts.
Import PyStr PosixPath ODFacts WinFileFacts FileCollection.

(** *** [remove] *)

(** C6 (as amended).  [remove] of an entity, or of a path that resolves
    to an existing regular file, whose absolute path is not a key of the
    collection does not raise and leaves the collection (so its length)
    as it was; the absence is reported when [enable_verbose] holds. *)
Theorem remove_absent (cs : WinFile.ClassState) (d : Disk) (self : t)
        (out : list string) (item : Item) (enable_verbose : bool)
        (winfile : WinFile.t) :
  item = ItemWinFile winfile \/
  (exists path, item = ItemPath path /\ WinFile.__init__ cs d path = Ok winfile) ->
  OD.contains (files self) (WinFile.abspath winfile) = false ->
  remove cs d self out item enable_verbose
  = (self,
     if enable_verbose
     then (out ++ [("'" ++ WinFile.abspath winfile
                        ++ "' are not in this file collections")%string])%list
     else out,
     Ok tt)
  /\ __len__ (fst (fst (remove cs d self out item enable_verbose))) = __len__ self.
Proof.
  intros Hitem Hc.
  assert (Hr : resolve cs d item = Ok winfile).
  { destruct Hitem as [-> | (path & -> & H)]; [reflexivity | exact H]. }
  assert (E : remove cs d self out item enable_verbose
              = (self,
                 if enable_verbose
                 then (out ++ [("'" ++ WinFile.abspath winfile
                                    ++ "' are not in this file collections")%string])%list
                 else out,
                 Ok tt)).
  { unfold remove, OD.del. rewrite Hr, Hc. unfold prt, WinFile.__str__.
    now destruct enable_verbose. }
  split; [exact E | now rewrite E].
Qed.

Lemma remove_absent_witness :
  remove WinFile.class_body Demo.disk empty [] (ItemPath "/data/A.TXT") true
  = (empty, ["'/data/A.TXT' are not in this file collections"], Ok tt)
  /\ __len__ (fst (fst (remove WinFile.class_body Demo.disk empty []
                               (ItemPath "/data/A.TXT") true)))
     = __len__ empty.
Proof.
  apply (remove_absent WinFile.class_body Demo.disk empty []
                       (ItemPath "/data/A.TXT") true Demo.winfile_A).
  - right. exists "/data/A.TXT". split; reflexivity.
  - reflexivity.
Defined.

(** C6 fails as stated: [/nope] is not a member of the empty collection,
    and [remove("/nope")] raises, because the path is first made into a
    [WinFile] and there is no such file. *)
Lemma remove_absent_counterexample :
  __contains__ Demo.disk empty (ItemPath "/nope") = Ok false /\
  remove WinFile.class_body Demo.disk empty [] (ItemPath "/nope") true
  = (empty, [], Raise EnvironmentError).
Proof. split; reflexivity. Qed.

(** *** [sort_by] *)

Lemma getattr_raise (class_attr : string -> option WinFile.Value)
      (w : WinFile.t) (name : string) (e : Exn) :
  WinFile.getattr class_attr w name = Raise e -> e = AttributeError.
Proof.
  unfold WinFile.getattr, WinFile.slot.
  repeat (destruct (name =? _)%string; [try discriminate |]);
    repeat match goal with
           | |- match ?x with _ => _ end = _ -> _ => destruct x
           end; try discriminate; congruence.
Qed.

Lemma attr_loop_raise (class_attr : string -> option WinFile.Value)
      (attr_name : string) (fs : OD.t WinFile.t) (acc : OD.t WinFile.Value) :
  (exists p w, In (p, w) fs
               /\ WinFile.getattr class_attr w attr_name = Raise AttributeError) ->
  attr_loop class_attr attr_name fs acc = Raise AttributeError.
Proof.
  revert acc. induction fs as [|[p0 w0] fs IH]; intros acc (p & w & Hin & Hg).
  - destruct Hin.
  - cbn [attr_loop]. unfold bind.
    destruct (WinFile.getattr class_attr w0 attr_name) as [v|e] eqn:E.
    + apply IH. destruct Hin as [H | H].
      * injection H as -> ->. congruence.
      * now exists p, w.
    + now rewrite (getattr_raise _ _ _ _ E).
Qed.

(** A call of [sort_by] that raises leaves the collection, and so its
    explicit order, as it was. *)
Lemma sort_by_raise_keeps (class_attr : string -> option WinFile.Value)
      (self : t) (attr_name : string) (reverse : bool) (e : Exn) :
  snd (sort_by class_attr self attr_name reverse) = Raise e ->
  fst (sort_by class_attr self attr_name reverse) = self.
Proof.
  unfold sort_by.
  destruct (attr_loop _ _ _ _) as [l|[]]; try reflexivity.
  destruct (sorted l reverse); [discriminate | reflexivity].
Qed.

(** C8 (as amended).  On a collection with an entity that lacks the
    named attribute (so on every non-empty collection, when the name is
    no attribute of the entities), [sort_by] raises [ValueError] and
    leaves the collection, with any explicit order of an earlier sort,
    unchanged. *)
Theorem sort_by_missing_attribute (class_attr : string -> option WinFile.Value)
        (self : t) (attr_name : string) (reverse : bool) :
  (exists p w, In (p, w) (files self)
               /\ WinFile.getattr class_attr w attr_name = Raise AttributeError) ->
  sort_by class_attr self attr_name reverse = (self, Raise ValueError)
  /\ order (fst (sort_by class_attr self attr_name reverse)) = order self.
Proof.
  intros H.
  assert (E : sort_by class_attr self attr_name reverse = (self, Raise ValueError)).
  { unfold sort_by. now rewrite (attr_loop_raise _ _ _ _ H). }
  split; [exact E | now rewrite E].
Qed.

(** Sorting the four files under [/data] by size, both ways. *)
Example sort_by_size_example :
  exists fc up down,
    from_path Demo.set_iter WinFile.class_body Demo.disk (One "/data") = Ok fc /\
    sort_by Demo.class_attr fc "size_on_disk" false = (up, Ok tt) /\
    sort_by Demo.class_attr fc "size_on_disk" true = (down, Ok tt) /\
    iterpaths up
    = ["/data/A.TXT"; "/data/sub/b.py"; "/data/x.tar.gz"; "/data/x.3gp"] /\
    map WinFile.size_on_disk (iterfiles up)
    = [Some 5; Some 100; Some (2 ^ 40); Some (2 ^ 40 + 1)] /\
    iterpaths down
    = ["/data/x.3gp"; "/data/x.tar.gz"; "/data/sub/b.py"; "/data/A.TXT"].
Proof.
  do 3 eexists.
  do 3 (split; [vm_compute; reflexivity |]).
  repeat split.
Qed.

(** C8 fails as stated: on a collection that has become empty, [sort_by]
    with a name that is no attribute of any entity does not raise, and
    replaces the order of the earlier sort by the empty one. *)
Lemma sort_by_counterexample :
  (forall w, WinFile.getattr Demo.class_attr w "bogus" = Raise AttributeError) /\
  exists fc,
    Demo.sorted_then_emptied = Ok fc /\
    order fc = Some ["/data/A.TXT"] /\
    sort_by Demo.class_attr fc "bogus" false
    = ({| files := []; order := Some [] |}, Ok tt).
Proof.
  split; [reflexivity |]. eexists. repeat split.
Qed.

Lemma sort_by_missing_attribute_witness :
  sort_by Demo.class_attr Demo.fc_A "bogus" true = (Demo.fc_A, Raise ValueError)
  /\ order (fst (sort_by Demo.class_attr Demo.fc_A "bogus" true))
     = order Demo.fc_A.
Proof.
  apply (sort_by_missing_attribute Demo.class_attr Demo.fc_A "bogus" true).
  exists "/data/A.TXT", Demo.winfile_A. split; [now left | reflexivity].
Defined.

(** *** The initialization tier around [from_path_by_md5] *)

(** When the walk raises, [from_path_by_md5] ends there: the class is
    left on the slow tier, whatever the tier was. *)
Lemma from_path_by_md5_raise (set_iter : list string -> list string)
      (cs : WinFile.ClassState) (d : Disk) (arg : PathArg)
      (md5_value : string) (e : Exn) :
  from_path_by_criterion set_iter (WinFile.use_slow_init cs) d
    (Many (_preprocess set_iter arg)) (md5_filter md5_value) = Raise e ->
  from_path_by_md5 set_iter cs d arg md5_value
  = ({| WinFile.initialize := WinFile.level3; WinFile.init_mode := 3 |}, Raise e).
Proof. unfold from_path_by_md5. now intros ->. Qed.

(** When the walk returns, with or without matches, the tier is set back:
    [init_mode] has its prior value and [initialize] builds what it built
    before. *)
Lemma from_path_by_md5_ok (set_iter : list string -> list string)
      (cs cs' : WinFile.ClassState) (d : Disk) (arg : PathArg)
      (md5_value : string) (fc : t) :
  (WinFile.initialize cs, WinFile.init_mode cs)
  = (WinFile.initialize_def, 2) \/
  (WinFile.initialize cs, WinFile.init_mode cs) = (WinFile.level1, 1) \/
  (WinFile.initialize cs, WinFile.init_mode cs) = (WinFile.level2, 2) \/
  (WinFile.initialize cs, WinFile.init_mode cs) = (WinFile.level3, 3) ->
  from_path_by_md5 set_iter cs d arg md5_value = (cs', Ok fc) ->
  WinFile.init_mode cs' = WinFile.init_mode cs /\
  forall d0 self, WinFile.run_initialize cs' d0 self = WinFile.run_initialize cs d0 self.
Proof.
  unfold from_path_by_md5. intros Hcs.
  destruct (from_path_by_criterion _ _ _ _ _) as [fc0|e]; [| discriminate].
  unfold WinFile.run_initialize.
  destruct Hcs as [H | [H | [H | H]]]; injection H as Hi Hm; rewrite Hi, Hm;
    cbn; intros E; injection E as <- <-; split; reflexivity.
Qed.

(** C5, at a failing input.  The class is on the regular tier and
    [/nope] is no directory: the walk of [from_path_by_md5] raises
    [EnvironmentError], and the class is left on the slow tier. *)
Theorem from_path_by_md5_leaves_slow_tier :
  WinFile.init_mode WinFile.class_body = 2 /\
  isdir Demo.disk "/nope" = false /\
  from_path_by_md5 Demo.set_iter WinFile.class_body Demo.disk (One "/nope")
                   "d41d8cd98f00b204e9800998ecf8427e"
  = ({| WinFile.initialize := WinFile.level3; WinFile.init_mode := 3 |},
     Raise EnvironmentError) /\
  (exists w, WinFile.__init__
               (fst (from_path_by_md5 Demo.set_iter WinFile.class_body Demo.disk
                                      (One "/nope")
                                      "d41d8cd98f00b204e9800998ecf8427e"))
               Demo.disk "/data/A.TXT" = Ok w
             /\ WinFile.md5 w = Some "0cc175b9c0f1b6a831c399e269772661") /\
  WinFile.__init__ WinFile.class_body Demo.disk "/data/A.TXT" = Ok Demo.winfile_A /\
  WinFile.md5 Demo.winfile_A = None.
Proof.
  repeat split. eexists. split; reflexivity.
Qed.

(** *** Iteration *)

Lemma iterfiles_try_present (fs : OD.t WinFile.t) (o : list string) :
  (forall q, In q o -> OD.contains fs q = true) ->
  Forall2 (fun q w => OD.get fs q = Some w) o (iterfiles_try fs o).
Proof.
  induction o as [|q o IH]; intros H; cbn [iterfiles_try]; [constructor |].
  pose proof (H q (or_introl eq_refl)) as Hq. unfold OD.contains in Hq.
  destruct (OD.get fs q) eqn:E; [| discriminate].
  constructor; [exact E | apply IH; intros; apply H; now right].
Qed.

Lemma iterfiles_try_app (fs : OD.t WinFile.t) (pre post : list string) :
  (forall q, In q pre -> OD.contains fs q = true) ->
  iterfiles_try fs (pre ++ post)
  = (iterfiles_try fs pre ++ iterfiles_try fs post)%list.
Proof.
  induction pre as [|q pre IH]; intros H; [reflexivity |].
  pose proof (H q (or_introl eq_refl)) as Hq. unfold OD.contains in Hq.
  cbn [app iterfiles_try]. destruct (OD.get fs q) eqn:E; [| discriminate].
  cbn [app]. f_equal. apply IH. intros; apply H; now right.
Qed.

(** With an order that names a path no longer in the collection,
    [iterpaths] yields that path, and [iterfiles] yields the entities
    ordered before it and then every entity of the collection. *)
Lemma stale_order_iteration (self : t) (pre post : list string) (p : string) :
  order self = Some (pre ++ p :: post)%list ->
  (forall q, In q pre -> OD.contains (files self) q = true) ->
  OD.contains (files self) p = false ->
  In p (iterpaths self) /\
  iterfiles self
  = (iterfiles_try (files self) pre ++ OD.values (files self))%list /\
  Forall2 (fun q w => OD.get (files self) q = Some w) pre
          (iterfiles_try (files self) pre).
Proof.
  intros Ho Hpre Hp. unfold iterpaths, iterfiles. rewrite Ho.
  split; [apply in_elt |]. split; [| now apply iterfiles_try_present].
  rewrite iterfiles_try_app by exact Hpre. f_equal.
  cbn [iterfiles_try]. unfold OD.contains in Hp.
  now destruct (OD.get (files self) p).
Qed.

(** With an order that lists keys of the collection only, [iterfiles]
    yields the entity of each listed key, in that order. *)
Lemma fresh_order_iteration (self : t) (o : list string) :
  order self = Some o ->
  (forall q, In q o -> OD.contains (files self) q = true) ->
  iterpaths self = o /\
  Forall2 (fun q w => OD.get (files self) q = Some w) o (iterfiles self).
Proof.
  intros Ho H. unfold iterpaths, iterfiles. rewrite Ho.
  split; [reflexivity | now apply iterfiles_try_present].
Qed.

(** C4, at a failing input.  The four files under [/data] are collected
    and sorted by [abspath]; then [/data/sub/b.py] is removed.  The order
    still names it: [iterpaths] yields the removed path, and [iterfiles]
    yields [/data/A.TXT] twice. *)
Theorem iteration_after_removal :
  exists fc,
    Demo.sorted_then_removed = Ok fc /\
    order fc = Some ["/data/A.TXT"; "/data/sub/b.py"; "/data/x.3gp"; "/data/x.tar.gz"] /\
    OD.keys (files fc) = ["/data/A.TXT"; "/data/x.tar.gz"; "/data/x.3gp"] /\
    OD.contains (files fc) "/data/sub/b.py" = false /\
    iterpaths fc
    = ["/data/A.TXT"; "/data/sub/b.py"; "/data/x.3gp"; "/data/x.tar.gz"] /\
    map WinFile.abspath (iterfiles fc)
    = ["/data/A.TXT"; "/data/A.TXT"; "/data/x.tar.gz"; "/data/x.3gp"].
Proof.
  eexists. repeat split.
Qed.

(** *** Selection by size *)

Lemma wf_files_setdefault (fs : OD.t WinFile.t) (w : WinFile.t) :
  wf_files fs -> wf_files (OD.setdefault fs (WinFile.abspath w) w).
Proof.
  intros [Hnd Hk]. split; [now apply NoDup_setdefault |].
  intros k w' H. apply In_setdefault in H. destruct H as [H | H].
  - now apply Hk.
  - now injection H as -> ->.
Qed.

Lemma wf_files_nil : wf_files [].
Proof. split; [constructor | intros k w []]. Qed.

Section BySize.
Variables (cs : WinFile.ClassState) (d : Disk) (lo hi : Z).
Hypothesis tier : WinFile.initialize cs <> WinFile.level1.

Lemma select_loop_spec (paths : list string) (fs : OD.t WinFile.t) :
  (forall raw, In raw paths -> isfile d raw = true) ->
  wf_files fs ->
  exists fs',
    select_loop cs d (size_filter lo hi) paths fs = Ok fs' /\
    wf_files fs' /\
    forall p, In p (OD.keys fs') <->
              In p (OD.keys fs) \/
              exists raw, In raw paths /\ p = abspath (getcwd d) raw
                          /\ lo <= getsize d p <= hi.
Proof.
  revert fs. induction paths as [|raw rest IH]; intros fs Hf Hwf.
  - exists fs. split; [reflexivity |]. split; [exact Hwf |].
    intros p. split; [now left | intros [H | (raw & [] & _)]; exact H].
  - cbn [select_loop]. unfold bind at 1.
    pose proof (init_total cs d raw (Hf raw (or_introl eq_refl))) as Hi.
    rewrite Hi.
    set (w := WinFile.run_initialize _ _ _) in *.
    pose proof (init_abspath _ _ _ _ Hi) as Ha.
    pose proof (init_size _ _ _ _ tier Hi) as Hs.
    unfold size_filter at 1, bind at 1. rewrite Hs.
    set (keep := (getsize d (WinFile.abspath w) >=? lo)
                 && (getsize d (WinFile.abspath w) <=? hi)).
    destruct (IH (if keep then OD.setdefault fs (WinFile.abspath w) w else fs))
      as (fs' & Hl & Hwf' & Hk).
    { intros; apply Hf; now right. }
    { destruct keep; [now apply wf_files_setdefault | exact Hwf]. }
    exists fs'. split; [exact Hl |]. split; [exact Hwf' |].
    intros p. rewrite Hk.
    assert (Hkeep : keep = true <-> lo <= getsize d (WinFile.abspath w) <= hi).
    { subst keep. rewrite andb_true_iff, Z.geb_le, Z.leb_le. lia. }
    split.
    + intros [H | (raw' & Hin & Hsel)].
      * destruct keep eqn:Ek; [| now left].
        apply In_keys_setdefault in H. destruct H as [H | ->]; [now left |].
        right. exists raw. split; [now left |]. split; [exact Ha |].
        now apply Hkeep.
      * right. exists raw'. split; [now right | exact Hsel].
    + intros [H | (raw' & [<- | Hin] & Hsel)].
      * left. destruct keep; [apply In_keys_setdefault; now left | exact H].
      * left. destruct Hsel as [-> Hb]. rewrite <- Ha in Hb |- *.
        apply Hkeep in Hb. rewrite Hb. apply In_keys_setdefault. now right.
      * right. now exists raw'.
Qed.

Lemma dirs_loop_spec (dirs : list string) (fs : OD.t WinFile.t) :
  (forall root, In root dirs -> isdir d root = true) ->
  (forall root raws raw,
      In root dirs -> yield_all_file_path d root = Ok raws -> In raw raws ->
      isfile d raw = true) ->
  wf_files fs ->
  exists fs',
    dirs_loop cs d (size_filter lo hi) dirs fs = Ok fs' /\
    wf_files fs' /\
    forall p, In p (OD.keys fs') <->
              In p (OD.keys fs) \/
              exists root raws raw,
                In root dirs /\ yield_all_file_path d root = Ok raws /\
                In raw raws /\ p = abspath (getcwd d) raw /\
                lo <= getsize d p <= hi.
Proof.
  revert fs. induction dirs as [|root rest IH]; intros fs Hd Hf Hwf.
  - exists fs. split; [reflexivity |]. split; [exact Hwf |].
    intros p. split; [now left | intros [H | (? & ? & ? & [] & _)]; exact H].
  - cbn [dirs_loop]. unfold bind at 1.
    assert (Hy : exists raws, yield_all_file_path d root = Ok raws).
    { unfold yield_all_file_path. rewrite (Hd root (or_introl eq_refl)).
      now eexists. }
    destruct Hy as (raws & Hy). rewrite Hy.
    destruct (select_loop_spec raws fs) as (fs1 & Hl1 & Hwf1 & Hk1).
    { intros raw Hin. exact (Hf root raws raw (or_introl eq_refl) Hy Hin). }
    { exact Hwf. }
    unfold bind at 1. rewrite Hl1.
    destruct (IH fs1) as (fs' & Hl & Hwf' & Hk).
    { intros; apply Hd; now right. }
    { intros r rs raw Hin. apply Hf. now right. }
    { exact Hwf1. }
    exists fs'. split; [exact Hl |]. split; [exact Hwf' |].
    intros p. rewrite Hk, Hk1. split.
    + intros [[H | (raw & Hin & Hsel)] | (r & rs & raw & Hr & Hrs & Hin & Hsel)].
      * now left.
      * right. exists root, raws, raw. repeat split; auto; try apply Hsel.
        now left.
      * right. exists r, rs, raw. repeat split; auto; try apply Hsel.
        now right.
    + intros [H | (r & rs & raw & [<- | Hr] & Hrs & Hin & Hsel)].
      * now left; left.
      * left; right. exists raw. rewrite Hy in Hrs. injection Hrs as <-.
        now split.
      * right. now exists r, rs, raw.
Qed.
End BySize.

(** C9 (as amended).  Under the regular or the slow tier, on roots that
    are directories whose listed files are regular files,
    [from_path_by_size] returns a collection whose paths are exactly the
    absolute paths of the discovered files with
    [min_size <= size <= max_size]; the bounds left out are [0] and
    [2^40]. *)
Theorem from_path_by_size_selects (set_iter : list string -> list string)
        (cs : WinFile.ClassState) (d : Disk) (arg : PathArg)
        (min_size max_size : option Z) :
  let roots := match arg with One path => [path] | Many paths => paths end in
  let lo := match min_size with Some n => n | None => 0 end in
  let hi := match max_size with Some n => n | None => 2 ^ 40 end in
  (forall l x, In x (set_iter l) <-> In x l) ->
  WinFile.initialize cs <> WinFile.level1 ->
  (forall root, In root roots -> isdir d root = true) ->
  (forall root raws raw,
      In root roots -> yield_all_file_path d root = Ok raws -> In raw raws ->
      isfile d raw = true) ->
  exists fc,
    from_path_by_size set_iter cs d arg min_size max_size = Ok fc /\
    wf_files (files fc) /\
    forall p, In p (OD.keys (files fc)) <->
              exists root raws raw,
                In root roots /\ yield_all_file_path d root = Ok raws /\
                In raw raws /\
                p = abspath (getcwd d) raw /\ lo <= getsize d p <= hi.
Proof.
  intros roots lo hi Hset Htier Hd Hf.
  unfold from_path_by_size, from_path_by_criterion.
  set (dirs := _preprocess set_iter (Many (_preprocess set_iter arg))).
  assert (Hdirs : forall x, In x dirs <-> In x roots).
  { intros x. subst dirs roots. destruct arg; cbn [_preprocess].
    - apply Hset.
    - now rewrite !Hset. }
  destruct (dirs_loop_spec cs d lo hi Htier dirs []) as (fs & Hl & Hwf & Hk).
  { intros root Hr. apply Hd. now apply Hdirs. }
  { intros root raws raw Hr. apply Hf. now apply Hdirs. }
  { apply wf_files_nil. }
  exists {| files := fs; order := None |}.
  split.
  { unfold bind.
    replace (match min_size with Some n => n | None => default_min_size end)
      with lo by reflexivity.
    replace (match max_size with Some n => n | None => default_max_size end)
      with hi by reflexivity.
    now rewrite Hl. }
  split; [exact Hwf |].
  intros p. cbn [files]. rewrite Hk. split.
  - intros [[] | (root & raws & raw & Hr & Hy & Hin & Hsel)].
    exists root, raws, raw. repeat split; auto; try apply Hsel.
    now apply Hdirs.
  - intros (root & raws & raw & Hr & Hy & Hin & Hp & Hb).
    right. exists root, raws, raw. repeat split; auto; try apply Hb.
    now apply Hdirs.
Qed.

Lemma from_path_by_size_selects_witness :
  exists fc,
    from_path_by_size Demo.set_iter WinFile.class_body Demo.disk (One "/data")
                      None None = Ok fc /\
    wf_files (files fc) /\
    forall p, In p (OD.keys (files fc)) <->
              exists root raws raw,
                In root ["/data"] /\
                yield_all_file_path Demo.disk root = Ok raws /\
                In raw raws /\
                p = abspath (getcwd Demo.disk) raw /\
                0 <= getsize Demo.disk p <= 2 ^ 40.
Proof.
  apply (from_path_by_size_selects Demo.set_iter WinFile.class_body Demo.disk
                                   (One "/data") None None).
  - intros l x. apply nodup_In.
  - discriminate.
  - intros root [<- | []]. reflexivity.
  - intros root raws raw [<- | []] H. injection H as <-.
    intros [<- | [<- | [<- | [<- | []]]]]; reflexivity.
Defined.

(** C9 fails as stated: the bound left out is [2^40], not [2^40 - 1], and
    under the default bounds the file of exactly [2^40] bytes is
    selected (the one of [2^40 + 1] bytes is not). *)
Lemma from_path_by_size_counterexample :
  default_max_size = 2 ^ 40 /\
  getsize Demo.disk "/data/x.tar.gz" = 2 ^ 40 /\
  getsize Demo.disk "/data/x.3gp" = 2 ^ 40 + 1 /\
  exists fc,
    from_path_by_size Demo.set_iter WinFile.class_body Demo.disk (One "/data")
                      None None = Ok fc /\
    OD.keys (files fc) = ["/data/A.TXT"; "/data/x.tar.gz"; "/data/sub/b.py"].
Proof.
  repeat split. eexists. split; reflexivity.
Qed.

(** *** Union and difference *)

Lemma iterfiles_try_values (fs : OD.t WinFile.t) (o : list string) (w : WinFile.t) :
  In w (iterfiles_try fs o) -> In w (OD.values fs).
Proof.
  induction o as [|q o IH]; cbn [iterfiles_try]; [intros [] |].
  destruct (OD.get fs q) as [w0|] eqn:E; [| trivial].
  intros [<- | H]; [| now apply IH].
  apply get_In in E. apply (in_map snd) in E. exact E.
Qed.

(** Whatever the order, [iterfiles] yields entities of the collection. *)
Lemma iterfiles_values (self : t) (w : WinFile.t) :
  In w (iterfiles self) -> In w (OD.values (files self)).
Proof.
  unfold iterfiles. destruct (order self); [apply iterfiles_try_values | trivial].
Qed.

Lemma In_keys_setdefault_all (fs : OD.t WinFile.t) (ws : list WinFile.t) (p : string) :
  In p (OD.keys (setdefault_all fs ws)) <->
  In p (OD.keys fs) \/ In p (map WinFile.abspath ws).
Proof.
  unfold setdefault_all. revert fs.
  induction ws as [|w ws IH]; intros fs; cbn [fold_left map].
  - simpl. tauto.
  - rewrite IH, In_keys_setdefault. simpl. intuition (subst; auto).
Qed.

Lemma NoDup_setdefault_all (fs : OD.t WinFile.t) (ws : list WinFile.t) :
  NoDup (OD.keys fs) -> NoDup (OD.keys (setdefault_all fs ws)).
Proof.
  unfold setdefault_all. revert fs.
  induction ws as [|w ws IH]; intros fs H; cbn [fold_left]; [exact H |].
  apply IH. now apply NoDup_setdefault.
Qed.

Lemma In_setdefault_all_old (fs : OD.t WinFile.t) (ws : list WinFile.t)
      (p : string) (w : WinFile.t) :
  In (p, w) fs -> In (p, w) (setdefault_all fs ws).
Proof.
  unfold setdefault_all. revert fs.
  induction ws as [|w0 ws IH]; intros fs H; cbn [fold_left]; [exact H |].
  apply IH. now apply In_setdefault_old.
Qed.

Lemma wf_files_setdefault_all (fs : OD.t WinFile.t) (ws : list WinFile.t) :
  wf_files fs -> wf_files (setdefault_all fs ws).
Proof.
  unfold setdefault_all. revert fs.
  induction ws as [|w ws IH]; intros fs H; cbn [fold_left]; [exact H |].
  apply IH. now apply wf_files_setdefault.
Qed.

Lemma del_step (fs : OD.t WinFile.t) (k : string) :
  match OD.del fs k with Some fs' => fs' | None => fs end = OD.remove fs k.
Proof.
  unfold OD.del. destruct (OD.contains fs k) eqn:E; [reflexivity |].
  apply contains_false in E. symmetry. now apply remove_not_in.
Qed.

Lemma del_all_spec (fs : OD.t WinFile.t) (ps : list string) :
  NoDup (OD.keys fs) ->
  NoDup (OD.keys (del_all fs ps)) /\
  (forall p, In p (OD.keys (del_all fs ps)) <-> In p (OD.keys fs) /\ ~ In p ps) /\
  (forall p w, In (p, w) (del_all fs ps) -> In (p, w) fs).
Proof.
  unfold del_all. revert fs.
  induction ps as [|k ps IH]; intros fs Hnd; cbn [fold_left].
  - split; [exact Hnd |]. split; [simpl; tauto | trivial].
  - rewrite del_step.
    destruct (IH (OD.remove fs k) (NoDup_remove _ _ Hnd)) as (H1 & H2 & H3).
    split; [exact H1 |]. split.
    + intros p. rewrite H2, (In_keys_remove _ _ _ Hnd). simpl.
      split; [intros [[Ha Hb] Hc]; split; [exact Ha | intros [<- | H]; tauto]
             | intros [Ha Hb]; repeat split; auto; intros ->; tauto].
    + intros p w H. apply H3 in H. now apply In_remove in H.
Qed.

Lemma yielded_abspaths (fs : OD.t WinFile.t) (o : list string)
      (ws : list WinFile.t) :
  (forall k w, In (k, w) fs -> WinFile.abspath w = k) ->
  Forall2 (fun q w => OD.get fs q = Some w) o ws ->
  map WinFile.abspath ws = o.
Proof.
  intros Hk HF. induction HF as [|q w o ws Hq _ IH]; [reflexivity |].
  simpl. f_equal; [| exact IH]. apply Hk. now apply get_In.
Qed.

(** The length of a union is bounded by the sum of the lengths, whatever
    the order of the right collection. *)
Lemma add_length (self other_fc : t) :
  NoDup (OD.keys (files self)) ->
  __len__ (__add__ self other_fc) <= __len__ self + __len__ other_fc.
Proof.
  intros Hnd. unfold __len__, __add__. cbn [files].
  pose proof (NoDup_setdefault_all (files self) (iterfiles other_fc) Hnd) as Hnd'.
  assert (Hincl : incl (OD.keys (setdefault_all (files self) (iterfiles other_fc)))
                       (OD.keys (files self)
                        ++ map WinFile.abspath (OD.values (files other_fc)))).
  { intros p Hp. apply In_keys_setdefault_all in Hp. apply in_or_app.
    destruct Hp as [Hp | Hp]; [now left | right].
    apply in_map_iff in Hp. destruct Hp as (w & <- & Hw).
    apply in_map. now apply iterfiles_values. }
  pose proof (NoDup_incl_length Hnd' Hincl) as Hlen.
  unfold OD.keys, OD.values in Hlen.
  rewrite length_app, !length_map in Hlen. lia.
Qed.

(** For collections kept as the methods keep them, when the right one has
    no explicit order, or one that lists exactly its current paths:
    every path of the right collection is in the union, an entity of the
    left collection stays, and the difference of the union and the right
    collection has exactly the paths of the left one that are not in the
    right one, each once. *)
Lemma add_sub_fresh_order (self other_fc : t) :
  wf_files (files self) -> wf_files (files other_fc) ->
  match order other_fc with
  | None => True
  | Some o => forall p, In p o <-> In p (OD.keys (files other_fc))
  end ->
  (forall p, In p (OD.keys (files other_fc)) ->
             In p (OD.keys (files (__add__ self other_fc)))) /\
  (forall p w, OD.get (files self) p = Some w ->
               OD.get (files (__add__ self other_fc)) p = Some w) /\
  NoDup (OD.keys (files (__sub__ (__add__ self other_fc) other_fc))) /\
  (forall p, In p (OD.keys (files (__sub__ (__add__ self other_fc) other_fc))) <->
             In p (OD.keys (files self)) /\ ~ In p (OD.keys (files other_fc))) /\
  (forall p w, In (p, w) (files (__sub__ (__add__ self other_fc) other_fc)) ->
               OD.get (files self) p = Some w).
Proof.
  intros [HndA HkA] [HndB HkB] Ho.
  assert (Hpaths : forall p, In p (iterpaths other_fc)
                             <-> In p (OD.keys (files other_fc))).
  { unfold iterpaths. destruct (order other_fc); [exact Ho | tauto]. }
  assert (Hents : forall p, In p (map WinFile.abspath (iterfiles other_fc))
                            <-> In p (OD.keys (files other_fc))).
  { intros p. unfold iterfiles. destruct (order other_fc) as [o|].
    - assert (Hall : forall q, In q o -> OD.contains (files other_fc) q = true).
      { intros q Hq. apply contains_In. now apply Ho. }
      pose proof (iterfiles_try_present _ _ Hall) as HF.
      rewrite (yielded_abspaths _ _ _ HkB HF). apply Ho.
    - unfold OD.values, OD.keys. rewrite map_map. split.
      + intros H. apply in_map_iff in H. destruct H as ([k w] & <- & H).
        simpl. rewrite (HkB _ _ H). apply (in_map fst) in H. exact H.
      + intros H. apply in_map_iff in H. destruct H as ([k w] & <- & H).
        simpl. apply in_map_iff. exists (k, w). split; [| exact H].
        simpl. now apply HkB. }
  unfold __add__, __sub__. cbn [files].
  set (u := setdefault_all (files self) (iterfiles other_fc)).
  assert (Hu : NoDup (OD.keys u)) by now apply NoDup_setdefault_all.
  destruct (del_all_spec u (iterpaths other_fc) Hu) as (Hd1 & Hd2 & Hd3).
  split; [| split; [| split; [exact Hd1 | split]]].
  - intros p Hp. apply In_keys_setdefault_all. right. now apply Hents.
  - intros p w Hg. apply In_get; [exact Hu |].
    apply In_setdefault_all_old. now apply get_In.
  - intros p. rewrite Hd2, Hpaths. subst u. rewrite In_keys_setdefault_all, Hents.
    tauto.
  - intros p w Hin. pose proof (Hd3 _ _ Hin) as Hin'.
    assert (Hp : In p (OD.keys (del_all u (iterpaths other_fc)))).
    { apply (in_map fst) in Hin. exact Hin. }
    apply Hd2 in Hp. destruct Hp as [Hp Hnp]. rewrite Hpaths in Hnp.
    subst u. apply In_keys_setdefault_all in Hp. rewrite Hents in Hp.
    destruct Hp as [Hp | Hp]; [| contradiction].
    apply in_map_iff in Hp. destruct Hp as ([k w'] & Hk & Hin'').
    simpl in Hk. subst k.
    pose proof (In_setdefault_all_old _ (iterfiles other_fc) _ _ Hin'') as H1.
    pose proof (In_get _ _ _ Hu H1) as G1.
    pose proof (In_get _ _ _ Hu Hin') as G2.
    rewrite G1 in G2. injection G2 as ->. now apply In_get.
Qed.

(** A path of the right collection that its order does not list, and that
    the left collection does not hold, is missing from the union. *)
Lemma add_misses_unlisted (self other_fc : t) (o : list string) (p : string) :
  wf_files (files other_fc) ->
  order other_fc = Some o ->
  (forall q, In q o -> OD.contains (files other_fc) q = true) ->
  ~ In p o -> ~ In p (OD.keys (files self)) ->
  ~ In p (OD.keys (files (__add__ self other_fc))).
Proof.
  intros [_ Hk] Ho Hall Hp Hs H. unfold __add__ in H. cbn [files] in H.
  apply In_keys_setdefault_all in H. destruct H as [H | H]; [contradiction |].
  unfold iterfiles in H. rewrite Ho in H.
  rewrite (yielded_abspaths _ _ _ Hk (iterfiles_try_present _ _ Hall)) in H.
  contradiction.
Qed.

(** C2, at a failing input.  [b] holds [/data/sub/b.py], is sorted, and
    then gets [/data/A.TXT] added: its order does not name the added
    path.  The union of the empty collection and [b] lacks
    [/data/A.TXT], a path of [b]; and with [a] holding [/data/A.TXT],
    [(a + b) - b] keeps [/data/A.TXT], a path of [b]. *)
Theorem union_after_add :
  exists a b,
    Demo.only_A = Ok a /\ Demo.sorted_then_added = Ok b /\
    OD.keys (files a) = ["/data/A.TXT"] /\
    OD.keys (files b) = ["/data/sub/b.py"; "/data/A.TXT"] /\
    order b = Some ["/data/sub/b.py"] /\
    OD.keys (files (__add__ empty b)) = ["/data/sub/b.py"] /\
    __contains__ Demo.disk b (ItemPath "/data/A.TXT") = Ok true /\
    __contains__ Demo.disk (__add__ empty b) (ItemPath "/data/A.TXT") = Ok false /\
    OD.keys (files (__sub__ (__add__ a b) b)) = ["/data/A.TXT"].
Proof.
  do 2 eexists. repeat split.
Qed.

(** Under the fast tier [size_on_disk] is not set, and the size filter
    raises at the first file the walk finds. *)
Example from_path_by_size_fast_tier :
  from_path_by_size Demo.set_iter (WinFile.use_fast_init WinFile.class_body)
                    Demo.disk (One "/data") None None
  = Raise AttributeError.
Proof. reflexivity. Qed.

End FileCollectionFacts.

(** ** More on file entities *)

Module WinFileMore.
Import PyStr PyStrFacts PosixPath PosixPathFacts WinFileFacts.

Lemma normpath_nonempty (path : string) : normpath path <> "".
Proof.
  unfold normpath. destruct (path =? "")%string; [discriminate |].
  match goal with
  | |- (if ?c then _ else _) <> _ => destruct c eqn:E
  end; [discriminate |].
  now apply String.eqb_neq in E.
Qed.

Lemma abspath_nonempty (cwd path : string) : abspath cwd path <> "".
Proof. apply normpath_nonempty. Qed.

Lemma or_else_falsy (o : option string) (dflt : string) :
  WinFile.truthy o = false -> WinFile.or_else o dflt = dflt.
Proof.
  destruct o as [s|]; simpl; [| reflexivity].
  destruct (s =? "")%string; [reflexivity | discriminate].
Qed.

(** What [__init__] leaves in the path slots of an entity. *)
Lemma init_joined (cs : WinFile.ClassState) (d : Disk) (path : string)
      (w : WinFile.t) :
  WinFile.__init__ cs d path = Ok w ->
  WinFile.abspath w = join (WinFile.dirname w) (WinFile.basename w).
Proof.
  intros H. apply init_inv in H. destruct H as [_ ->].
  destruct (run_initialize_paths cs d (WinFile.fresh (abspath (getcwd d) path)))
    as (Ha & Hd & Hb & _).
  cbn [WinFile.abspath WinFile.fresh] in Ha, Hd, Hb.
  rewrite Ha, Hd, Hb. symmetry. apply join_split_abspath.
Qed.

Lemma update_falsy (w : WinFile.t) (a b c : option string) :
  WinFile.truthy a = false -> WinFile.truthy b = false ->
  WinFile.truthy c = false ->
  WinFile.update w a b c = WinFile.update w None None None.
Proof.
  intros Ha Hb Hc. unfold WinFile.update.
  now rewrite !or_else_falsy by (assumption || reflexivity).
Qed.

(** X1.  [update()] without a new directory, name or extension leaves a
    constructed entity as it is exactly when its [basename] is
    [fname + ext], that is when the extension on disk has no upper-case
    letter; in any case the only slots it can change are [basename] and
    [abspath]: the directory, the name, the extension, the three times,
    the size and the hash are left as they are. *)
Theorem update_nothing (cs : WinFile.ClassState) (d : Disk) (path : string)
        (w : WinFile.t) (a b c : option string) :
  WinFile.__init__ cs d path = Ok w ->
  WinFile.truthy a = false -> WinFile.truthy b = false ->
  WinFile.truthy c = false ->
  (WinFile.update w a b c = w
   <-> WinFile.basename w = WinFile.fname w ++ WinFile.ext w) /\
  WinFile.update w a b c
  = {| WinFile.abspath := join (WinFile.dirname w)
                               (WinFile.fname w ++ WinFile.ext w);
       WinFile.dirname := WinFile.dirname w;
       WinFile.basename := WinFile.fname w ++ WinFile.ext w;
       WinFile.fname := WinFile.fname w;
       WinFile.ext := WinFile.ext w;
       WinFile.atime := WinFile.atime w;
       WinFile.ctime := WinFile.ctime w;
       WinFile.mtime := WinFile.mtime w;
       WinFile.size_on_disk := WinFile.size_on_disk w;
       WinFile.md5 := WinFile.md5 w |}.
Proof.
  intros Hi Ha Hb Hc. rewrite (update_falsy w a b c Ha Hb Hc).
  pose proof (init_joined _ _ _ _ Hi) as Hj.
  split; [| reflexivity].
  split.
  - intros E. apply (f_equal WinFile.basename) in E. now symmetry.
  - intros E. unfold WinFile.update. cbn [WinFile.or_else].
    rewrite <- E, <- Hj. now destruct w.
Qed.

Lemma update_nothing_witness :
  (WinFile.update Demo.winfile_A None (Some "") None = Demo.winfile_A
   <-> WinFile.basename Demo.winfile_A
       = WinFile.fname Demo.winfile_A ++ WinFile.ext Demo.winfile_A) /\
  WinFile.update Demo.winfile_A None (Some "") None
  = {| WinFile.abspath := join (WinFile.dirname Demo.winfile_A)
                               (WinFile.fname Demo.winfile_A
                                ++ WinFile.ext Demo.winfile_A);
       WinFile.dirname := WinFile.dirname Demo.winfile_A;
       WinFile.basename := WinFile.fname Demo.winfile_A
                           ++ WinFile.ext Demo.winfile_A;
       WinFile.fname := WinFile.fname Demo.winfile_A;
       WinFile.ext := WinFile.ext Demo.winfile_A;
       WinFile.atime := WinFile.atime Demo.winfile_A;
       WinFile.ctime := WinFile.ctime Demo.winfile_A;
       WinFile.mtime := WinFile.mtime Demo.winfile_A;
       WinFile.size_on_disk := WinFile.size_on_disk Demo.winfile_A;
       WinFile.md5 := WinFile.md5 Demo.winfile_A |}.
Proof.
  apply (update_nothing WinFile.class_body Demo.disk "/data/A.TXT" Demo.winfile_A
                        None (Some "") None); reflexivity.
Defined.

(** On [/data/A.TXT] an [update()] with no argument does change the
    entity: it then names [/data/A.txt]. *)
Example update_nothing_upper_case :
  WinFile.abspath (WinFile.update Demo.winfile_A None None None) = "/data/A.txt".
Proof. reflexivity. Qed.

(** X2.  When [rename] returns, the entity is what [update] makes of it
    with the same new name and extension and with the new directory in
    absolute form. *)
Theorem rename_is_update
        (os_rename : Disk -> string -> string -> Result Disk)
        (d d' : Disk) (self self' : WinFile.t)
        (new_dirname new_fname new_ext : option string) :
  WinFile.rename os_rename d self new_dirname new_fname new_ext
  = (d', self', Ok tt) ->
  self' = WinFile.update self
            (match new_dirname with
             | Some s => if (s =? "")%string then None
                         else Some (abspath (getcwd d) s)
             | None => None
             end)
            new_fname new_ext.
Proof.
  unfold WinFile.rename, WinFile.update.
  assert (Hd : WinFile.or_else
                 (match new_dirname with
                  | Some s => if (s =? "")%string then None
                              else Some (abspath (getcwd d) s)
                  | None => None
                  end) (WinFile.dirname self)
               = match new_dirname with
                 | Some s => if (s =? "")%string then WinFile.dirname self
                             else abspath (getcwd d) s
                 | None => WinFile.dirname self
                 end).
  { destruct new_dirname as [s|]; [| reflexivity].
    destruct (s =? "")%string; [reflexivity |]. cbn [WinFile.or_else].
    pose proof (abspath_nonempty (getcwd d) s) as Hn.
    apply String.eqb_neq in Hn. now rewrite Hn. }
  rewrite Hd. clear Hd.
  destruct new_ext as [s|]; cbn [WinFile.or_else].
  - destruct (s =? "")%string.
    + destruct (os_rename _ _ _); intros H; [| discriminate].
      now injection H as _ <-.
    + destruct (startswith s "."); [| discriminate].
      destruct (os_rename _ _ _); intros H; [| discriminate].
      now injection H as _ <-.
  - destruct (os_rename _ _ _); intros H; [| discriminate].
    now injection H as _ <-.
Qed.

Lemma rename_is_update_witness :
  snd (fst (WinFile.rename Demo.os_rename Demo.disk Demo.winfile_A
                           (Some "/data/sub") None (Some ".md")))
  = WinFile.update Demo.winfile_A (Some "/data/sub") None (Some ".md").
Proof.
  apply (rename_is_update Demo.os_rename Demo.disk
           (fst (fst (WinFile.rename Demo.os_rename Demo.disk Demo.winfile_A
                                     (Some "/data/sub") None (Some ".md"))))
           Demo.winfile_A _ (Some "/data/sub") None (Some ".md")).
  reflexivity.
Defined.

(** X3.  [rename()] without a new directory, name or extension, on a
    constructed entity whose [basename] is [fname + ext], asks [os.rename]
    to rename the file onto itself, and leaves the entity as it is
    whatever [os.rename] answers. *)
Theorem rename_nothing
        (os_rename : Disk -> string -> string -> Result Disk)
        (cs : WinFile.ClassState) (d : Disk) (path : string) (w : WinFile.t)
        (a b c : option string) :
  WinFile.__init__ cs d path = Ok w ->
  WinFile.basename w = WinFile.fname w ++ WinFile.ext w ->
  WinFile.truthy a = false -> WinFile.truthy b = false ->
  WinFile.truthy c = false ->
  WinFile.rename os_rename d w a b c
  = match os_rename d (WinFile.abspath w) (WinFile.abspath w) with
    | Ok d' => (d', w, Ok tt)
    | Raise e => (d, w, Raise e)
    end.
Proof.
  intros Hi Hbn Ha Hb Hc. pose proof (init_joined _ _ _ _ Hi) as Hj.
  unfold WinFile.rename.
  rewrite (or_else_falsy b _ Hb).
  assert (Ea : match a with
               | Some s => if (s =? "")%string then WinFile.dirname w
                           else abspath (getcwd d) s
               | None => WinFile.dirname w
               end = WinFile.dirname w).
  { destruct a as [s|]; [| reflexivity]. simpl in Ha.
    destruct (s =? "")%string; [reflexivity | discriminate]. }
  rewrite Ea.
  assert (Ec : match c with
               | Some s => if (s =? "")%string then Ok (WinFile.ext w)
                           else if startswith s "." then Ok s
                                else Raise ValueError
               | None => Ok (WinFile.ext w)
               end = Ok (WinFile.ext w)).
  { destruct c as [s|]; [| reflexivity]. simpl in Hc.
    destruct (s =? "")%string; [reflexivity | discriminate]. }
  rewrite Ec, <- Hbn, <- Hj.
  destruct (os_rename d (WinFile.abspath w) (WinFile.abspath w)); [| reflexivity].
  now destruct w.
Qed.

Lemma rename_nothing_witness :
  exists w,
    WinFile.__init__ WinFile.class_body Demo.disk "/data/sub/b.py" = Ok w /\
    WinFile.rename Demo.os_rename Demo.disk w None None None
    = match Demo.os_rename Demo.disk (WinFile.abspath w) (WinFile.abspath w) with
      | Ok d' => (d', w, Ok tt)
      | Raise e => (Demo.disk, w, Raise e)
      end.
Proof.
  eexists. split; [reflexivity |].
  apply (rename_nothing Demo.os_rename WinFile.class_body Demo.disk
                        "/data/sub/b.py"); reflexivity.
Defined.

(** X4.  Which slots a constructed entity has: the size and the three
    times unless the class is on the fast tier, the hash only on the slow
    tier; a slot that is set holds what the disk answers for the entity's
    absolute path. *)
Theorem init_slots (cs : WinFile.ClassState) (d : Disk) (path : string)
        (w : WinFile.t) :
  WinFile.__init__ cs d path = Ok w ->
  let p := abspath (getcwd d) path in
  (if match WinFile.initialize cs with WinFile.level1 => true | _ => false end
   then WinFile.size_on_disk w = None /\ WinFile.atime w = None /\
        WinFile.ctime w = None /\ WinFile.mtime w = None
   else WinFile.size_on_disk w = Some (getsize d p) /\
        WinFile.atime w = Some (getatime d p) /\
        WinFile.ctime w = Some (getctime d p) /\
        WinFile.mtime w = Some (getmtime d p)) /\
  (if match WinFile.initialize cs with WinFile.level3 => true | _ => false end
   then WinFile.md5 w = Some (md5file d p)
   else WinFile.md5 w = None).
Proof.
  intros H p. apply init_inv in H. destruct H as [_ ->].
  unfold WinFile.run_initialize, WinFile.level1_initialize,
    WinFile.level2_initialize, WinFile.level3_initialize.
  cbn [WinFile.abspath WinFile.fresh].
  destruct (split _) as [dn bn]. destruct (splitext bn) as [fn e].
  destruct (WinFile.initialize cs); cbn; repeat split.
Qed.

Lemma init_slots_witness :
  let p := abspath (getcwd Demo.disk) "/data/A.TXT" in
  (if match WinFile.initialize WinFile.class_body with
      | WinFile.level1 => true | _ => false end
   then WinFile.size_on_disk Demo.winfile_A = None /\
        WinFile.atime Demo.winfile_A = None /\
        WinFile.ctime Demo.winfile_A = None /\ WinFile.mtime Demo.winfile_A = None
   else WinFile.size_on_disk Demo.winfile_A = Some (getsize Demo.disk p) /\
        WinFile.atime Demo.winfile_A = Some (getatime Demo.disk p) /\
        WinFile.ctime Demo.winfile_A = Some (getctime Demo.disk p) /\
        WinFile.mtime Demo.winfile_A = Some (getmtime Demo.disk p)) /\
  (if match WinFile.initialize WinFile.class_body with
      | WinFile.level3 => true | _ => false end
   then WinFile.md5 Demo.winfile_A = Some (md5file Demo.disk p)
   else WinFile.md5 Demo.winfile_A = None).
Proof.
  apply (init_slots WinFile.class_body Demo.disk "/data/A.TXT" Demo.winfile_A).
  reflexivity.
Defined.

End WinFileMore.

(** ** More on size formatting *)

Module MethMore.
Import PyStr Meth MethFacts.

(** X5.  What [repr_data_size] raises.  A size under 1024, negative ones
    included, gets its string whatever the precision, which is not
    looked at.  From [1024^9] on the call raises [IndexError], again
    whatever the precision.  In between it raises [ValueError] exactly
    when the precision is negative or above [INT_MAX], and returns a
    string otherwise.  Nothing else is raised. *)
Theorem repr_data_size_raises (n precision : Z) :
  (if n <? 1024 then repr_data_size n precision = Ok (of_Z n ++ " B")
   else if 1024 ^ 9 <=? n then repr_data_size n precision = Raise IndexError
   else if (precision <? 0) || (2 ^ 31 <=? precision)
        then repr_data_size n precision = Raise ValueError
        else exists s, repr_data_size n precision = Ok s) /\
  (repr_data_size n precision = Raise IndexError <-> 1024 ^ 9 <= n) /\
  (repr_data_size n precision = Raise ValueError
   <-> 1024 <= n < 1024 ^ 9 /\ (precision < 0 \/ 2 ^ 31 <= precision)) /\
  (forall e, repr_data_size n precision = Raise e ->
             e = IndexError \/ e = ValueError).
Proof.
  assert (H9 : 1024 < 1024 ^ 9) by reflexivity.
  assert (H31 : INT_MAX = 2 ^ 31 - 1) by reflexivity.
  unfold repr_data_size. destruct (n <? 1024) eqn:E.
  - apply Z.ltb_lt in E.
    split; [reflexivity |].
    split; [split; [discriminate | lia] |].
    split; [split; [discriminate | lia] | discriminate].
  - apply Z.ltb_ge in E.
    destruct (loop_spec (loop_fuel n) 0 n E (loop_fuel_enough n E))
      as (k & Hk & [Hlo Hhi] & ->).
    change (0 + k) with k.
    destruct (nth_error magnitude_of_data (Z.to_nat k)) as [unit|] eqn:En.
    + assert (Hk8 : k <= 8).
      { assert (Hlt : (Z.to_nat k < List.length magnitude_of_data)%nat).
        { apply nth_error_Some. now rewrite En. }
        simpl in Hlt. lia. }
      assert (Hn : n < 1024 ^ 9).
      { assert (1024 ^ (k + 1) <= 1024 ^ 9) by (apply Z.pow_le_mono_r; lia). lia. }
      assert (E9 : (1024 ^ 9 <=? n) = false) by now apply Z.leb_gt.
      rewrite E9. unfold format_f, bind.
      destruct (0 <=? precision) eqn:E0; destruct (precision <=? INT_MAX) eqn:E1;
        cbn [andb];
        try apply Z.leb_le in E0; try apply Z.leb_gt in E0;
        try apply Z.leb_le in E1; try apply Z.leb_gt in E1.
      * assert (Ep : (precision <? 0) || (2 ^ 31 <=? precision) = false).
        { apply orb_false_iff. split; [apply Z.ltb_ge | apply Z.leb_gt]; lia. }
        rewrite Ep. split; [now eexists |].
        split; [split; [discriminate | lia] |].
        split; [split; [discriminate | lia] | discriminate].
      * assert (Ep : (precision <? 0) || (2 ^ 31 <=? precision) = true).
        { apply orb_true_iff. right. apply Z.leb_le. lia. }
        rewrite Ep. split; [reflexivity |].
        split; [split; [discriminate | lia] |].
        split; [split; [intros _; lia | reflexivity] |].
        intros e He. injection He as <-. now right.
      * assert (Ep : (precision <? 0) || (2 ^ 31 <=? precision) = true).
        { apply orb_true_iff. left. apply Z.ltb_lt. lia. }
        rewrite Ep. split; [reflexivity |].
        split; [split; [discriminate | lia] |].
        split; [split; [intros _; lia | reflexivity] |].
        intros e He. injection He as <-. now right.
      * lia.
    + assert (Hk9 : 9 <= k).
      { apply nth_error_None in En. simpl in En. lia. }
      assert (Hn : 1024 ^ 9 <= n).
      { assert (1024 ^ 9 <= 1024 ^ k) by (apply Z.pow_le_mono_r; lia). lia. }
      assert (E9 : (1024 ^ 9 <=? n) = true) by now apply Z.leb_le.
      rewrite E9. split; [reflexivity |].
      split; [split; [intros _; exact Hn | reflexivity] |].
      split; [split; [discriminate | lia] |].
      intros e He. injection He as <-. now left.
Qed.

End MethMore.

(** ** Directories *)

Module WinDirFacts.
Import PyStr PosixPath PosixPathFacts.

Lemma folder_size_from (d : Disk) (dir : string) (fnames : list string) (acc : Z) :
  fold_left (fun acc fname => acc + getsize d (join dir fname)) fnames acc
  = acc + WinDir.folder_size d dir fnames.
Proof.
  unfold WinDir.folder_size. revert acc.
  induction fnames as [|f fs IH]; intros acc; simpl; [lia |].
  rewrite IH, (IH (getsize d (join dir f))). lia.
Qed.

Lemma folder_size_nonneg (d : Disk) (dir : string) (fnames : list string) :
  (forall f, In f fnames -> 0 <= getsize d (join dir f)) ->
  0 <= WinDir.folder_size d dir fnames.
Proof.
  induction fnames as [|f fs IH]; intros H; [unfold WinDir.folder_size; simpl; lia |].
  unfold WinDir.folder_size. simpl. rewrite folder_size_from.
  specialize (H f (or_introl eq_refl)) as Hf.
  assert (0 <= WinDir.folder_size d dir fs) by (apply IH; intros; apply H; now right).
  lia.
Qed.

(** The totals grow along the walk. *)
Lemma totals_from (d : Disk) (triples : list (string * list string * list string))
      (s0 n0 m0 : Z) :
  (forall dir folders fnames f,
      In (dir, folders, fnames) triples -> In f fnames ->
      0 <= getsize d (join dir f)) ->
  let '(s, n, m) :=
    fold_left (fun '(size, folders, files) '(current_dir, folderlist, fnamelist) =>
                 (size + WinDir.folder_size d current_dir fnamelist,
                  folders + WinDir.len folderlist,
                  files + WinDir.len fnamelist))
              triples (s0, n0, m0) in
  s0 <= s /\ n0 <= n /\ m0 <= m.
Proof.
  revert s0 n0 m0. induction triples as [|[[dir folders] fnames] rest IH];
    intros s0 n0 m0 H; simpl; [lia |].
  specialize (IH (s0 + WinDir.folder_size d dir fnames)
                 (n0 + WinDir.len folders) (m0 + WinDir.len fnames)).
  destruct (fold_left _ rest _) as [[s n] m].
  assert (0 <= WinDir.folder_size d dir fnames).
  { apply folder_size_nonneg. intros f Hf.
    apply (H dir folders fnames f); [now left | exact Hf]. }
  unfold WinDir.len in *.
  destruct IH as (H1 & H2 & H3); [| lia].
  intros; eapply H; [right |]; eassumption.
Qed.

(** X6.  In a [WinDir] that has been constructed, every total is at least
    the figure of the top level: bytes (when no file has a negative size),
    sub-folders and files; and the figures of the top level are those of
    the first folder the walk visits. *)
Theorem totals_at_least_current (oswalk : WinDir.Walk) (d : Disk) (path : string)
        (w : WinDir.t) :
  WinDir.__init__ oswalk d path = inl w ->
  (forall dir folders fnames f,
      In (dir, folders, fnames) (oswalk (abspath (getcwd d) path)) ->
      In f fnames -> 0 <= getsize d (join dir f)) ->
  WinDir.size_current w <= WinDir.size_total w /\
  0 <= WinDir.num_folder_current w <= WinDir.num_folder_total w /\
  0 <= WinDir.num_file_current w <= WinDir.num_file_total w /\
  exists dir folders fnames rest,
    oswalk (WinDir.abspath w) = (dir, folders, fnames) :: rest /\
    WinDir.num_folder_current w = WinDir.len folders /\
    WinDir.num_file_current w = WinDir.len fnames /\
    WinDir.size_current w = WinDir.folder_size d dir fnames.
Proof.
  unfold WinDir.__init__. destruct (isdir d path); [| discriminate].
  set (p := abspath (getcwd d) path). destruct (split p) as [dn bn].
  unfold WinDir.get_detail, WinDir.totals. intros H Hsize.
  destruct (oswalk p) as [|[[dir folders] fnames] rest] eqn:Ew.
  { destruct (fold_left _ _ _) as [[? ?] ?]. discriminate. }
  pose proof (totals_from d rest (0 + WinDir.folder_size d dir fnames)
                (0 + WinDir.len folders) (0 + WinDir.len fnames)) as Ht.
  cbn [fold_left] in H.
  destruct (fold_left _ rest _) as [[s n] m].
  injection H as <-. cbn.
  destruct Ht as (H1 & H2 & H3).
  { intros; eapply Hsize; [right |]; eassumption. }
  unfold WinDir.len in *.
  split; [lia |]. split; [lia |]. split; [lia |].
  exists dir, folders, fnames, rest. now rewrite Ew.
Qed.

Lemma totals_at_least_current_witness :
  exists w,
    WinDir.__init__ Demo.oswalk Demo.disk "/data" = inl w /\
    WinDir.size_current w <= WinDir.size_total w /\
    0 <= WinDir.num_folder_current w <= WinDir.num_folder_total w /\
    0 <= WinDir.num_file_current w <= WinDir.num_file_total w /\
    exists dir folders fnames rest,
      Demo.oswalk (WinDir.abspath w) = (dir, folders, fnames) :: rest /\
      WinDir.num_folder_current w = WinDir.len folders /\
      WinDir.num_file_current w = WinDir.len fnames /\
      WinDir.size_current w = WinDir.folder_size Demo.disk dir fnames.
Proof.
  eexists. split; [vm_compute; reflexivity |].
  apply (totals_at_least_current Demo.oswalk Demo.disk "/data");
    [vm_compute; reflexivity |].
  intros dir folders fnames f Hin Hf. vm_compute in Hin.
  destruct Hin as [Hin | [Hin | []]]; injection Hin as <- <- <-;
    vm_compute in Hf; repeat (destruct Hf as [<- | Hf]; [vm_compute; discriminate |]);
    destruct Hf.
Defined.

End WinDirFacts.

(** ** More on ordered dictionaries *)

Module ODMore.
Import ODFacts.
Section Dict.
Context {V : Type}.
Implicit Types (d : OD.t V) (k p : string) (v : V).

Lemma set_fresh d k v : ~ In k (OD.keys d) -> OD.set d k v = (d ++ [(k, v)])%list.
Proof.
  induction d as [|[k' v'] d IH]; simpl; [reflexivity |].
  intros H. destruct (k' =? k)%string eqn:E.
  - apply String.eqb_eq in E. tauto.
  - f_equal. apply IH. tauto.
Qed.

Lemma keys_set d k v :
  OD.keys (OD.set d k v)
  = if OD.contains d k then OD.keys d else (OD.keys d ++ [k])%list.
Proof.
  destruct (OD.contains d k) eqn:Ec.
  - apply contains_In in Ec. induction d as [|[k' v'] d IH]; simpl in *; [tauto |].
    destruct (k' =? k)%string eqn:E; simpl; [reflexivity |].
    f_equal. apply IH. apply String.eqb_neq in E. destruct Ec; congruence.
  - apply contains_false in Ec. rewrite (set_fresh _ _ _ Ec).
    unfold OD.keys. now rewrite map_app.
Qed.

Lemma In_keys_set d k v p :
  In p (OD.keys (OD.set d k v)) <-> In p (OD.keys d) \/ p = k.
Proof.
  rewrite keys_set. destruct (OD.contains d k) eqn:E.
  - apply contains_In in E. split; [tauto | intros [H | ->]; assumption].
  - rewrite in_app_iff. simpl. split; intros [H | H]; auto.
    destruct H as [-> | []]. now right.
Qed.

Lemma NoDup_set d k v : NoDup (OD.keys d) -> NoDup (OD.keys (OD.set d k v)).
Proof.
  intros H. rewrite keys_set. destruct (OD.contains d k) eqn:E; [exact H |].
  apply contains_false in E.
  apply NoDup_app; [exact H | repeat constructor; intros [] |].
  intros x Hx [<- | []]. contradiction.
Qed.

Lemma In_set d k v p w : In (p, w) (OD.set d k v) -> In (p, w) d \/ (p, w) = (k, v).
Proof.
  induction d as [|[k' v'] d IH]; simpl; [intros [H | []]; now right |].
  destruct (k' =? k)%string eqn:E; simpl.
  - apply String.eqb_eq in E. subst k'. intros [H | H]; [now right | now left; right].
  - intros [H | H]; [now left; left |]. destruct (IH H); [left; now right | now right].
Qed.

Lemma remove_last d k v :
  ~ In k (OD.keys d) -> OD.remove (d ++ [(k, v)])%list k = d.
Proof.
  induction d as [|[k' v'] d IH]; simpl; intros H.
  - now rewrite String.eqb_refl.
  - destruct (k' =? k)%string eqn:E.
    + apply String.eqb_eq in E. tauto.
    + f_equal. apply IH. tauto.
Qed.

Lemma length_remove d k :
  In k (OD.keys d) -> S (List.length (OD.remove d k)) = List.length d.
Proof.
  induction d as [|[k' v'] d IH]; simpl; [tauto |].
  intros H. destruct (k' =? k)%string eqn:E; [reflexivity |].
  simpl. f_equal. apply IH. apply String.eqb_neq in E. destruct H; congruence.
Qed.

Lemma get_remove_other d k p : p <> k -> OD.get (OD.remove d k) p = OD.get d p.
Proof.
  intros Hp. induction d as [|[k' v'] d IH]; simpl; [reflexivity |].
  destruct (k' =? k)%string eqn:E.
  - apply String.eqb_eq in E. subst k'.
    destruct (k =? p)%string eqn:E2; [| reflexivity].
    apply String.eqb_eq in E2. congruence.
  - simpl. now rewrite IH.
Qed.

Lemma get_setdefault_old d k v p w :
  OD.get d p = Some w -> OD.get (OD.setdefault d k v) p = Some w.
Proof.
  unfold OD.setdefault. destruct (OD.contains d k); [trivial |].
  induction d as [|[k' v'] d IH]; simpl; [discriminate |].
  destruct (k' =? p)%string; [trivial | exact IH].
Qed.

End Dict.
End ODMore.

(** ** More on file collections: members *)

Module CollectionMembers.
Import PyStr PosixPath ODFacts ODMore WinFileFacts FileCollection FileCollectionFacts.

Lemma resolve_abspath (cs : WinFile.ClassState) (d : Disk) (item : Item)
      (w : WinFile.t) :
  resolve cs d item = Ok w ->
  forall self, __contains__ d self item
               = Ok (OD.contains (files self) (WinFile.abspath w)).
Proof.
  destruct item as [path | w0 |]; simpl; intros H; try discriminate.
  - now rewrite (init_abspath _ _ _ _ H).
  - now injection H as ->.
Qed.

Lemma wf_files_remove (fs : OD.t WinFile.t) (k : string) :
  wf_files fs -> wf_files (OD.remove fs k).
Proof.
  intros [Hnd Hk]. split; [now apply NoDup_remove |].
  intros p w H. apply Hk. now apply In_remove in H.
Qed.

(** X7.  After an [add] that returns, the item is a member; the entities
    held before are still held, the explicit order is as before, and the
    collection is still kept as the methods keep it. *)
Theorem add_member (cs : WinFile.ClassState) (d : Disk) (self self' : t)
        (out out' : list string) (item : Item) (enable_verbose : bool) :
  add cs d self out item enable_verbose = (self', out', Ok tt) ->
  __contains__ d self' item = Ok true /\
  (forall p w, OD.get (files self) p = Some w -> OD.get (files self') p = Some w) /\
  order self' = order self /\
  (wf_files (files self) -> wf_files (files self')).
Proof.
  unfold add. destruct (resolve cs d item) as [w|e] eqn:Er; [| discriminate].
  rewrite (resolve_abspath _ _ _ _ Er).
  destruct (OD.contains (files self) (WinFile.abspath w)) eqn:E;
    intros H; injection H as <- <-.
  - rewrite E. auto.
  - cbn [files order]. split; [| split; [| split]].
    + f_equal. apply contains_In. apply In_keys_setdefault. now right.
    + intros p x. apply get_setdefault_old.
    + reflexivity.
    + apply wf_files_setdefault.
Qed.

Lemma add_member_witness :
  __contains__ Demo.disk Demo.fc_A (ItemPath "/data/A.TXT") = Ok true /\
  (forall p w, OD.get (files empty) p = Some w ->
               OD.get (files Demo.fc_A) p = Some w) /\
  order Demo.fc_A = order empty /\
  (wf_files (files empty) -> wf_files (files Demo.fc_A)).
Proof.
  apply (add_member WinFile.class_body Demo.disk empty Demo.fc_A [] []
                    (ItemPath "/data/A.TXT") true).
  reflexivity.
Defined.

(** X8.  Adding an item that is not yet a member and removing it again
    gives back the collection, and neither call reports anything. *)
Theorem add_then_remove (cs : WinFile.ClassState) (d : Disk) (self : t)
        (out : list string) (item : Item) (v v' : bool) (w : WinFile.t) :
  resolve cs d item = Ok w ->
  OD.contains (files self) (WinFile.abspath w) = false ->
  exists self1,
    add cs d self out item v = (self1, out, Ok tt) /\
    __len__ self1 = __len__ self + 1 /\
    remove cs d self1 out item v' = (self, out, Ok tt).
Proof.
  intros Hr Hc. unfold add, remove. rewrite Hr, Hc.
  eexists. split; [reflexivity |]. cbn [files order].
  unfold OD.setdefault. rewrite Hc. split.
  - unfold __len__. cbn [files]. rewrite length_app. simpl. lia.
  - unfold OD.del.
    assert (Hin : OD.contains (files self ++ [(WinFile.abspath w, w)])%list
                              (WinFile.abspath w) = true).
    { apply contains_In. unfold OD.keys. rewrite map_app.
      apply in_or_app. right. now left. }
    rewrite Hin, remove_last by now apply contains_false.
    now destruct self.
Qed.

Lemma add_then_remove_witness :
  exists self1,
    add WinFile.class_body Demo.disk empty [] (ItemPath "/data/A.TXT") true
    = (self1, [], Ok tt) /\
    __len__ self1 = __len__ empty + 1 /\
    remove WinFile.class_body Demo.disk self1 [] (ItemPath "/data/A.TXT") false
    = (empty, [], Ok tt).
Proof.
  apply (add_then_remove WinFile.class_body Demo.disk empty []
                         (ItemPath "/data/A.TXT") true false Demo.winfile_A);
    reflexivity.
Defined.

(** X9.  Adding an item twice: the second [add] finds it, leaves the
    collection of the first as it is, and reports it when
    [enable_verbose] holds. *)
Theorem add_twice (cs : WinFile.ClassState) (d : Disk) (self self1 : t)
        (out out1 out2 : list string) (item : Item) (v v' : bool)
        (w : WinFile.t) :
  resolve cs d item = Ok w ->
  add cs d self out item v = (self1, out1, Ok tt) ->
  add cs d self1 out2 item v'
  = (self1,
     if v' then (out2 ++ [("'" ++ WinFile.abspath w
                               ++ "' already in this collections")%string])%list
     else out2,
     Ok tt).
Proof.
  intros Hr Ha.
  assert (Hc : OD.contains (files self1) (WinFile.abspath w) = true).
  { unfold add in Ha. rewrite Hr in Ha.
    destruct (OD.contains (files self) (WinFile.abspath w)) eqn:E;
      injection Ha as <- <-; [exact E |].
    cbn [files]. apply contains_In. apply In_keys_setdefault. now right. }
  unfold add. rewrite Hr, Hc. unfold prt, WinFile.__str__. reflexivity.
Qed.

Lemma add_twice_witness :
  add WinFile.class_body Demo.disk Demo.fc_A [] (ItemWinFile Demo.winfile_A) true
  = (Demo.fc_A, ["'/data/A.TXT' already in this collections"], Ok tt).
Proof.
  apply (add_twice WinFile.class_body Demo.disk empty Demo.fc_A [] [] []
                   (ItemWinFile Demo.winfile_A) false true Demo.winfile_A);
    reflexivity.
Defined.

(** X10.  [remove] of a member of a collection kept as the methods keep
    it: the call returns without a report, the collection has one entity
    less, the item is no member any more, every other path keeps its
    entity, and the explicit order is left as it was, still naming the
    removed path if it did. *)
Theorem remove_member (cs : WinFile.ClassState) (d : Disk) (self : t)
        (out : list string) (item : Item) (v : bool) (w : WinFile.t) :
  wf_files (files self) ->
  resolve cs d item = Ok w ->
  OD.contains (files self) (WinFile.abspath w) = true ->
  exists self',
    remove cs d self out item v = (self', out, Ok tt) /\
    __len__ self' = __len__ self - 1 /\
    __contains__ d self' item = Ok false /\
    (forall p, p <> WinFile.abspath w ->
               OD.get (files self') p = OD.get (files self) p) /\
    order self' = order self /\
    wf_files (files self').
Proof.
  intros Hwf Hr Hc. unfold remove, OD.del. rewrite Hr, Hc.
  eexists. split; [reflexivity |]. cbn [files order].
  rewrite (resolve_abspath _ _ _ _ Hr). cbn [files].
  pose proof Hc as Hin. apply contains_In in Hin.
  split; [| split; [| split; [| split]]].
  - unfold __len__. cbn [files]. pose proof (length_remove _ _ Hin). lia.
  - f_equal. apply contains_false. intros H.
    apply (In_keys_remove _ _ _ (proj1 Hwf)) in H. tauto.
  - intros p Hp. now apply get_remove_other.
  - reflexivity.
  - now apply wf_files_remove.
Qed.

Lemma remove_member_witness :
  exists self',
    remove WinFile.class_body Demo.disk Demo.fc_A [] (ItemPath "/data/A.TXT") true
    = (self', [], Ok tt) /\
    __len__ self' = __len__ Demo.fc_A - 1 /\
    __contains__ Demo.disk self' (ItemPath "/data/A.TXT") = Ok false /\
    (forall p, p <> WinFile.abspath Demo.winfile_A ->
               OD.get (files self') p = OD.get (files Demo.fc_A) p) /\
    order self' = order Demo.fc_A /\
    wf_files (files self').
Proof.
  apply (remove_member WinFile.class_body Demo.disk Demo.fc_A []
                       (ItemPath "/data/A.TXT") true Demo.winfile_A).
  - split; [repeat constructor; intros [] |].
    intros k w [H | []]. now injection H as <- <-.
  - reflexivity.
  - reflexivity.
Defined.

End CollectionMembers.

(** ** More on file collections: selection and algebra *)

Module CollectionAlgebra.
Import PyStr PosixPath ODFacts ODMore WinFileFacts FileCollection FileCollectionFacts.

(** The two loops of [select] over entries with fresh, distinct keys. *)
Lemma select_values_both_filter (criterion : WinFile.t -> Result bool)
      (f : WinFile.t -> bool) (l : list (string * WinFile.t))
      (yes no : OD.t WinFile.t) :
  NoDup (OD.keys l) ->
  (forall k w, In (k, w) l ->
               WinFile.abspath w = k /\ criterion w = Ok (f w) /\
               ~ In k (OD.keys yes) /\ ~ In k (OD.keys no)) ->
  select_values_both criterion (OD.values l) yes no
  = Ok ((yes ++ filter (fun kw => f (snd kw)) l)%list,
        (no ++ filter (fun kw => negb (f (snd kw))) l)%list).
Proof.
  revert yes no. induction l as [|[k w] l IH]; intros yes no Hnd H.
  - simpl. now rewrite !app_nil_r.
  - inversion Hnd as [|? ? Hk Hnd']; subst.
    destruct (H k w (or_introl eq_refl)) as (Ha & Hc & Hy & Hn).
    cbn [OD.values map snd select_values_both filter]. unfold bind at 1.
    rewrite Hc, Ha. destruct (f w); cbn [negb].
    + rewrite set_fresh by exact Hy. rewrite IH; [now rewrite <- app_assoc | exact Hnd' |].
      intros k' w' Hin. destruct (H k' w' (or_intror Hin)) as (A & B & C & D).
      split; [exact A |]. split; [exact B |]. split; [| exact D].
      unfold OD.keys. rewrite map_app, in_app_iff. simpl.
      intros [X | [X | []]]; [now apply C |]. apply Hk. rewrite X.
      apply (in_map fst) in Hin. exact Hin.
    + rewrite set_fresh by exact Hn. rewrite IH; [now rewrite <- app_assoc | exact Hnd' |].
      intros k' w' Hin. destruct (H k' w' (or_intror Hin)) as (A & B & C & D).
      split; [exact A |]. split; [exact B |]. split; [exact C |].
      unfold OD.keys. rewrite map_app, in_app_iff. simpl.
      intros [X | [X | []]]; [now apply D |]. apply Hk. rewrite X.
      apply (in_map fst) in Hin. exact Hin.
Qed.

Lemma select_values_filter (criterion : WinFile.t -> Result bool)
      (f : WinFile.t -> bool) (l : list (string * WinFile.t))
      (yes : OD.t WinFile.t) :
  NoDup (OD.keys l) ->
  (forall k w, In (k, w) l ->
               WinFile.abspath w = k /\ criterion w = Ok (f w) /\
               ~ In k (OD.keys yes)) ->
  select_values criterion (OD.values l) yes
  = Ok (yes ++ filter (fun kw => f (snd kw)) l)%list.
Proof.
  revert yes. induction l as [|[k w] l IH]; intros yes Hnd H.
  - simpl. now rewrite app_nil_r.
  - inversion Hnd as [|? ? Hk Hnd']; subst.
    destruct (H k w (or_introl eq_refl)) as (Ha & Hc & Hy).
    cbn [OD.values map snd select_values filter]. unfold bind at 1.
    rewrite Hc, Ha. destruct (f w).
    + rewrite set_fresh by exact Hy. rewrite IH; [now rewrite <- app_assoc | exact Hnd' |].
      intros k' w' Hin. destruct (H k' w' (or_intror Hin)) as (A & B & C).
      split; [exact A |]. split; [exact B |].
      unfold OD.keys. rewrite map_app, in_app_iff. simpl.
      intros [X | [X | []]]; [now apply C |]. apply Hk. rewrite X.
      apply (in_map fst) in Hin. exact Hin.
    + apply IH; [exact Hnd' |].
      intros k' w' Hin. destruct (H k' w' (or_intror Hin)) as (A & B & C). auto.
Qed.

(** X11.  [select] on a collection kept as the methods keep it, with a
    criterion that answers on each of its entities: with [keepboth], the
    first collection has the entities that meet the criterion and the
    second the others, each in insertion order, so that every entity is in
    exactly one of them; without it, the result is the first of the two.
    None of them has an explicit order, whatever the order of [self]. *)
Theorem select_partition (self : t) (criterion : WinFile.t -> Result bool)
        (f : WinFile.t -> bool) :
  wf_files (files self) ->
  (forall k w, In (k, w) (files self) -> criterion w = Ok (f w)) ->
  select_keepboth self criterion
  = Ok ({| files := filter (fun kw => f (snd kw)) (files self); order := None |},
        {| files := filter (fun kw => negb (f (snd kw))) (files self);
           order := None |}) /\
  select self criterion
  = Ok {| files := filter (fun kw => f (snd kw)) (files self); order := None |}.
Proof.
  intros [Hnd Hk] Hc. unfold select_keepboth, select. split.
  - rewrite (select_values_both_filter criterion f (files self) [] [] Hnd);
      [reflexivity |].
    intros k w Hin.
    split; [now apply Hk | split; [now apply (Hc k) | split; intros []]].
  - rewrite (select_values_filter criterion f (files self) [] Hnd);
      [reflexivity |].
    intros k w Hin.
    split; [now apply Hk | split; [now apply (Hc k) | intros []]].
Qed.

Lemma select_partition_witness :
  select_keepboth Demo.fc_A (fun w => Ok (FileFilter.archive w))
  = Ok ({| files := filter (fun kw => FileFilter.archive (snd kw))
                           (files Demo.fc_A);
           order := None |},
        {| files := filter (fun kw => negb (FileFilter.archive (snd kw)))
                           (files Demo.fc_A);
           order := None |}) /\
  select Demo.fc_A (fun w => Ok (FileFilter.archive w))
  = Ok {| files := filter (fun kw => FileFilter.archive (snd kw))
                          (files Demo.fc_A);
          order := None |}.
Proof.
  apply (select_partition Demo.fc_A (fun w => Ok (FileFilter.archive w))
                          FileFilter.archive).
  - split; [repeat constructor; intros [] |].
    intros k w [H | []]. now injection H as <- <-.
  - reflexivity.
Defined.

Lemma select_values_raise (criterion : WinFile.t -> Result bool)
      (ws1 ws2 : list WinFile.t) (w : WinFile.t) (e : Exn) (acc : OD.t WinFile.t) :
  (forall w', In w' ws1 -> exists b, criterion w' = Ok b) ->
  criterion w = Raise e ->
  select_values criterion (ws1 ++ w :: ws2) acc = Raise e.
Proof.
  revert acc. induction ws1 as [|w0 ws1 IH]; intros acc Hb Hw.
  - cbn. unfold bind. now rewrite Hw.
  - destruct (Hb w0 (or_introl eq_refl)) as [b Hb0].
    cbn [app select_values]. unfold bind at 1. rewrite Hb0.
    apply IH; [| exact Hw]. intros; apply Hb; now right.
Qed.

Lemma select_values_both_raise (criterion : WinFile.t -> Result bool)
      (ws1 ws2 : list WinFile.t) (w : WinFile.t) (e : Exn)
      (yes no : OD.t WinFile.t) :
  (forall w', In w' ws1 -> exists b, criterion w' = Ok b) ->
  criterion w = Raise e ->
  select_values_both criterion (ws1 ++ w :: ws2) yes no = Raise e.
Proof.
  revert yes no. induction ws1 as [|w0 ws1 IH]; intros yes no Hb Hw.
  - cbn. unfold bind. now rewrite Hw.
  - destruct (Hb w0 (or_introl eq_refl)) as [b Hb0].
    cbn [app select_values_both]. unfold bind at 1. rewrite Hb0.
    destruct b; (apply IH; [| exact Hw]); intros; apply Hb; now right.
Qed.

(** X12.  [select] stops at the first entity on which the criterion
    raises, and raises the same. *)
Theorem select_raises (self : t) (criterion : WinFile.t -> Result bool)
        (before after : list (string * WinFile.t)) (k : string) (w : WinFile.t)
        (e : Exn) :
  files self = (before ++ (k, w) :: after)%list ->
  (forall k' w', In (k', w') before -> exists b, criterion w' = Ok b) ->
  criterion w = Raise e ->
  select self criterion = Raise e /\ select_keepboth self criterion = Raise e.
Proof.
  intros Hf Hb Hw. unfold select, select_keepboth. rewrite Hf.
  unfold OD.values. rewrite map_app. cbn [map snd].
  assert (Hb' : forall w', In w' (map snd before) ->
                           exists b, criterion w' = Ok b).
  { intros w' Hin. apply in_map_iff in Hin. destruct Hin as ([k' x] & <- & Hin).
    now apply (Hb k'). }
  rewrite (select_values_raise criterion _ _ w e),
    (select_values_both_raise criterion _ _ w e) by assumption.
  split; reflexivity.
Qed.

Lemma select_raises_witness :
  select Demo.fc_A (FileCollection.md5_filter "0cc175b9c0f1b6a831c399e269772661")
  = Raise AttributeError /\
  select_keepboth Demo.fc_A
                  (FileCollection.md5_filter "0cc175b9c0f1b6a831c399e269772661")
  = Raise AttributeError.
Proof.
  apply (select_raises Demo.fc_A
                       (FileCollection.md5_filter "0cc175b9c0f1b6a831c399e269772661")
                       [] [] "/data/A.TXT" Demo.winfile_A AttributeError).
  - reflexivity.
  - intros k' w' [].
  - reflexivity.
Defined.

(** X13.  [sum] is the fold of [+] from the empty collection. *)
Theorem sum_is_fold (list_of_fc : list t) :
  sum list_of_fc = fold_left __add__ list_of_fc empty.
Proof.
  unfold sum.
  change (@nil (string * WinFile.t)) with (files empty).
  change (@None (list string)) with (order empty).
  generalize empty.
  induction list_of_fc as [|fc l IH]; intros acc; cbn [fold_left].
  - now destruct acc.
  - rewrite <- IH. reflexivity.
Qed.




(** X15.  The union and the difference of collections keep the left
    collection as the methods keep it, whatever the right collection and
    its order are; and a difference never has a path the left collection
    did not have. *)
Theorem algebra_keeps_wf (self other_fc : t) :
  wf_files (files self) ->
  wf_files (files (__add__ self other_fc)) /\
  wf_files (files (__sub__ self other_fc)) /\
  (forall p w, In (p, w) (files (__sub__ self other_fc)) -> In (p, w) (files self)) /\
  __len__ (__sub__ self other_fc) <= __len__ self.
Proof.
  intros Hwf. unfold __add__, __sub__. cbn [files].
  split; [now apply wf_files_setdefault_all |].
  destruct (del_all_spec (files self) (iterpaths other_fc) (proj1 Hwf))
    as (H1 & H2 & H3).
  split; [split; [exact H1 | intros k w H; apply (proj2 Hwf); now apply H3] |].
  split; [exact H3 |].
  unfold __len__. cbn [files].
  assert (Hincl : incl (OD.keys (del_all (files self) (iterpaths other_fc)))
                       (OD.keys (files self))).
  { intros p Hp. now apply H2 in Hp. }
  pose proof (NoDup_incl_length H1 Hincl) as Hl.
  unfold OD.keys in Hl. rewrite !length_map in Hl. lia.
Qed.

Lemma algebra_keeps_wf_witness :
  wf_files (files (__add__ Demo.fc_A Demo.fc_A)) /\
  wf_files (files (__sub__ Demo.fc_A Demo.fc_A)) /\
  (forall p w, In (p, w) (files (__sub__ Demo.fc_A Demo.fc_A)) ->
               In (p, w) (files Demo.fc_A)) /\
  __len__ (__sub__ Demo.fc_A Demo.fc_A) <= __len__ Demo.fc_A.
Proof.
  apply (algebra_keeps_wf Demo.fc_A Demo.fc_A).
  split; [repeat constructor; intros [] |].
  intros k w [H | []]. now injection H as <- <-.
Defined.

End CollectionAlgebra.

(** ** More on file collections: the factories *)

Module CollectionFactories.
Import PyStr PyStrFacts PosixPath PosixPathFacts ODFacts ODMore WinFileFacts
       WinFileMore FileCollection FileCollectionFacts.

(** The entity [__init__] builds for the absolute path [p]. *)
Lemma init_entity (cs : WinFile.ClassState) (d : Disk) (raw : string) :
  isfile d raw = true ->
  WinFile.__init__ cs d raw
  = Ok (WinFile.run_initialize cs d (WinFile.fresh (abspath (getcwd d) raw)))
  /\ WinFile.abspath
       (WinFile.run_initialize cs d (WinFile.fresh (abspath (getcwd d) raw)))
     = abspath (getcwd d) raw.
Proof.
  intros H. split; [now apply init_total |].
  apply (run_initialize_paths cs d (WinFile.fresh _)).
Qed.

Section Walk.
Variables (cs : WinFile.ClassState) (d : Disk).



Lemma built_setdefault (fs : OD.t WinFile.t) (p : string) :
  built_files cs d fs ->
  WinFile.abspath (WinFile.run_initialize cs d (WinFile.fresh p)) = p ->
  built_files cs d (OD.setdefault fs p (WinFile.run_initialize cs d (WinFile.fresh p))).
Proof.
  intros [Hwf He] Hp. split.
  - rewrite <- Hp at 1. now apply wf_files_setdefault.
  - intros q w H. apply In_setdefault in H. destruct H as [H | H]; [now apply He |].
    now injection H as -> ->.
Qed.

Lemma select_loop_any (criterion : WinFile.t -> Result bool)
      (paths : list string) (fs : OD.t WinFile.t) :
  (forall raw, In raw paths ->
     isfile d raw = true /\
     exists b, criterion (WinFile.run_initialize cs d
                            (WinFile.fresh (abspath (getcwd d) raw))) = Ok b) ->
  built_files cs d fs ->
  exists fs',
    select_loop cs d criterion paths fs = Ok fs' /\ built_files cs d fs' /\
    forall p, In p (OD.keys fs') <->
              In p (OD.keys fs) \/
              exists raw, In raw paths /\ p = abspath (getcwd d) raw /\
                          criterion (WinFile.run_initialize cs d (WinFile.fresh p))
                          = Ok true.
Proof.
  revert fs. induction paths as [|raw rest IH]; intros fs Hf Hb.
  - exists fs. split; [reflexivity |]. split; [exact Hb |].
    intros p. split; [now left | intros [H | (raw & [] & _)]; exact H].
  - destruct (Hf raw (or_introl eq_refl)) as [Hfile [b Hc]].
    destruct (init_entity cs d raw Hfile) as [Hi Ha].
    cbn [select_loop]. unfold bind at 1. rewrite Hi.
    unfold bind at 1. rewrite Hc, Ha.
    set (p0 := abspath (getcwd d) raw) in *.
    set (w0 := WinFile.run_initialize cs d (WinFile.fresh p0)) in *.
    destruct (IH (if b then OD.setdefault fs p0 w0 else fs)) as (fs' & Hl & Hb' & Hk).
    { intros; apply Hf; now right. }
    { destruct b; [now apply built_setdefault | exact Hb]. }
    exists fs'. split; [exact Hl |]. split; [exact Hb' |].
    intros p. rewrite Hk. split.
    + intros [H | (raw' & Hin & Hp & Hcr)].
      * destruct b; [| now left].
        apply In_keys_setdefault in H. destruct H as [H | ->]; [now left |].
        right. exists raw. split; [now left |]. split; [reflexivity | exact Hc].
      * right. exists raw'. split; [now right |]. now split.
    + intros [H | (raw' & [<- | Hin] & Hp & Hcr)].
      * left. destruct b; [apply In_keys_setdefault; now left | exact H].
      * left. subst p. fold p0 in Hcr. fold w0 in Hcr.
        rewrite Hc in Hcr. injection Hcr as ->.
        apply In_keys_setdefault. now right.
      * right. now exists raw'.
Qed.

Lemma dirs_loop_rel_any (filter : string -> WinFile.t -> Result bool)
      (dirs : list string) (fs : OD.t WinFile.t) :
  (forall root, In root dirs -> isdir d root = true) ->
  (forall root raws raw,
      In root dirs -> yield_all_file_path d root = Ok raws -> In raw raws ->
      isfile d raw = true /\
      exists b, filter root (WinFile.run_initialize cs d
                               (WinFile.fresh (abspath (getcwd d) raw))) = Ok b) ->
  built_files cs d fs ->
  exists fs',
    dirs_loop_rel cs d filter dirs fs = Ok fs' /\ built_files cs d fs' /\
    forall p, In p (OD.keys fs') <->
              In p (OD.keys fs) \/
              exists root raws raw,
                In root dirs /\ yield_all_file_path d root = Ok raws /\
                In raw raws /\ p = abspath (getcwd d) raw /\
                filter root (WinFile.run_initialize cs d (WinFile.fresh p))
                = Ok true.
Proof.
  revert fs. induction dirs as [|root rest IH]; intros fs Hd Hf Hb.
  - exists fs. split; [reflexivity |]. split; [exact Hb |].
    intros p. split; [now left | intros [H | (? & ? & ? & [] & _)]; exact H].
  - cbn [dirs_loop_rel]. unfold bind at 1.
    assert (Hy : exists raws, yield_all_file_path d root = Ok raws).
    { unfold yield_all_file_path. rewrite (Hd root (or_introl eq_refl)).
      now eexists. }
    destruct Hy as (raws & Hy). rewrite Hy.
    destruct (select_loop_any (filter root) raws fs) as (fs1 & Hl1 & Hb1 & Hk1).
    { intros raw Hin. exact (Hf root raws raw (or_introl eq_refl) Hy Hin). }
    { exact Hb. }
    unfold bind at 1. rewrite Hl1.
    destruct (IH fs1) as (fs' & Hl & Hb' & Hk).
    { intros; apply Hd; now right. }
    { intros r rs raw Hin. apply Hf. now right. }
    { exact Hb1. }
    exists fs'. split; [exact Hl |]. split; [exact Hb' |].
    intros p. rewrite Hk, Hk1. split.
    + intros [[H | (raw & Hin & Hp & Hc)] | (r & rs & raw & Hr & Hrs & Hin & Hsel)].
      * now left.
      * right. exists root, raws, raw. repeat split; auto. now left.
      * right. exists r, rs, raw. repeat split; auto; try apply Hsel. now right.
    + intros [H | (r & rs & raw & [<- | Hr] & Hrs & Hin & Hsel)].
      * now left; left.
      * left; right. exists raw. rewrite Hy in Hrs. injection Hrs as <-.
        now split.
      * right. now exists r, rs, raw.
Qed.

Lemma dirs_loop_as_rel (criterion : WinFile.t -> Result bool)
      (dirs : list string) (fs : OD.t WinFile.t) :
  dirs_loop cs d criterion dirs fs
  = dirs_loop_rel cs d (fun _ => criterion) dirs fs.
Proof.
  revert fs. induction dirs as [|root rest IH]; intros fs; [reflexivity |].
  cbn [dirs_loop dirs_loop_rel]. unfold bind.
  destruct (yield_all_file_path d root); [| reflexivity].
  destruct (select_loop _ _ _ _ _); [apply IH | reflexivity].
Qed.

(** Two filters that agree on every entity [__init__] builds give the
    same loop. *)
Lemma select_loop_ext (c1 c2 : WinFile.t -> Result bool)
      (paths : list string) (fs : OD.t WinFile.t) :
  (forall raw w, WinFile.__init__ cs d raw = Ok w -> c1 w = c2 w) ->
  select_loop cs d c1 paths fs = select_loop cs d c2 paths fs.
Proof.
  intros H. revert fs. induction paths as [|raw rest IH]; intros fs; [reflexivity |].
  cbn [select_loop]. unfold bind.
  destruct (WinFile.__init__ cs d raw) as [w|] eqn:E; [| reflexivity].
  rewrite (H raw w E). destruct (c2 w) as [b|]; [apply IH | reflexivity].
Qed.

Lemma dirs_loop_rel_ext (f1 f2 : string -> WinFile.t -> Result bool)
      (dirs : list string) (fs : OD.t WinFile.t) :
  (forall root raw w, WinFile.__init__ cs d raw = Ok w -> f1 root w = f2 root w) ->
  dirs_loop_rel cs d f1 dirs fs = dirs_loop_rel cs d f2 dirs fs.
Proof.
  intros H. revert fs. induction dirs as [|root rest IH]; intros fs; [reflexivity |].
  cbn [dirs_loop_rel]. unfold bind.
  destruct (yield_all_file_path d root); [| reflexivity].
  rewrite (select_loop_ext (f1 root) (f2 root)) by (intros; eapply H; eassumption).
  destruct (select_loop _ _ _ _ _); [apply IH | reflexivity].
Qed.

End Walk.

Lemma preprocess_twice (set_iter : list string -> list string) (arg : PathArg) :
  (forall l x, In x (set_iter l) <-> In x l) ->
  forall x, In x (_preprocess set_iter (Many (_preprocess set_iter arg)))
            <-> In x (match arg with One path => [path] | Many paths => paths end).
Proof.
  intros Hset x. destruct arg; cbn [_preprocess]; [apply Hset | now rewrite !Hset].
Qed.

Lemma preprocess_once (set_iter : list string -> list string) (arg : PathArg) :
  (forall l x, In x (set_iter l) <-> In x l) ->
  forall x, In x (_preprocess set_iter arg)
            <-> In x (match arg with One path => [path] | Many paths => paths end).
Proof.
  intros Hset x. destruct arg; cbn [_preprocess]; [tauto | apply Hset].
Qed.

Lemma built_nil (cs : WinFile.ClassState) (d : Disk) : built_files cs d [].
Proof. split; [apply wf_files_nil | intros p w []]. Qed.

Lemma keys_nil {V : Type} (fs : OD.t V) :
  (forall p, ~ In p (OD.keys fs)) -> fs = [].
Proof.
  destruct fs as [|[k v] fs]; [reflexivity |].
  intros H. exfalso. apply (H k). now left.
Qed.

(** The extension [WinFile] gives the entity of the absolute path [p]. *)
Lemma entity_ext (cs : WinFile.ClassState) (d : Disk) (p : string) :
  WinFile.ext (WinFile.run_initialize cs d (WinFile.fresh p))
  = lower (snd (splitext (snd (split p)))).
Proof. apply (run_initialize_paths cs d (WinFile.fresh p)). Qed.

Lemma entity_abspath (cs : WinFile.ClassState) (d : Disk) (p : string) :
  WinFile.abspath (WinFile.run_initialize cs d (WinFile.fresh p)) = p.
Proof. apply (run_initialize_paths cs d (WinFile.fresh p)). Qed.

(** X16.  On roots that are directories whose listed files are regular
    files, [from_path] returns a collection without explicit order that
    holds exactly the absolute paths of the discovered files, each once
    however many roots list it, each with the entity [WinFile] builds for
    it. *)
Theorem from_path_collects (set_iter : list string -> list string)
        (cs : WinFile.ClassState) (d : Disk) (arg : PathArg) :
  let roots := match arg with One path => [path] | Many paths => paths end in
  (forall l x, In x (set_iter l) <-> In x l) ->
  (forall root, In root roots -> isdir d root = true) ->
  (forall root raws raw,
      In root roots -> yield_all_file_path d root = Ok raws -> In raw raws ->
      isfile d raw = true) ->
  exists fc,
    from_path set_iter cs d arg = Ok fc /\
    order fc = None /\
    built_files cs d (files fc) /\
    forall p, In p (OD.keys (files fc)) <->
              exists root raws raw,
                In root roots /\ yield_all_file_path d root = Ok raws /\
                In raw raws /\ p = abspath (getcwd d) raw.
Proof.
  intros roots Hset Hd Hf. unfold from_path.
  pose proof (preprocess_once set_iter arg Hset) as Hdirs.
  rewrite dirs_loop_as_rel.
  destruct (dirs_loop_rel_any cs d (fun _ _ => Ok true)
              (_preprocess set_iter arg) []) as (fs & Hl & Hb & Hk).
  { intros root Hr. apply Hd. now apply Hdirs. }
  { intros root raws raw Hr Hy Hin. split; [| now exists true].
    apply (Hf root raws raw); auto. now apply Hdirs. }
  { apply built_nil. }
  exists {| files := fs; order := None |}. unfold bind. rewrite Hl.
  split; [reflexivity |]. split; [reflexivity |]. split; [exact Hb |].
  cbn [files]. intros p. rewrite Hk. split.
  - intros [[] | (root & raws & raw & Hr & Hy & Hraw & Hp & _)].
    exists root, raws, raw. repeat split; auto. now apply Hdirs.
  - intros (root & raws & raw & Hr & Hy & Hraw & Hp).
    right. exists root, raws, raw. repeat split; auto. now apply Hdirs.
Qed.

Lemma demo_set_iter : forall l x, In x (Demo.set_iter l) <-> In x l.
Proof. intros l x. apply nodup_In. Qed.

Lemma demo_data_dirs : forall root, In root ["/data"] -> isdir Demo.disk root = true.
Proof. intros root [<- | []]. reflexivity. Qed.

Lemma demo_data_files :
  forall root raws raw,
    In root ["/data"] -> yield_all_file_path Demo.disk root = Ok raws ->
    In raw raws -> isfile Demo.disk raw = true.
Proof.
  intros root raws raw [<- | []] H. injection H as <-.
  intros [<- | [<- | [<- | [<- | []]]]]; reflexivity.
Qed.

Lemma from_path_collects_witness :
  exists fc,
    from_path Demo.set_iter WinFile.class_body Demo.disk (One "/data") = Ok fc /\
    order fc = None /\
    built_files WinFile.class_body Demo.disk (files fc) /\
    forall p, In p (OD.keys (files fc)) <->
              exists root raws raw,
                In root ["/data"] /\ yield_all_file_path Demo.disk root = Ok raws /\
                In raw raws /\ p = abspath (getcwd Demo.disk) raw.
Proof.
  apply (from_path_collects Demo.set_iter WinFile.class_body Demo.disk (One "/data")).
  - exact demo_set_iter.
  - exact demo_data_dirs.
  - exact demo_data_files.
Defined.

(** X17.  On roots that are directories whose listed files are regular
    files, [from_path_by_ext] selects exactly the discovered files whose
    lower-cased last suffix is the extension given, or is one of those
    given.  The extensions given are compared as they are: a single
    extension with an upper-case letter selects no file. *)
Theorem from_path_by_ext_selects (set_iter : list string -> list string)
        (cs : WinFile.ClassState) (d : Disk) (arg : PathArg) (ext : ExtArg) :
  let roots := match arg with One path => [path] | Many paths => paths end in
  let matches (e : string) :=
    match ext with
    | ExtMany exts => In e exts
    | ExtOne e0 => e = e0
    end in
  (forall l x, In x (set_iter l) <-> In x l) ->
  (forall root, In root roots -> isdir d root = true) ->
  (forall root raws raw,
      In root roots -> yield_all_file_path d root = Ok raws -> In raw raws ->
      isfile d raw = true) ->
  exists fc,
    from_path_by_ext set_iter cs d arg ext = Ok fc /\
    order fc = None /\
    built_files cs d (files fc) /\
    (forall p, In p (OD.keys (files fc)) <->
               exists root raws raw,
                 In root roots /\ yield_all_file_path d root = Ok raws /\
                 In raw raws /\ p = abspath (getcwd d) raw /\
                 matches (lower (snd (splitext (snd (split p)))))) /\
    (forall e0, ext = ExtOne e0 -> lower e0 <> e0 -> files fc = []).
Proof.
  intros roots matches Hset Hd Hf. unfold from_path_by_ext, from_path_by_criterion.
  pose proof (preprocess_twice set_iter arg Hset) as Hdirs.
  rewrite dirs_loop_as_rel.
  destruct (dirs_loop_rel_any cs d (fun _ => ext_filter ext)
              (_preprocess set_iter (Many (_preprocess set_iter arg))) [])
    as (fs & Hl & Hb & Hk).
  { intros root Hr. apply Hd. now apply Hdirs. }
  { intros root raws raw Hr Hy Hin. split.
    - apply (Hf root raws raw); auto. now apply Hdirs.
    - unfold ext_filter. destruct ext; now eexists. }
  { apply built_nil. }
  assert (Hm : forall p, ext_filter ext (WinFile.run_initialize cs d (WinFile.fresh p))
                         = Ok true
                         <-> matches (lower (snd (splitext (snd (split p)))))).
  { intros p. unfold ext_filter, matches. rewrite entity_ext.
    destruct ext as [exts | e0].
    - rewrite <- mem_In. split; [intros H; now injection H | now intros ->].
    - rewrite <- String.eqb_eq. split; [intros H; now injection H | now intros ->]. }
  assert (Hkeys : forall p, In p (OD.keys fs) <->
               exists root raws raw,
                 In root roots /\ yield_all_file_path d root = Ok raws /\
                 In raw raws /\ p = abspath (getcwd d) raw /\
                 matches (lower (snd (splitext (snd (split p)))))).
  { intros p. rewrite Hk. split.
    - intros [[] | (root & raws & raw & Hr & Hy & Hraw & Hp & Hc)].
      exists root, raws, raw. repeat split; auto; [now apply Hdirs | now apply Hm].
    - intros (root & raws & raw & Hr & Hy & Hraw & Hp & Hc).
      right. exists root, raws, raw. repeat split; auto; [now apply Hdirs | now apply Hm]. }
  exists {| files := fs; order := None |}. unfold bind. rewrite Hl.
  split; [reflexivity |]. split; [reflexivity |]. split; [exact Hb |].
  cbn [files]. split; [exact Hkeys |].
  intros e0 -> Hup. apply keys_nil. intros p Hp. apply Hkeys in Hp.
  destruct Hp as (_ & _ & _ & _ & _ & _ & _ & Hmm). unfold matches in Hmm.
  apply Hup. rewrite <- Hmm. apply lower_idem.
Qed.

Lemma from_path_by_ext_selects_witness :
  exists fc,
    from_path_by_ext Demo.set_iter WinFile.class_body Demo.disk (One "/data")
                     (ExtOne ".TXT") = Ok fc /\
    order fc = None /\
    built_files WinFile.class_body Demo.disk (files fc) /\
    (forall p, In p (OD.keys (files fc)) <->
               exists root raws raw,
                 In root ["/data"] /\ yield_all_file_path Demo.disk root = Ok raws /\
                 In raw raws /\ p = abspath (getcwd Demo.disk) raw /\
                 lower (snd (splitext (snd (split p)))) = ".TXT") /\
    (forall e0, ExtOne ".TXT" = ExtOne e0 -> lower e0 <> e0 -> files fc = []).
Proof.
  apply (from_path_by_ext_selects Demo.set_iter WinFile.class_body Demo.disk
                                  (One "/data") (ExtOne ".TXT")).
  - exact demo_set_iter.
  - exact demo_data_dirs.
  - exact demo_data_files.
Defined.

End CollectionFactories.

(** ** More on file collections: the filtering factories *)

Module CollectionFilters.
Import PyStr PyStrFacts PosixPath PosixPathFacts ODFacts ODMore WinFileFacts
       WinFileMore FileCollection FileCollectionFacts CollectionFactories.

Lemma relpath_ok (cwd path start : string) :
  path <> "" -> exists r, OsPath.relpath cwd path start = Ok r.
Proof.
  intros H. unfold OsPath.relpath.
  destruct (path =? "")%string eqn:E; [now apply String.eqb_eq in E |].
  cbv zeta. destruct (_ ++ _)%list; now eexists.
Qed.

Lemma in_str_empty (s : string) : in_str "" s = true.
Proof. destruct s; reflexivity. Qed.

Lemma startswith_empty (s : string) : startswith s "" = true.
Proof. destruct s; reflexivity. Qed.

Lemma existsb_In {A : Type} (f : A -> bool) (l : list A) (x : A) :
  In x l -> f x = true -> existsb f l = true.
Proof. intros Hin Hf. apply existsb_exists. now exists x. Qed.

(** What the filter of [from_path_except] answers on the entity of a
    path. *)
Lemma except_filter_entity (cs : WinFile.ClassState) (d : Disk)
      (ignore ignore_ext ignore_pattern : list string) (root p : string) :
  p <> "" ->
  exists r,
    OsPath.relpath (getcwd d) p root = Ok r /\
    except_filter d ignore ignore_ext ignore_pattern root
                  (WinFile.run_initialize cs d (WinFile.fresh p))
    = Ok (negb (existsb (fun path => startswith (lower r) path) ignore)
          && negb (mem (lower (snd (splitext (snd (split p))))) ignore_ext)
          && negb (existsb (fun pattern => in_str pattern (lower r)) ignore_pattern)).
Proof.
  intros Hp. destruct (relpath_ok (getcwd d) p root Hp) as [r Hr].
  exists r. split; [exact Hr |].
  unfold except_filter. rewrite entity_abspath, entity_ext.
  unfold bind. rewrite Hr.
  destruct (existsb _ ignore); [reflexivity |].
  destruct (mem _ ignore_ext); [reflexivity |].
  destruct (existsb _ ignore_pattern); reflexivity.
Qed.

Lemma init_is_entity (cs : WinFile.ClassState) (d : Disk) (raw : string)
      (w : WinFile.t) :
  WinFile.__init__ cs d raw = Ok w ->
  w = WinFile.run_initialize cs d (WinFile.fresh (abspath (getcwd d) raw)).
Proof.
  unfold WinFile.__init__. destruct (isfile d raw); [| discriminate].
  intros H. now injection H.
Qed.

(** X18.  With no rule at all, whether the three arguments are left out
    or are empty lists, [from_path_except] is [from_path]: the same
    collection, or the same exception. *)
Theorem from_path_except_no_rule (set_iter : list string -> list string)
        (cs : WinFile.ClassState) (d : Disk) (arg : PathArg)
        (ignore ignore_ext ignore_pattern : StrArg) :
  arg_list ignore = [] -> arg_list ignore_ext = [] ->
  arg_list ignore_pattern = [] ->
  from_path_except set_iter cs d arg ignore ignore_ext ignore_pattern
  = from_path set_iter cs d arg.
Proof.
  intros H1 H2 H3. unfold from_path_except, from_path.
  rewrite H1, H2, H3. cbn [map]. rewrite dirs_loop_as_rel.
  rewrite (dirs_loop_rel_ext cs d (except_filter d [] [] [])
                             (fun _ _ => Ok true)); [reflexivity |].
  intros root raw w Hw. apply init_is_entity in Hw. subst w.
  destruct (except_filter_entity cs d [] [] [] root (abspath (getcwd d) raw))
    as (r & _ & ->); [apply abspath_nonempty | reflexivity].
Qed.

Lemma from_path_except_no_rule_witness :
  from_path_except Demo.set_iter WinFile.class_body Demo.disk (One "/data")
                   ArgNone (ArgList []) ArgNone
  = from_path Demo.set_iter WinFile.class_body Demo.disk (One "/data").
Proof.
  apply (from_path_except_no_rule Demo.set_iter WinFile.class_body Demo.disk
                                  (One "/data") ArgNone (ArgList []) ArgNone);
    reflexivity.
Defined.

(** X19.  On roots that are directories whose listed files are regular
    files, [from_path_except] returns a collection in which no entity has
    an extension of [ignore_ext], whatever the case the extension was
    given in; when [ignore] and [ignore_pattern] are empty it holds
    exactly the discovered files whose extension is not one of
    [ignore_ext] in lower case. *)
Theorem from_path_except_ext (set_iter : list string -> list string)
        (cs : WinFile.ClassState) (d : Disk) (arg : PathArg)
        (ignore ignore_ext ignore_pattern : StrArg) :
  let roots := match arg with One path => [path] | Many paths => paths end in
  (forall l x, In x (set_iter l) <-> In x l) ->
  (forall root, In root roots -> isdir d root = true) ->
  (forall root raws raw,
      In root roots -> yield_all_file_path d root = Ok raws -> In raw raws ->
      isfile d raw = true) ->
  exists fc,
    from_path_except set_iter cs d arg ignore ignore_ext ignore_pattern = Ok fc /\
    order fc = None /\
    built_files cs d (files fc) /\
    (forall p w e, In (p, w) (files fc) -> In e (arg_list ignore_ext) ->
                   WinFile.ext w <> lower e) /\
    (arg_list ignore = [] -> arg_list ignore_pattern = [] ->
     forall p, In p (OD.keys (files fc)) <->
               exists root raws raw,
                 In root roots /\ yield_all_file_path d root = Ok raws /\
                 In raw raws /\ p = abspath (getcwd d) raw /\
                 ~ In (lower (snd (splitext (snd (split p)))))
                      (map lower (arg_list ignore_ext))).
Proof.
  intros roots Hset Hd Hf. unfold from_path_except.
  pose proof (preprocess_once set_iter arg Hset) as Hdirs.
  set (ig := map lower (arg_list ignore)).
  set (ie := map lower (arg_list ignore_ext)).
  set (ip := map lower (arg_list ignore_pattern)).
  destruct (dirs_loop_rel_any cs d (except_filter d ig ie ip)
              (_preprocess set_iter arg) []) as (fs & Hl & Hb & Hk).
  { intros root Hr. apply Hd. now apply Hdirs. }
  { intros root raws raw Hr Hy Hin. split.
    - apply (Hf root raws raw); auto. now apply Hdirs.
    - destruct (except_filter_entity cs d ig ie ip root (abspath (getcwd d) raw))
        as (r & _ & ->); [apply abspath_nonempty | now eexists]. }
  { apply built_nil. }
  exists {| files := fs; order := None |}. unfold bind. rewrite Hl.
  split; [reflexivity |]. split; [reflexivity |]. split; [exact Hb |].
  cbn [files]. split.
  - intros p w e Hin He Hext.
    assert (Hp : In p (OD.keys fs)) by (apply in_map_iff; now exists (p, w)).
    apply Hk in Hp.
    destruct Hp as [[] | (root & raws & raw & _ & _ & _ & Hp & Hc)].
    destruct (except_filter_entity cs d ig ie ip root p) as (r & _ & E).
    { subst p. apply abspath_nonempty. }
    rewrite E in Hc. injection Hc as Hc.
    apply andb_prop in Hc. destruct Hc as [Hc _].
    apply andb_prop in Hc. destruct Hc as [_ Hc].
    apply negb_true_iff in Hc.
    destruct Hb as [_ Hent]. rewrite (Hent p w Hin), entity_ext in Hext.
    assert (Hm : mem (lower (snd (splitext (snd (split p))))) ie = true).
    { apply mem_In. rewrite Hext. unfold ie. now apply in_map. }
    exact (eq_true_false_abs _ Hm Hc).
  - intros Hig Hip p. rewrite Hk.
    assert (Hc : forall root, p <> "" ->
               (except_filter d ig ie ip root
                              (WinFile.run_initialize cs d (WinFile.fresh p))
                = Ok true
                <-> ~ In (lower (snd (splitext (snd (split p))))) ie)).
    { intros root Hne.
      destruct (except_filter_entity cs d ig ie ip root p Hne) as (r & _ & ->).
      unfold ig, ip. rewrite Hig, Hip. cbn [map existsb negb andb].
      rewrite andb_true_r, <- mem_In.
      destruct (mem _ ie); cbn [negb]; split; congruence. }
    split.
    + intros [[] | (root & raws & raw & Hr & Hy & Hraw & Hp & Hcr)].
      exists root, raws, raw. repeat split; auto; [now apply Hdirs |].
      apply (Hc root); [subst p; apply abspath_nonempty | exact Hcr].
    + intros (root & raws & raw & Hr & Hy & Hraw & Hp & Hcr).
      right. exists root, raws, raw. repeat split; auto; [now apply Hdirs |].
      apply (Hc root); [subst p; apply abspath_nonempty | exact Hcr].
Qed.

Lemma from_path_except_ext_witness :
  exists fc,
    from_path_except Demo.set_iter WinFile.class_body Demo.disk (One "/data")
                     ArgNone (ArgStr ".GZ") ArgNone = Ok fc /\
    order fc = None /\
    built_files WinFile.class_body Demo.disk (files fc) /\
    (forall p w e, In (p, w) (files fc) -> In e [".GZ"] ->
                   WinFile.ext w <> lower e) /\
    (arg_list ArgNone = [] -> arg_list ArgNone = [] ->
     forall p, In p (OD.keys (files fc)) <->
               exists root raws raw,
                 In root ["/data"] /\ yield_all_file_path Demo.disk root = Ok raws /\
                 In raw raws /\ p = abspath (getcwd Demo.disk) raw /\
                 ~ In (lower (snd (splitext (snd (split p)))))
                      (map lower [".GZ"])).
Proof.
  apply (from_path_except_ext Demo.set_iter WinFile.class_body Demo.disk
                              (One "/data") ArgNone (ArgStr ".GZ") ArgNone).
  - exact demo_set_iter.
  - exact demo_data_dirs.
  - exact demo_data_files.
Defined.

(** X20.  An empty string among [ignore] or [ignore_pattern] excludes
    every file: each relative path starts with it and contains it. *)
Theorem from_path_except_empty_string (set_iter : list string -> list string)
        (cs : WinFile.ClassState) (d : Disk) (arg : PathArg)
        (ignore ignore_ext ignore_pattern : StrArg) :
  let roots := match arg with One path => [path] | Many paths => paths end in
  (forall l x, In x (set_iter l) <-> In x l) ->
  (forall root, In root roots -> isdir d root = true) ->
  (forall root raws raw,
      In root roots -> yield_all_file_path d root = Ok raws -> In raw raws ->
      isfile d raw = true) ->
  In "" (arg_list ignore) \/ In "" (arg_list ignore_pattern) ->
  from_path_except set_iter cs d arg ignore ignore_ext ignore_pattern
  = Ok empty.
Proof.
  intros roots Hset Hd Hf Hempty. unfold from_path_except.
  pose proof (preprocess_once set_iter arg Hset) as Hdirs.
  set (ig := map lower (arg_list ignore)).
  set (ie := map lower (arg_list ignore_ext)).
  set (ip := map lower (arg_list ignore_pattern)).
  assert (Hrej : forall root p, p <> "" ->
            except_filter d ig ie ip root
                          (WinFile.run_initialize cs d (WinFile.fresh p))
            = Ok false).
  { intros root p Hne.
    destruct (except_filter_entity cs d ig ie ip root p Hne) as (r & _ & ->).
    f_equal. destruct Hempty as [H | H].
    - rewrite (existsb_In _ ig "").
      + reflexivity.
      + unfold ig. now apply (in_map lower _ "").
      + apply startswith_empty.
    - rewrite (existsb_In (fun pattern => in_str pattern (lower r)) ip "").
      + cbn [negb]. now rewrite andb_false_r.
      + unfold ip. now apply (in_map lower _ "").
      + apply in_str_empty. }
  destruct (dirs_loop_rel_any cs d (except_filter d ig ie ip)
              (_preprocess set_iter arg) []) as (fs & Hl & Hb & Hk).
  { intros root Hr. apply Hd. now apply Hdirs. }
  { intros root raws raw Hr Hy Hin. split.
    - apply (Hf root raws raw); auto. now apply Hdirs.
    - exists false. apply Hrej, abspath_nonempty. }
  { apply built_nil. }
  unfold bind. rewrite Hl. unfold empty. do 2 f_equal.
  apply keys_nil. intros p Hp. apply Hk in Hp.
  destruct Hp as [[] | (root & raws & raw & _ & _ & _ & Hp & Hc)].
  rewrite Hrej in Hc; [discriminate | subst p; apply abspath_nonempty].
Qed.

Lemma from_path_except_empty_string_witness :
  from_path_except Demo.set_iter WinFile.class_body Demo.disk (One "/data")
                   ArgNone ArgNone (ArgStr "")
  = Ok empty.
Proof.
  apply (from_path_except_empty_string Demo.set_iter WinFile.class_body Demo.disk
           (One "/data") ArgNone ArgNone (ArgStr "")).
  - exact demo_set_iter.
  - exact demo_data_dirs.
  - exact demo_data_files.
  - right. now left.
Defined.

End CollectionFilters.

(** ** More on file collections: patterns, both answers, and MD5 *)

Module CollectionSelectors.
Import PyStr PyStrFacts PosixPath PosixPathFacts ODFacts ODMore WinFileFacts
       WinFileMore FileCollection FileCollectionFacts CollectionFactories
       CollectionFilters.

(** What the filter of [from_path_by_pattern] answers on the entity of a
    path. *)
Lemma pattern_filter_entity (cs : WinFile.ClassState) (d : Disk)
      (pattern : list string) (root p : string) :
  p <> "" ->
  exists r,
    OsPath.relpath (getcwd d) p root = Ok r /\
    pattern_filter d pattern root (WinFile.run_initialize cs d (WinFile.fresh p))
    = Ok (existsb (fun pat => in_str pat (lower r)) pattern).
Proof.
  intros Hp. destruct (relpath_ok (getcwd d) p root Hp) as [r Hr].
  exists r. split; [exact Hr |].
  unfold pattern_filter. rewrite entity_abspath. unfold bind. now rewrite Hr.
Qed.

(** X21.  On roots that are directories whose listed files are regular
    files, [from_path_by_pattern] selects exactly the discovered files
    whose path relative to their root contains, both in lower case, one of
    the patterns; with no pattern it selects nothing. *)
Theorem from_path_by_pattern_selects (set_iter : list string -> list string)
        (cs : WinFile.ClassState) (d : Disk) (arg : PathArg) (pattern : StrArg) :
  let roots := match arg with One path => [path] | Many paths => paths end in
  (forall l x, In x (set_iter l) <-> In x l) ->
  (forall root, In root roots -> isdir d root = true) ->
  (forall root raws raw,
      In root roots -> yield_all_file_path d root = Ok raws -> In raw raws ->
      isfile d raw = true) ->
  exists fc,
    from_path_by_pattern set_iter cs d arg pattern = Ok fc /\
    order fc = None /\
    built_files cs d (files fc) /\
    (forall p, In p (OD.keys (files fc)) <->
               exists root raws raw r pat,
                 In root roots /\ yield_all_file_path d root = Ok raws /\
                 In raw raws /\ p = abspath (getcwd d) raw /\
                 OsPath.relpath (getcwd d) p root = Ok r /\
                 In pat (arg_list pattern) /\
                 in_str (lower pat) (lower r) = true) /\
    (arg_list pattern = [] -> files fc = []).
Proof.
  intros roots Hset Hd Hf. unfold from_path_by_pattern.
  pose proof (preprocess_once set_iter arg Hset) as Hdirs.
  set (pats := map lower (arg_list pattern)).
  destruct (dirs_loop_rel_any cs d (pattern_filter d pats)
              (_preprocess set_iter arg) []) as (fs & Hl & Hb & Hk).
  { intros root Hr. apply Hd. now apply Hdirs. }
  { intros root raws raw Hr Hy Hin. split.
    - apply (Hf root raws raw); auto. now apply Hdirs.
    - destruct (pattern_filter_entity cs d pats root (abspath (getcwd d) raw))
        as (r & _ & ->); [apply abspath_nonempty | now eexists]. }
  { apply built_nil. }
  assert (Hkeys : forall p, In p (OD.keys fs) <->
               exists root raws raw r pat,
                 In root roots /\ yield_all_file_path d root = Ok raws /\
                 In raw raws /\ p = abspath (getcwd d) raw /\
                 OsPath.relpath (getcwd d) p root = Ok r /\
                 In pat (arg_list pattern) /\
                 in_str (lower pat) (lower r) = true).
  { intros p. rewrite Hk. split.
    - intros [[] | (root & raws & raw & Hr & Hy & Hraw & Hp & Hc)].
      destruct (pattern_filter_entity cs d pats root p) as (r & Hrel & E).
      { subst p. apply abspath_nonempty. }
      rewrite E in Hc. injection Hc as Hc.
      apply existsb_exists in Hc. destruct Hc as (x & Hx & Hin).
      apply in_map_iff in Hx. destruct Hx as (pat & <- & Hpat).
      exists root, raws, raw, r, pat. repeat split; auto. now apply Hdirs.
    - intros (root & raws & raw & r & pat & Hr & Hy & Hraw & Hp & Hrel & Hpat & Hin).
      right. exists root, raws, raw. repeat split; auto; [now apply Hdirs |].
      destruct (pattern_filter_entity cs d pats root p) as (r' & Hrel' & ->).
      { subst p. apply abspath_nonempty. }
      rewrite Hrel in Hrel'. injection Hrel' as <-. f_equal.
      apply (existsb_In _ pats (lower pat)); [| exact Hin].
      unfold pats. now apply in_map. }
  exists {| files := fs; order := None |}. unfold bind. rewrite Hl.
  split; [reflexivity |]. split; [reflexivity |]. split; [exact Hb |].
  cbn [files]. split; [exact Hkeys |].
  intros Hnone. apply keys_nil. intros p Hp. apply Hkeys in Hp.
  destruct Hp as (_ & _ & _ & _ & pat & _ & _ & _ & _ & _ & Hpat & _).
  rewrite Hnone in Hpat. exact Hpat.
Qed.

Lemma from_path_by_pattern_selects_witness :
  exists fc,
    from_path_by_pattern Demo.set_iter WinFile.class_body Demo.disk (One "/data")
                         (ArgStr "SUB") = Ok fc /\
    order fc = None /\
    built_files WinFile.class_body Demo.disk (files fc) /\
    (forall p, In p (OD.keys (files fc)) <->
               exists root raws raw r pat,
                 In root ["/data"] /\ yield_all_file_path Demo.disk root = Ok raws /\
                 In raw raws /\ p = abspath (getcwd Demo.disk) raw /\
                 OsPath.relpath (getcwd Demo.disk) p root = Ok r /\
                 In pat (arg_list (ArgStr "SUB")) /\
                 in_str (lower pat) (lower r) = true) /\
    (arg_list (ArgStr "SUB") = [] -> files fc = []).
Proof.
  apply (from_path_by_pattern_selects Demo.set_iter WinFile.class_body Demo.disk
                                      (One "/data") (ArgStr "SUB")).
  - exact demo_set_iter.
  - exact demo_data_dirs.
  - exact demo_data_files.
Defined.

(** X22.  An empty string among the patterns makes [from_path_by_pattern]
    the same as [from_path]: every relative path contains it. *)
Theorem from_path_by_pattern_empty_string (set_iter : list string -> list string)
        (cs : WinFile.ClassState) (d : Disk) (arg : PathArg) (pattern : StrArg) :
  In "" (arg_list pattern) ->
  from_path_by_pattern set_iter cs d arg pattern = from_path set_iter cs d arg.
Proof.
  intros Hin. unfold from_path_by_pattern, from_path.
  rewrite dirs_loop_as_rel.
  rewrite (dirs_loop_rel_ext cs d
             (pattern_filter d (map lower (arg_list pattern)))
             (fun _ _ => Ok true)); [reflexivity |].
  intros root raw w Hw. apply init_is_entity in Hw. subst w.
  destruct (pattern_filter_entity cs d (map lower (arg_list pattern)) root
                                  (abspath (getcwd d) raw))
    as (r & _ & ->); [apply abspath_nonempty |].
  f_equal. apply (existsb_In _ _ ""); [| apply in_str_empty].
  now apply (in_map lower _ "").
Qed.

Lemma from_path_by_pattern_empty_string_witness :
  from_path_by_pattern Demo.set_iter WinFile.class_body Demo.disk (One "/data")
                       (ArgList ["zzz"; ""])
  = from_path Demo.set_iter WinFile.class_body Demo.disk (One "/data").
Proof.
  apply (from_path_by_pattern_empty_string
           Demo.set_iter WinFile.class_body Demo.disk (One "/data")
           (ArgList ["zzz"; ""])).
  right. now left.
Defined.

(** The loop that fills two collections does what the two loops with the
    criterion and with the criterion turned round do. *)
Lemma select_loop_both_split (cs : WinFile.ClassState) (d : Disk)
      (criterion : WinFile.t -> Result bool)
      (paths : list string) (fs_yes fs_no : OD.t WinFile.t) :
  (forall raw, In raw paths ->
     isfile d raw = true /\
     exists b, criterion (WinFile.run_initialize cs d
                            (WinFile.fresh (abspath (getcwd d) raw))) = Ok b) ->
  exists yes no,
    select_loop_both cs d criterion paths fs_yes fs_no = Ok (yes, no) /\
    select_loop cs d criterion paths fs_yes = Ok yes /\
    select_loop cs d (negate criterion) paths fs_no = Ok no.
Proof.
  revert fs_yes fs_no. induction paths as [|raw rest IH]; intros fs_yes fs_no Hf.
  - exists fs_yes, fs_no. repeat split.
  - destruct (Hf raw (or_introl eq_refl)) as [Hfile [b Hc]].
    cbn [select_loop_both select_loop]. unfold negate, bind.
    rewrite (init_total cs d raw Hfile), Hc.
    destruct b; cbn [negb]; apply IH; intros; apply Hf; now right.
Qed.

Lemma dirs_loop_both_split (cs : WinFile.ClassState) (d : Disk)
      (criterion : WinFile.t -> Result bool)
      (dirs : list string) (fs_yes fs_no : OD.t WinFile.t) :
  (forall root, In root dirs -> isdir d root = true) ->
  (forall root raws raw,
      In root dirs -> yield_all_file_path d root = Ok raws -> In raw raws ->
      isfile d raw = true /\
      exists b, criterion (WinFile.run_initialize cs d
                             (WinFile.fresh (abspath (getcwd d) raw))) = Ok b) ->
  exists yes no,
    dirs_loop_both cs d criterion dirs fs_yes fs_no = Ok (yes, no) /\
    dirs_loop cs d criterion dirs fs_yes = Ok yes /\
    dirs_loop cs d (negate criterion) dirs fs_no = Ok no.
Proof.
  revert fs_yes fs_no. induction dirs as [|root rest IH]; intros fs_yes fs_no Hd Hf.
  - exists fs_yes, fs_no. repeat split.
  - cbn [dirs_loop_both dirs_loop]. unfold bind.
    destruct (yield_all_file_path d root) as [raws|] eqn:Hy.
    2:{ unfold yield_all_file_path in Hy.
        rewrite (Hd root (or_introl eq_refl)) in Hy. discriminate. }
    destruct (select_loop_both_split cs d criterion raws fs_yes fs_no)
      as (y1 & n1 & -> & -> & ->).
    { intros raw Hin. exact (Hf root raws raw (or_introl eq_refl) Hy Hin). }
    cbn [fst snd]. apply IH.
    + intros; apply Hd; now right.
    + intros r rs raw Hin. apply Hf. now right.
Qed.

Lemma negate_true (criterion : WinFile.t -> Result bool) (w : WinFile.t) :
  negate criterion w = Ok true <-> criterion w = Ok false.
Proof.
  unfold negate, bind. destruct (criterion w) as [[|]|]; cbn [negb];
    split; congruence.
Qed.

(** X23.  With [keepboth=True] and a criterion that answers on every
    discovered file, [from_path_by_criterion] returns two collections:
    the first is the one it returns without [keepboth] and holds the
    discovered files the criterion accepts, the second holds those it
    refuses; so no path is in both and each discovered file is in one. *)
Theorem from_path_by_criterion_keepboth_partition
        (set_iter : list string -> list string)
        (cs : WinFile.ClassState) (d : Disk) (arg : PathArg)
        (criterion : WinFile.t -> Result bool) :
  let roots := match arg with One path => [path] | Many paths => paths end in
  let discovered (p : string) :=
    exists root raws raw,
      In root roots /\ yield_all_file_path d root = Ok raws /\
      In raw raws /\ p = abspath (getcwd d) raw in
  (forall l x, In x (set_iter l) <-> In x l) ->
  (forall root, In root roots -> isdir d root = true) ->
  (forall root raws raw,
      In root roots -> yield_all_file_path d root = Ok raws -> In raw raws ->
      isfile d raw = true /\
      exists b, criterion (WinFile.run_initialize cs d
                             (WinFile.fresh (abspath (getcwd d) raw))) = Ok b) ->
  exists fc_yes fc_no,
    from_path_by_criterion_keepboth set_iter cs d arg criterion
    = Ok (fc_yes, fc_no) /\
    from_path_by_criterion set_iter cs d arg criterion = Ok fc_yes /\
    order fc_yes = None /\ order fc_no = None /\
    built_files cs d (files fc_yes) /\ built_files cs d (files fc_no) /\
    (forall p, In p (OD.keys (files fc_yes)) <->
               discovered p /\
               criterion (WinFile.run_initialize cs d (WinFile.fresh p)) = Ok true) /\
    (forall p, In p (OD.keys (files fc_no)) <->
               discovered p /\
               criterion (WinFile.run_initialize cs d (WinFile.fresh p)) = Ok false) /\
    (forall p, ~ (In p (OD.keys (files fc_yes)) /\ In p (OD.keys (files fc_no)))) /\
    (forall p, discovered p ->
               In p (OD.keys (files fc_yes)) \/ In p (OD.keys (files fc_no))).
Proof.
  intros roots discovered Hset Hd Hf.
  unfold from_path_by_criterion_keepboth, from_path_by_criterion.
  pose proof (preprocess_once set_iter arg Hset) as Hdirs.
  set (dirs := _preprocess set_iter arg) in *.
  assert (Hd' : forall root, In root dirs -> isdir d root = true).
  { intros root Hr. apply Hd. now apply Hdirs. }
  assert (Hf' : forall root raws raw,
             In root dirs -> yield_all_file_path d root = Ok raws -> In raw raws ->
             isfile d raw = true /\
             exists b, criterion (WinFile.run_initialize cs d
                                    (WinFile.fresh (abspath (getcwd d) raw))) = Ok b).
  { intros root raws raw Hr. apply Hf. now apply Hdirs. }
  destruct (dirs_loop_both_split cs d criterion dirs [] [] Hd' Hf')
    as (yes & no & Hboth & Hyes & Hno).
  rewrite dirs_loop_as_rel in Hyes, Hno.
  destruct (dirs_loop_rel_any cs d (fun _ => criterion) dirs [] Hd' Hf'
                              (built_nil cs d)) as (yes' & Hl & Hby & Hky).
  rewrite Hyes in Hl. injection Hl as <-.
  destruct (dirs_loop_rel_any cs d (fun _ => negate criterion) dirs [] Hd')
    as (no' & Hl & Hbn & Hkn).
  { intros root raws raw Hr Hy Hin.
    destruct (Hf' root raws raw Hr Hy Hin) as [Hfile [b Hc]].
    split; [exact Hfile |]. exists (negb b). unfold negate, bind. now rewrite Hc. }
  { apply built_nil. }
  rewrite Hno in Hl. injection Hl as <-.
  assert (Hyeskeys : forall p, In p (OD.keys yes) <->
               discovered p /\
               criterion (WinFile.run_initialize cs d (WinFile.fresh p)) = Ok true).
  { intros p. rewrite Hky. split.
    - intros [[] | (root & raws & raw & Hr & Hy & Hraw & Hp & Hc)].
      split; [| exact Hc]. exists root, raws, raw. repeat split; auto.
      now apply Hdirs.
    - intros [(root & raws & raw & Hr & Hy & Hraw & Hp) Hc].
      right. exists root, raws, raw. repeat split; auto. now apply Hdirs. }
  assert (Hnokeys : forall p, In p (OD.keys no) <->
               discovered p /\
               criterion (WinFile.run_initialize cs d (WinFile.fresh p)) = Ok false).
  { intros p. rewrite Hkn. split.
    - intros [[] | (root & raws & raw & Hr & Hy & Hraw & Hp & Hc)].
      split; [| now apply negate_true]. exists root, raws, raw. repeat split; auto.
      now apply Hdirs.
    - intros [(root & raws & raw & Hr & Hy & Hraw & Hp) Hc].
      right. exists root, raws, raw. repeat split; auto;
        [now apply Hdirs | now apply negate_true]. }
  exists {| files := yes; order := None |}, {| files := no; order := None |}.
  rewrite dirs_loop_as_rel. unfold bind. rewrite Hboth, Hyes. cbn [fst snd files order].
  split; [reflexivity |]. split; [reflexivity |].
  split; [reflexivity |]. split; [reflexivity |].
  split; [exact Hby |]. split; [exact Hbn |].
  split; [exact Hyeskeys |]. split; [exact Hnokeys |]. split.
  - intros p [Hy Hn]. apply Hyeskeys in Hy. apply Hnokeys in Hn.
    destruct Hy as [_ Hy]. destruct Hn as [_ Hn]. congruence.
  - intros p Hp. pose proof Hp as (root & raws & raw & Hr & Hy & Hraw & Hpp).
    destruct (Hf root raws raw Hr Hy Hraw) as [_ [b Hc]]. rewrite <- Hpp in Hc.
    destruct b; [left; now apply Hyeskeys | right; now apply Hnokeys].
Qed.

Lemma demo_data_ext_answers :
  forall root raws raw,
    In root ["/data"] -> yield_all_file_path Demo.disk root = Ok raws ->
    In raw raws ->
    isfile Demo.disk raw = true /\
    exists b, ext_filter (ExtOne ".txt")
                (WinFile.run_initialize WinFile.class_body Demo.disk
                   (WinFile.fresh (abspath (getcwd Demo.disk) raw))) = Ok b.
Proof.
  intros root raws raw Hr Hy Hin. split.
  - exact (demo_data_files root raws raw Hr Hy Hin).
  - now eexists.
Qed.

Lemma from_path_by_criterion_keepboth_partition_witness :
  let criterion := ext_filter (ExtOne ".txt") in
  let discovered (p : string) :=
    exists root raws raw,
      In root ["/data"] /\ yield_all_file_path Demo.disk root = Ok raws /\
      In raw raws /\ p = abspath (getcwd Demo.disk) raw in
  exists fc_yes fc_no,
    from_path_by_criterion_keepboth Demo.set_iter WinFile.class_body Demo.disk
                                    (One "/data") criterion
    = Ok (fc_yes, fc_no) /\
    from_path_by_criterion Demo.set_iter WinFile.class_body Demo.disk
                           (One "/data") criterion = Ok fc_yes /\
    order fc_yes = None /\ order fc_no = None /\
    built_files WinFile.class_body Demo.disk (files fc_yes) /\
    built_files WinFile.class_body Demo.disk (files fc_no) /\
    (forall p, In p (OD.keys (files fc_yes)) <->
               discovered p /\
               criterion (WinFile.run_initialize WinFile.class_body Demo.disk
                                                 (WinFile.fresh p)) = Ok true) /\
    (forall p, In p (OD.keys (files fc_no)) <->
               discovered p /\
               criterion (WinFile.run_initialize WinFile.class_body Demo.disk
                                                 (WinFile.fresh p)) = Ok false) /\
    (forall p, ~ (In p (OD.keys (files fc_yes)) /\ In p (OD.keys (files fc_no)))) /\
    (forall p, discovered p ->
               In p (OD.keys (files fc_yes)) \/ In p (OD.keys (files fc_no))).
Proof.
  apply (from_path_by_criterion_keepboth_partition
           Demo.set_iter WinFile.class_body Demo.disk (One "/data")
           (ext_filter (ExtOne ".txt"))).
  - exact demo_set_iter.
  - exact demo_data_dirs.
  - exact demo_data_ext_answers.
Defined.

Lemma level3_md5 (d : Disk) (p : string) :
  WinFile.md5 (WinFile.level3_initialize d (WinFile.fresh p)) = Some (md5file d p).
Proof.
  unfold WinFile.level3_initialize. cbn [WinFile.abspath WinFile.fresh].
  destruct (split p) as [dn bn]. destruct (splitext bn). reflexivity.
Qed.

(** X24.  Whatever tier the class is on, on roots that are directories
    whose listed files are regular files [from_path_by_md5] returns the
    collection of exactly the discovered files whose content hashes to
    the value given, each entity carrying that hash, and leaves
    [init_mode] as it was. *)
Theorem from_path_by_md5_selects (set_iter : list string -> list string)
        (cs : WinFile.ClassState) (d : Disk) (arg : PathArg) (md5_value : string) :
  let roots := match arg with One path => [path] | Many paths => paths end in
  1 <= WinFile.init_mode cs <= 3 ->
  (forall l x, In x (set_iter l) <-> In x l) ->
  (forall root, In root roots -> isdir d root = true) ->
  (forall root raws raw,
      In root roots -> yield_all_file_path d root = Ok raws -> In raw raws ->
      isfile d raw = true) ->
  exists cs' fc,
    from_path_by_md5 set_iter cs d arg md5_value = (cs', Ok fc) /\
    WinFile.init_mode cs' = WinFile.init_mode cs /\
    order fc = None /\
    (forall p, In p (OD.keys (files fc)) <->
               (exists root raws raw,
                   In root roots /\ yield_all_file_path d root = Ok raws /\
                   In raw raws /\ p = abspath (getcwd d) raw) /\
               md5file d p = md5_value) /\
    (forall p w, In (p, w) (files fc) -> WinFile.md5 w = Some md5_value).
Proof.
  intros roots Hmode Hset Hd Hf. unfold from_path_by_md5, from_path_by_criterion.
  pose proof (preprocess_twice set_iter arg Hset) as Hdirs.
  set (slow := WinFile.use_slow_init cs).
  assert (Hent : forall p, WinFile.md5 (WinFile.run_initialize slow d (WinFile.fresh p))
                           = Some (md5file d p)).
  { intros p. apply level3_md5. }
  assert (Hfil : forall p, md5_filter md5_value
                             (WinFile.run_initialize slow d (WinFile.fresh p))
                           = Ok (md5file d p =? md5_value)%string).
  { intros p. unfold md5_filter. now rewrite Hent. }
  rewrite dirs_loop_as_rel.
  destruct (dirs_loop_rel_any slow d (fun _ => md5_filter md5_value)
              (_preprocess set_iter (Many (_preprocess set_iter arg))) [])
    as (fs & Hl & Hb & Hk).
  { intros root Hr. apply Hd. now apply Hdirs. }
  { intros root raws raw Hr Hy Hin. split.
    - apply (Hf root raws raw); auto. now apply Hdirs.
    - rewrite Hfil. now eexists. }
  { apply built_nil. }
  unfold bind. rewrite Hl.
  assert (Hset_mode : exists cs',
             WinFile.set_initialize_mode slow (WinFile.init_mode cs) = (cs', Ok tt) /\
             WinFile.init_mode cs' = WinFile.init_mode cs).
  { unfold WinFile.set_initialize_mode.
    assert (Hm : WinFile.init_mode cs = 3 \/ WinFile.init_mode cs = 2
                 \/ WinFile.init_mode cs = 1) by lia.
    destruct Hm as [-> | [-> | ->]]; cbn; now eexists. }
  destruct Hset_mode as (cs' & -> & Hcs').
  exists cs', {| files := fs; order := None |}.
  split; [reflexivity |]. split; [exact Hcs' |]. split; [reflexivity |].
  cbn [files].
  assert (Hkeys : forall p, In p (OD.keys fs) <->
               (exists root raws raw,
                   In root roots /\ yield_all_file_path d root = Ok raws /\
                   In raw raws /\ p = abspath (getcwd d) raw) /\
               md5file d p = md5_value).
  { intros p. rewrite Hk. split.
    - intros [[] | (root & raws & raw & Hr & Hy & Hraw & Hp & Hc)].
      split.
      + exists root, raws, raw. repeat split; auto. now apply Hdirs.
      + rewrite Hfil in Hc. injection Hc as Hc. now apply String.eqb_eq.
    - intros [(root & raws & raw & Hr & Hy & Hraw & Hp) Hc].
      right. exists root, raws, raw. repeat split; auto; [now apply Hdirs |].
      rewrite Hfil. f_equal. now apply String.eqb_eq. }
  split; [exact Hkeys |].
  intros p w Hin.
  assert (Hp : In p (OD.keys fs)) by (apply in_map_iff; now exists (p, w)).
  apply Hkeys in Hp. destruct Hp as [_ Hp].
  destruct Hb as [_ Hb]. rewrite (Hb p w Hin), Hent. now f_equal.
Qed.

Lemma from_path_by_md5_selects_witness :
  let cs := WinFile.use_fast_init WinFile.class_body in
  let md5_value := "0cc175b9c0f1b6a831c399e269772661" in
  exists cs' fc,
    from_path_by_md5 Demo.set_iter cs Demo.disk (One "/data") md5_value
    = (cs', Ok fc) /\
    WinFile.init_mode cs' = WinFile.init_mode cs /\
    order fc = None /\
    (forall p, In p (OD.keys (files fc)) <->
               (exists root raws raw,
                   In root ["/data"] /\
                   yield_all_file_path Demo.disk root = Ok raws /\
                   In raw raws /\ p = abspath (getcwd Demo.disk) raw) /\
               md5file Demo.disk p = md5_value) /\
    (forall p w, In (p, w) (files fc) -> WinFile.md5 w = Some md5_value).
Proof.
  apply (from_path_by_md5_selects
           Demo.set_iter (WinFile.use_fast_init WinFile.class_body)
           Demo.disk (One "/data") "0cc175b9c0f1b6a831c399e269772661").
  - cbn. lia.
  - exact demo_set_iter.
  - exact demo_data_dirs.
  - exact demo_data_files.
Defined.

End CollectionSelectors.

(** ** More on file collections: construction, order and indexing *)

From Stdlib Require Import Permutation Sorted.

Module CollectionOrder.
Import PyStr PyStrFacts PosixPath PosixPathFacts ODFacts ODMore WinFileFacts
       WinFileMore FileCollection FileCollectionFacts CollectionFactories.

(** *** [sorted] on integer keys *)

Lemma insert_item_perm (reverse : bool) (x : string * WinFile.Value)
      (l : list (string * WinFile.Value)) :
  Permutation (insert_item reverse x l) (x :: l).
Proof.
  induction l as [|y r IH]; cbn [insert_item]; [reflexivity |].
  destruct (if reverse then _ else _); [| reflexivity].
  rewrite IH. apply perm_swap.
Qed.

Lemma isort_perm (reverse : bool) (items : list (string * WinFile.Value)) :
  Permutation (fold_right (insert_item reverse) [] items) items.
Proof.
  induction items as [|x r IH]; cbn [fold_right]; [reflexivity |].
  rewrite insert_item_perm. now constructor.
Qed.

Lemma key_le_trans (reverse : bool) (a b c : WinFile.Value) :
  key_le reverse a b -> key_le reverse b c -> key_le reverse a c.
Proof.
  destruct a, b, c; cbn [key_le]; try tauto. destruct reverse; lia.
Qed.

Lemma insert_item_sorted (reverse : bool) (x : string * WinFile.Value)
      (l : list (string * WinFile.Value)) :
  (exists n, snd x = WinFile.VInt n) ->
  Forall (fun it => exists n, snd it = WinFile.VInt n) l ->
  StronglySorted (fun a b => key_le reverse (snd a) (snd b)) l ->
  StronglySorted (fun a b => key_le reverse (snd a) (snd b))
                 (insert_item reverse x l).
Proof.
  intros [n Hn]. induction l as [|y r IH]; intros Hl Hs.
  - cbn [insert_item]. constructor; constructor.
  - cbn [insert_item].
    inversion Hs as [|? ? Hsr Hy]; subst.
    inversion Hl as [|? ? [m Hm] Hlr]; subst.
    rewrite Hn, Hm. unfold lt_or_false, value_lt.
    destruct (if reverse then n <? m else m <? n) eqn:E.
    + constructor; [now apply IH |].
      apply Forall_forall. intros z Hz.
      apply (Permutation_in _ (insert_item_perm reverse x r)) in Hz.
      destruct Hz as [<- | Hz].
      * rewrite Hn, Hm. cbn [key_le]. destruct reverse; lia.
      * now apply (proj1 (Forall_forall _ _) Hy).
    + constructor; [exact Hs |].
      assert (Hxy : key_le reverse (snd x) (snd y)).
      { rewrite Hn, Hm. cbn [key_le]. destruct reverse; lia. }
      constructor; [exact Hxy |].
      apply Forall_forall. intros z Hz.
      apply (key_le_trans reverse _ (snd y)); [exact Hxy |].
      now apply (proj1 (Forall_forall _ _) Hy).
Qed.

Lemma isort_sorted (reverse : bool) (items : list (string * WinFile.Value)) :
  Forall (fun it => exists n, snd it = WinFile.VInt n) items ->
  StronglySorted (fun a b => key_le reverse (snd a) (snd b))
                 (fold_right (insert_item reverse) [] items).
Proof.
  induction items as [|x r IH]; intros H; cbn [fold_right]; [constructor |].
  inversion H as [|? ? Hx Hr]; subst.
  apply insert_item_sorted; [exact Hx | | now apply IH].
  apply Forall_forall. intros z Hz.
  apply (Permutation_in _ (isort_perm reverse r)) in Hz.
  now apply (proj1 (Forall_forall _ _) Hr).
Qed.

Lemma sorted_int (reverse : bool) (items : list (string * WinFile.Value)) :
  Forall (fun it => exists n, snd it = WinFile.VInt n) items ->
  sorted items reverse = Ok (fold_right (insert_item reverse) [] items).
Proof.
  intros H. unfold sorted.
  assert (Hi : all_int items = true).
  { apply forallb_forall. intros it Hit.
    destruct (proj1 (Forall_forall _ _) H it Hit) as [n ->]. reflexivity. }
  now rewrite Hi, orb_true_r.
Qed.

(** The loop of [sort_by] on a dictionary: one item for each entity, in
    the order of the dictionary. *)
Lemma attr_loop_int (class_attr : string -> option WinFile.Value)
      (attr_name : string) (fs : OD.t WinFile.t) (acc : OD.t WinFile.Value) :
  NoDup (OD.keys acc ++ OD.keys fs) ->
  (forall p w, In (p, w) fs ->
               exists n, WinFile.getattr class_attr w attr_name
                         = Ok (WinFile.VInt n)) ->
  exists items,
    attr_loop class_attr attr_name fs acc = Ok (acc ++ items)%list /\
    map fst items = OD.keys fs /\
    Forall (fun it => exists n, snd it = WinFile.VInt n) items /\
    Forall (fun it => exists w, In (fst it, w) fs /\
                                WinFile.getattr class_attr w attr_name
                                = Ok (snd it)) items.
Proof.
  revert acc. induction fs as [|[p w] rest IH]; intros acc Hnd Hv.
  - exists []. rewrite app_nil_r. repeat split; constructor.
  - destruct (Hv p w (or_introl eq_refl)) as [n Hn].
    cbn [attr_loop]. unfold bind. rewrite Hn.
    cbn [OD.keys map fst] in Hnd.
    rewrite set_fresh.
    2:{ apply NoDup_remove_2 in Hnd. intros H. apply Hnd.
        apply in_or_app. now left. }
    destruct (IH (acc ++ [(p, WinFile.VInt n)])%list) as (items & Hl & Hk & Hi & Hg).
    { unfold OD.keys. rewrite map_app, <- app_assoc. exact Hnd. }
    { intros q v Hq. apply (Hv q v). now right. }
    exists ((p, WinFile.VInt n) :: items). split.
    { rewrite Hl, <- app_assoc. reflexivity. }
    split; [cbn [map fst OD.keys]; f_equal; exact Hk |].
    split; [constructor; [now exists n | exact Hi] |].
    constructor.
    + exists w. split; [now left | exact Hn].
    + apply Forall_forall. intros it Hit.
      destruct (proj1 (Forall_forall _ _) Hg it Hit) as (v & Hin & Hgv).
      exists v. split; [now right | exact Hgv].
Qed.

(** With every path of the order in the dictionary, [iterfiles] looks
    each one up. *)
Lemma iterfiles_try_map (fs : OD.t WinFile.t) (o : list string) :
  (forall q, In q o -> In q (OD.keys fs)) ->
  iterfiles_try fs o
  = map (fun p => match OD.get fs p with
                  | Some w => w
                  | None => WinFile.fresh ""
                  end) o.
Proof.
  induction o as [|q o IH]; intros H; cbn [iterfiles_try map]; [reflexivity |].
  destruct (OD.get fs q) as [w|] eqn:E.
  - f_equal. apply IH. intros; apply H; now right.
  - apply get_none in E. exfalso. apply E, H. now left.
Qed.

Lemma values_map (fs : OD.t WinFile.t) :
  NoDup (OD.keys fs) ->
  OD.values fs
  = map (fun p => match OD.get fs p with
                  | Some w => w
                  | None => WinFile.fresh ""
                  end) (OD.keys fs).
Proof.
  intros Hnd. unfold OD.values, OD.keys. rewrite map_map.
  apply map_ext_in. intros [p w] Hin. cbn [fst snd].
  now rewrite (In_get fs p w Hnd Hin).
Qed.

Lemma StronglySorted_map_in {A B : Type} (R : A -> A -> Prop)
      (R' : B -> B -> Prop) (h : A -> B) (P : A -> Prop) (l : list A) :
  (forall a b, P a -> P b -> R a b -> R' (h a) (h b)) ->
  Forall P l -> StronglySorted R l -> StronglySorted R' (map h l).
Proof.
  intros HR. induction l as [|a r IH]; intros HP Hs; cbn [map]; [constructor |].
  inversion HP as [|? ? Ha Hr]; subst.
  inversion Hs as [|? ? Hsr Har]; subst.
  constructor; [now apply IH |].
  apply Forall_forall. intros z Hz. apply in_map_iff in Hz.
  destruct Hz as (b & <- & Hb).
  apply HR; [exact Ha | | ].
  - now apply (proj1 (Forall_forall _ _) Hr).
  - now apply (proj1 (Forall_forall _ _) Har).
Qed.

(** X25.  On a collection in which the named attribute of every entity
    is an integer (a size or a time), [sort_by] succeeds and keeps
    [files]; the order it sets is a rearrangement of the paths of the
    collection, and [iterfiles] then yields every entity once, with the
    attribute never descending, or with [reverse] never ascending. *)
Theorem sort_by_int_sorts (class_attr : string -> option WinFile.Value)
        (self : t) (attr_name : string) (reverse : bool) :
  NoDup (OD.keys (files self)) ->
  (forall p w, In (p, w) (files self) ->
               exists n, WinFile.getattr class_attr w attr_name
                         = Ok (WinFile.VInt n)) ->
  exists o,
    sort_by class_attr self attr_name reverse
    = ({| files := files self; order := Some o |}, Ok tt) /\
    Permutation o (OD.keys (files self)) /\
    Permutation (iterfiles {| files := files self; order := Some o |})
                (OD.values (files self)) /\
    StronglySorted
      (fun w1 w2 => exists v1 v2,
           WinFile.getattr class_attr w1 attr_name = Ok v1 /\
           WinFile.getattr class_attr w2 attr_name = Ok v2 /\
           key_le reverse v1 v2)
      (iterfiles {| files := files self; order := Some o |}).
Proof.
  intros Hnd Hv.
  destruct (attr_loop_int class_attr attr_name (files self) [] Hnd Hv)
    as (items & Hl & Hk & Hi & Hg).
  cbn [app] in Hl.
  pose proof (isort_perm reverse items) as Hperm.
  exists (map fst (fold_right (insert_item reverse) [] items)).
  assert (Ho : Permutation (map fst (fold_right (insert_item reverse) [] items))
                           (OD.keys (files self))).
  { rewrite <- Hk. now apply Permutation_map. }
  assert (Hin : forall q, In q (map fst (fold_right (insert_item reverse) [] items)) ->
                          In q (OD.keys (files self))).
  { intros q. apply Permutation_in. exact Ho. }
  split.
  { unfold sort_by. rewrite Hl, (sorted_int reverse items Hi). reflexivity. }
  split; [exact Ho |].
  unfold iterfiles. cbn [order files].
  rewrite (iterfiles_try_map _ _ Hin). split.
  - rewrite (values_map _ Hnd). now apply Permutation_map.
  - rewrite map_map.
    apply (StronglySorted_map_in
             (fun a b => key_le reverse (snd a) (snd b)) _ _
             (fun it => exists w, In (fst it, w) (files self) /\
                                  WinFile.getattr class_attr w attr_name
                                  = Ok (snd it))).
    + intros a b (wa & Ha & Hga) (wb & Hb & Hgb) Hab.
      rewrite (In_get _ _ _ Hnd Ha), (In_get _ _ _ Hnd Hb).
      now exists (snd a), (snd b).
    + apply Forall_forall. intros it Hit.
      apply (Permutation_in _ Hperm) in Hit.
      now apply (proj1 (Forall_forall _ _) Hg).
    + now apply isort_sorted.
Qed.

Lemma sort_by_int_sorts_witness :
  exists o,
    sort_by_size Demo.class_attr Demo.fc_data true
    = ({| files := files Demo.fc_data; order := Some o |}, Ok tt) /\
    Permutation o (OD.keys (files Demo.fc_data)) /\
    Permutation (iterfiles {| files := files Demo.fc_data; order := Some o |})
                (OD.values (files Demo.fc_data)) /\
    StronglySorted
      (fun w1 w2 => exists v1 v2,
           WinFile.getattr Demo.class_attr w1 "size_on_disk" = Ok v1 /\
           WinFile.getattr Demo.class_attr w2 "size_on_disk" = Ok v2 /\
           key_le true v1 v2)
      (iterfiles {| files := files Demo.fc_data; order := Some o |}).
Proof.
  apply (sort_by_int_sorts Demo.class_attr Demo.fc_data "size_on_disk" true).
  - vm_compute. repeat constructor; intros H;
      repeat (destruct H as [H | H]; [discriminate |]); destruct H.
  - intros p w H. vm_compute in H.
    repeat (destruct H as [H | H];
            [injection H as <- <-; eexists; vm_compute; reflexivity |]).
    destruct H.
Defined.

(** *** Indexing *)

Lemma getitem_loop_nth (ws : list WinFile.t) (k : Z) :
  getitem_loop ws (k + 1)
  = if 0 <=? k then nth_error ws (Z.to_nat k) else None.
Proof.
  revert k. induction ws as [|w rest IH]; intros k; cbn [getitem_loop].
  - destruct (0 <=? k); [now destruct (Z.to_nat k) | reflexivity].
  - replace (k + 1 - 1) with k by lia.
    destruct (k =? 0) eqn:E0.
    + apply Z.eqb_eq in E0. subst k. reflexivity.
    + apply Z.eqb_neq in E0.
      replace k with (k - 1 + 1) at 1 by lia. rewrite IH.
      destruct (0 <=? k) eqn:Ek.
      * apply Z.leb_le in Ek.
        replace (0 <=? k - 1) with true by (symmetry; apply Z.leb_le; lia).
        replace (Z.to_nat k) with (S (Z.to_nat (k - 1))) by lia. reflexivity.
      * apply Z.leb_gt in Ek.
        replace (0 <=? k - 1) with false by (symmetry; apply Z.leb_gt; lia).
        reflexivity.
Qed.

(** X26.  On a collection that has not been sorted, [fc[index]] is the
    entity added as the [index]-th, counting from 0; for an index past the
    end, and for every negative index, it is [None]: no exception is
    raised and nothing is counted from the end. *)
Theorem getitem_without_order (self : t) (index : Z) :
  order self = None ->
  __getitem__ self index
  = if 0 <=? index then nth_error (OD.values (files self)) (Z.to_nat index)
    else None.
Proof.
  intros H. unfold __getitem__, iterfiles. rewrite H. apply getitem_loop_nth.
Qed.

Lemma getitem_without_order_witness :
  __getitem__ Demo.fc_data (-1)
  = if 0 <=? -1 then nth_error (OD.values (files Demo.fc_data)) (Z.to_nat (-1))
    else None.
Proof.
  apply (getitem_without_order Demo.fc_data (-1)). reflexivity.
Defined.

(** *** The walks *)

(** X27.  [yield_all_top_file_path] raises [EnvironmentError] exactly
    when [yield_all_file_path] does, on a path that is no directory;
    otherwise the paths it yields are the first ones
    [yield_all_file_path] yields, in the same order. *)
Theorem yield_all_top_file_path_prefix (d : Disk) (dir_abspath : string) :
  match yield_all_top_file_path d dir_abspath with
  | Ok tops =>
      isdir d dir_abspath = true /\
      exists rest, yield_all_file_path d dir_abspath = Ok (tops ++ rest)%list
  | Raise e =>
      e = EnvironmentError /\ isdir d dir_abspath = false /\
      yield_all_file_path d dir_abspath = Raise EnvironmentError
  end.
Proof.
  unfold yield_all_top_file_path, yield_all_file_path.
  destruct (isdir d dir_abspath); [| repeat split].
  split; [reflexivity |].
  destruct (walk d (abspath (getcwd d) dir_abspath)) as [|[cf fl] rest].
  - exists []. reflexivity.
  - cbn [flat_map]. now eexists.
Qed.

(** *** The constructor *)

Lemma built_set (cs : WinFile.ClassState) (d : Disk) (fs : OD.t WinFile.t)
      (p : string) :
  built_files cs d fs ->
  built_files cs d (OD.set fs p (WinFile.run_initialize cs d (WinFile.fresh p))).
Proof.
  intros [[Hnd Hk] He]. split; [split |].
  - now apply NoDup_set.
  - intros q w H. apply In_set in H. destruct H as [H | H]; [now apply Hk |].
    injection H as -> ->. apply entity_abspath.
  - intros q w H. apply In_set in H. destruct H as [H | H]; [now apply He |].
    now injection H as -> ->.
Qed.

Lemma init_loop_spec (cs : WinFile.ClassState) (d : Disk) (paths : list string)
      (fs : OD.t WinFile.t) :
  built_files cs d fs ->
  match init_loop cs d paths fs with
  | Ok fs' =>
      (forall raw, In raw paths -> isfile d raw = true) /\
      built_files cs d fs' /\
      forall p, In p (OD.keys fs') <->
                In p (OD.keys fs) \/
                exists raw, In raw paths /\ p = abspath (getcwd d) raw
  | Raise e =>
      e = EnvironmentError /\ exists raw, In raw paths /\ isfile d raw = false
  end.
Proof.
  revert fs. induction paths as [|raw rest IH]; intros fs Hb; cbn [init_loop].
  - split; [intros raw [] |]. split; [exact Hb |].
    intros p. split; [now left | intros [H | (raw & [] & _)]; exact H].
  - unfold bind. unfold WinFile.__init__ at 1.
    destruct (isfile d raw) eqn:Hfile.
    2:{ split; [reflexivity |]. exists raw. split; [now left | exact Hfile]. }
    rewrite entity_abspath.
    specialize (IH _ (built_set cs d fs (abspath (getcwd d) raw) Hb)).
    destruct (init_loop cs d rest _) as [fs'|e].
    + destruct IH as (Hall & Hb' & Hk). split.
      { intros r [<- | Hr]; [exact Hfile | now apply Hall]. }
      split; [exact Hb' |].
      intros p. rewrite Hk, In_keys_set. split.
      * intros [[H | ->] | (r & Hr & Hp)].
        -- now left.
        -- right. exists raw. split; [now left | reflexivity].
        -- right. exists r. split; [now right | exact Hp].
      * intros [H | (r & [<- | Hr] & Hp)].
        -- now left; left.
        -- left; right. exact Hp.
        -- right. now exists r.
    + destruct IH as (He & r & Hr & Hf). split; [exact He |].
      exists r. split; [now right | exact Hf].
Qed.

(** X28.  [FileCollection(paths)] raises [EnvironmentError] when one of
    the paths is not an existing regular file, and nothing else;
    otherwise the collection has no explicit order and holds exactly the
    absolute paths of the paths given, each once, each with the entity
    [WinFile] builds for it. *)
Theorem init_collects (set_iter : list string -> list string)
        (cs : WinFile.ClassState) (d : Disk) (arg : PathArg) :
  let paths := match arg with One path => [path] | Many paths => paths end in
  (forall l x, In x (set_iter l) <-> In x l) ->
  match __init__ set_iter cs d arg with
  | Ok fc =>
      (forall raw, In raw paths -> isfile d raw = true) /\
      order fc = None /\
      built_files cs d (files fc) /\
      forall p, In p (OD.keys (files fc)) <->
                exists raw, In raw paths /\ p = abspath (getcwd d) raw
  | Raise e =>
      e = EnvironmentError /\ exists raw, In raw paths /\ isfile d raw = false
  end.
Proof.
  intros paths Hset. unfold __init__, bind.
  pose proof (preprocess_once set_iter arg Hset) as Hp.
  pose proof (init_loop_spec cs d (_preprocess set_iter arg) []
                             (built_nil cs d)) as H.
  destruct (init_loop cs d (_preprocess set_iter arg) []) as [fs|e].
  - destruct H as (Hall & Hb & Hk). split.
    { intros raw Hr. apply Hall. now apply Hp. }
    split; [reflexivity |]. split; [exact Hb |].
    cbn [files]. intros p. rewrite Hk. split.
    + intros [[] | (raw & Hr & E)]. exists raw. split; [now apply Hp | exact E].
    + intros (raw & Hr & E). right. exists raw. split; [now apply Hp | exact E].
  - destruct H as (He & raw & Hr & Hf). split; [exact He |].
    exists raw. split; [now apply Hp | exact Hf].
Qed.

Lemma init_collects_witness :
  match __init__ Demo.set_iter WinFile.class_body Demo.disk
                 (Many ["/data/A.TXT"; "/nope"; "/data/A.TXT"]) with
  | Ok fc =>
      (forall raw, In raw ["/data/A.TXT"; "/nope"; "/data/A.TXT"] ->
                   isfile Demo.disk raw = true) /\
      order fc = None /\
      built_files WinFile.class_body Demo.disk (files fc) /\
      forall p, In p (OD.keys (files fc)) <->
                exists raw, In raw ["/data/A.TXT"; "/nope"; "/data/A.TXT"] /\
                            p = abspath (getcwd Demo.disk) raw
  | Raise e =>
      e = EnvironmentError /\
      exists raw, In raw ["/data/A.TXT"; "/nope"; "/data/A.TXT"] /\
                  isfile Demo.disk raw = false
  end.
Proof.
  apply (init_collects Demo.set_iter WinFile.class_body Demo.disk
                       (Many ["/data/A.TXT"; "/nope"; "/data/A.TXT"])).
  exact demo_set_iter.
Defined.

End CollectionOrder.

(** ** More on directories: renaming *)

Module WinDirMore.
Import PyStr PosixPath PosixPathFacts WinFileMore.

(** What [__init__] leaves in the path slots of a directory. *)
Lemma windir_init_joined (oswalk : WinDir.Walk) (d : Disk) (path : string)
      (w : WinDir.t) :
  WinDir.__init__ oswalk d path = inl w ->
  WinDir.abspath w = join (WinDir.dirname w) (WinDir.basename w).
Proof.
  unfold WinDir.__init__. destruct (isdir d path); [| discriminate].
  pose proof (join_split_abspath (getcwd d) path) as Hj.
  destruct (split (abspath (getcwd d) path)) as [dn bn]. cbn [fst snd] in Hj.
  unfold WinDir.get_detail. destruct (WinDir.totals _ _) as [[s n] m].
  destruct (oswalk _) as [|[[cur folders] fnames] rest]; [discriminate |].
  intros H. injection H as <-. cbn. now symmetry.
Qed.

(** X29.  [rename()] without a new directory or name, on a directory that
    has been constructed, asks [os.rename] to rename the directory onto
    itself, and leaves the object as it is whatever [os.rename]
    answers. *)
Theorem windir_rename_nothing
        (os_rename : Disk -> string -> string -> Result Disk)
        (oswalk : WinDir.Walk) (d d0 : Disk) (path : string) (w : WinDir.t)
        (a b : option string) :
  WinDir.__init__ oswalk d0 path = inl w ->
  WinFile.truthy a = false -> WinFile.truthy b = false ->
  WinDir.rename os_rename d w a b
  = match os_rename d (WinDir.abspath w) (WinDir.abspath w) with
    | Ok d' => (d', w, Ok tt)
    | Raise e => (d, w, Raise e)
    end.
Proof.
  intros Hi Ha Hb. pose proof (windir_init_joined _ _ _ _ Hi) as Hj.
  unfold WinDir.rename. rewrite (or_else_falsy b _ Hb).
  assert (Ea : match a with
               | Some s => if (s =? "")%string then WinDir.dirname w
                           else abspath (getcwd d) s
               | None => WinDir.dirname w
               end = WinDir.dirname w).
  { destruct a as [s|]; [| reflexivity]. simpl in Ha.
    destruct (s =? "")%string; [reflexivity | discriminate]. }
  rewrite Ea, <- Hj.
  destruct (os_rename d (WinDir.abspath w) (WinDir.abspath w)); [| reflexivity].
  now destruct w.
Qed.

Lemma windir_rename_nothing_witness :
  exists w,
    WinDir.__init__ Demo.oswalk Demo.disk "/data/sub" = inl w /\
    WinDir.rename Demo.os_rename Demo.disk w (Some "") None
    = match Demo.os_rename Demo.disk (WinDir.abspath w) (WinDir.abspath w) with
      | Ok d' => (d', w, Ok tt)
      | Raise e => (Demo.disk, w, Raise e)
      end.
Proof.
  eexists. split; [vm_compute; reflexivity |].
  apply (windir_rename_nothing Demo.os_rename Demo.oswalk Demo.disk Demo.disk
                               "/data/sub"); reflexivity.
Defined.

End WinDirMore.

(** ** More on the file filters *)

Module FileFilterFacts.
Import PyStr PyStrFacts.

Ltac decided :=
  subst;
  solve [ match goal with
          | Hc : _ = false |- _ => vm_compute in Hc; discriminate Hc
          end
        | vm_compute; first [reflexivity | repeat constructor] ].

Ltac listed H :=
  apply mem_In in H; cbn [In] in H;
  repeat (destruct H as [H | H]; [decided |]);
  destruct H.

Ltac by_list :=
  match goal with
  | |- context [mem ?x ?l] =>
      let H := fresh "H" in destruct (mem x l) eqn:H; [listed H |]
  end.

Ltac by_name s :=
  match goal with
  | |- context [(?x =? s)%string] =>
      let H := fresh "H" in
      destruct (x =? s)%string eqn:H;
      [apply String.eqb_eq in H; decided |]
  end.

(** X30.  The eight filters sort the extensions into classes: an entity
    is accepted by at most one of them, save that [.mp4] and [.webm] are
    both audio and video, and nothing else. *)
Theorem filters_overlap (winfile : WinFile.t) :
  let accepted :=
    [FileFilter.image winfile; FileFilter.audio winfile;
     FileFilter.video winfile; FileFilter.pdf winfile;
     FileFilter.word winfile; FileFilter.excel winfile;
     FileFilter.ppt winfile; FileFilter.archive winfile] in
  if ((WinFile.ext winfile =? ".mp4")%string
      || (WinFile.ext winfile =? ".webm")%string)%bool
  then accepted = [false; true; true; false; false; false; false; false]
  else (List.length (filter (fun b : bool => b) accepted) <= 1)%nat.
Proof.
  unfold FileFilter.image, FileFilter.audio, FileFilter.video, FileFilter.pdf,
    FileFilter.word, FileFilter.excel, FileFilter.ppt, FileFilter.archive,
    FileFilter.video_exts, FileFilter.archive_exts.
  generalize (WinFile.ext winfile). intros e. cbv zeta.
  by_name ".pdf". by_name ".ppt".
  do 6 by_list.
  destruct (e =? ".mp4")%string eqn:E1.
  { apply String.eqb_eq in E1. subst. discriminate. }
  destruct (e =? ".webm")%string eqn:E2.
  { apply String.eqb_eq in E2. subst. discriminate. }
  cbn. repeat constructor.
Qed.

End FileFilterFacts.
